(** * fdf_to_shapely: extraction of geometric markup from FDF documents

    A shallow embedding of [fdf_to_wkt.py] (and of the converter that
    [fdf_to_shapely.py] duplicates), with the properties of the annotation
    assembler, of the field extractors and of the WKT converter.

    Conventions of the embedding.
    - A Python [str] is a [string]; its characters are the code points below
      256.  FDF object headers and content-stream operators are ASCII.
    - A Python call either returns or raises: [outcome].
    - A Python dict with string keys is a [gmap string pyval].
    - A Python float is never computed with by this program; it is kept as
      the text it was converted from, [PyFloat s] standing for [float(s)]. *)

From Stdlib Require Import Ascii Bool Arith ZArith Lia.
From Stdlib Require String.
From stdpp Require Import base option list strings gmap fin_maps.

#[local] Set Warnings "-clear-no-such-hyp".

(** ** Python values and control *)

Module Py.

Inductive exn := TypeError | ValueError | IndexError | KeyError.

Inductive outcome (A : Type) : Type :=
| Returns (a : A)
| Raises (e : exn).
Arguments Returns {A} a.
Arguments Raises {A} e.

Definition bind {A B} (m : outcome A) (f : A -> outcome B) : outcome B :=
  match m with
  | Returns a => f a
  | Raises e => Raises e
  end.

#[warnings="-register-all"] Inductive pyval :=
| PyNone
| PyStr (s : string)
| PyFloat (text : string)
| PyTuple (items : list pyval).

(** Truth value of a [str] or [None] held in a variable. *)
Definition truthy_str (o : option string) : bool :=
  match o with
  | Some (String _ _) => true
  | _ => false
  end.

(** [sub in s] *)
Fixpoint str_in (sub s : string) : bool :=
  String.prefix sub s ||
  match s with
  | EmptyString => false
  | String _ s' => str_in sub s'
  end.

(** [s.split(sep)] for a one-character separator *)
Fixpoint split_char (sep : ascii) (s : string) : list string :=
  match s with
  | EmptyString => [EmptyString]
  | String c s' =>
      if Ascii.eqb c sep then EmptyString :: split_char sep s'
      else match split_char sep s' with
           | t :: ts => String c t :: ts
           | [] => [String c EmptyString]
           end
  end.

(** [str.isspace] on one character (code points below 256) *)
Definition is_space (c : ascii) : bool :=
  let n := nat_of_ascii c in
  (Nat.leb 9 n && Nat.leb n 13) || (Nat.leb 28 n && Nat.leb n 32)
  || Nat.eqb n 133 || Nat.eqb n 160.

(** [s.split()] : the runs of non-blank characters *)
Fixpoint split_ws (s : string) : list string :=
  match s with
  | EmptyString => []
  | String c s' =>
      if is_space c then split_ws s'
      else match s' with
           | EmptyString => [String c EmptyString]
           | String c' _ =>
               if is_space c' then String c EmptyString :: split_ws s'
               else match split_ws s' with
                    | t :: ts => String c t :: ts
                    | [] => [String c EmptyString]
                    end
           end
  end.

(** [sep.join(items)] *)
Fixpoint join (sep : string) (items : list string) : string :=
  match items with
  | [] => EmptyString
  | [x] => x
  | x :: rest => x +:+ sep +:+ join sep rest
  end.

Definition is_digit (c : ascii) : bool :=
  let n := nat_of_ascii c in Nat.leb 48 n && Nat.leb n 57.

Definition lower (c : ascii) : ascii :=
  let n := nat_of_ascii c in
  if Nat.leb 65 n && Nat.leb n 90 then ascii_of_nat (n + 32) else c.

Fixpoint lower_str (s : string) : string :=
  match s with
  | EmptyString => EmptyString
  | String c s' => String (lower c) (lower_str s')
  end.

(** The blanks that [float] strips from both ends of its argument: the
    ASCII blanks and the two blanks above 127.  The separators 28 to 31,
    which [str.isspace] accepts, are not among them: [float] refuses a text
    that starts or ends with one. *)
Definition is_float_space (c : ascii) : bool :=
  let n := nat_of_ascii c in
  (Nat.leb 9 n && Nat.leb n 13) || Nat.eqb n 32
  || Nat.eqb n 133 || Nat.eqb n 160.

Fixpoint lstrip (blank : ascii -> bool) (s : string) : string :=
  match s with
  | String c s' => if blank c then lstrip blank s' else s
  | EmptyString => EmptyString
  end.

Fixpoint rstrip (blank : ascii -> bool) (s : string) : string :=
  match s with
  | EmptyString => EmptyString
  | String c s' =>
      match rstrip blank s' with
      | EmptyString => if blank c then EmptyString else String c EmptyString
      | t => String c t
      end
  end.

(** One group of digits of a float literal, [\d(_?\d)*]: the text left
    after it, or [None] when [s] does not start with a digit. *)
Fixpoint digit_part (s : string) : option string :=
  match s with
  | String c s' =>
      if is_digit c then
        match digit_part s' with
        | Some r => Some r
        | None =>
            match s' with
            | String u s'' =>
                if Ascii.eqb u "_" then
                  match digit_part s'' with
                  | Some r => Some r
                  | None => Some s'
                  end
                else Some s'
            | EmptyString => Some s'
            end
        end
      else None
  | EmptyString => None
  end.

Definition skip_sign (s : string) : string :=
  match s with
  | String c s' => if Ascii.eqb c "+" || Ascii.eqb c "-" then s' else s
  | EmptyString => s
  end.

(** The exponent of a float literal and what must follow it: nothing. *)
Definition exponent_ok (s : string) : bool :=
  match s with
  | EmptyString => true
  | String c s' =>
      if Ascii.eqb (lower c) "e" then
        match digit_part (skip_sign s') with
        | Some EmptyString => true
        | _ => false
        end
      else false
  end.

(** Whether [float(s)] accepts the text [s] (it raises ValueError
    otherwise). *)
Definition float_accepts (s : string) : bool :=
  let body := skip_sign (rstrip is_float_space (lstrip is_float_space s)) in
  let name := lower_str body in
  if String.eqb name "inf" || String.eqb name "infinity" || String.eqb name "nan"
  then true
  else
    match digit_part body with
    | Some (String c r) =>
        if Ascii.eqb c "." then
          match digit_part r with
          | Some r' => exponent_ok r'
          | None => exponent_ok r
          end
        else exponent_ok (String c r)
    | Some EmptyString => true
    | None =>
        match body with
        | String c r =>
            if Ascii.eqb c "." then
              match digit_part r with
              | Some r' => exponent_ok r'
              | None => false
              end
            else false
        | EmptyString => false
        end
    end.

(** [float(s)] *)
Definition float (s : string) : outcome pyval :=
  if float_accepts s then Returns (PyFloat s) else Raises ValueError.

(** [s.find(sub)]: the lowest index where [sub] starts, or -1. *)
Fixpoint find_from (sub s : string) (i : Z) : Z :=
  if String.prefix sub s then i
  else match s with
       | EmptyString => (-1)%Z
       | String _ s' => find_from sub s' (i + 1)%Z
       end.

Definition find (sub s : string) : Z := find_from sub s 0%Z.

(** A bound of a slice of a sequence of length [n]: counted from the end
    when negative, and brought into [0, n]. *)
Definition slice_bound (n i : Z) : Z :=
  if (i <? 0)%Z then Z.max 0 (i + n) else Z.min i n.

(** [s[a:b]] and [s[a:]] *)
Definition slice (s : string) (a b : Z) : string :=
  let n := Z.of_nat (String.length s) in
  let first := slice_bound n a in
  let last := slice_bound n b in
  String.substring (Z.to_nat first) (Z.to_nat (last - first)) s.

Definition slice_from (s : string) (a : Z) : string :=
  slice s a (Z.of_nat (String.length s)).

End Py.

Import Py.

#[global] Instance outcome_ret : MRet outcome := @Returns.
#[global] Instance outcome_bind : MBind outcome := fun A B f m => Py.bind m f.


(** ** The pattern search of the [parse] package

    The program finds every field with [parse.search(format, line)].  The
    package turns a format into a regular expression and hands it to [re]:
    literal text stands for itself, a field [{}] becomes the group [(.+?)],
    a field [{:g}] becomes the group
    [([-+ ]?\d+(\.\d+)?([eE][-+]?\d+)?|nan|NAN|[-+]?inf|[-+]?INF)]; the flags are
    DOTALL, and IGNORECASE unless [case_sensitive] is set.  [re.search] tries
    the start positions from left to right and, at each, the alternatives in
    priority order with backtracking; that is what [rmatch] does, passing the
    rest of the match as a continuation. *)

Module Parse.

Inductive regex :=
| Chr (p : ascii -> bool)
| Eps
| Cat (r1 r2 : regex)
| Alt (r1 r2 : regex)
| Opt (r : regex)
| Many1 (p : ascii -> bool)
| Lazy1 (p : ascii -> bool)
| Grp (r : regex).

(** [p+], longest first *)
Fixpoint greedy1 {A} (p : ascii -> bool) (s : string)
    (k : string -> option A) : option A :=
  match s with
  | String c s' =>
      if p c then
        match greedy1 p s' k with
        | Some r => Some r
        | None => k s'
        end
      else None
  | EmptyString => None
  end.

(** [p+?], shortest first *)
Fixpoint lazy1 {A} (p : ascii -> bool) (s : string)
    (k : string -> option A) : option A :=
  match s with
  | String c s' =>
      if p c then
        match k s' with
        | Some r => Some r
        | None => lazy1 p s' k
        end
      else None
  | EmptyString => None
  end.

(** What a match consumed of [s] when [rest] is left. *)
Definition consumed (s rest : string) : string :=
  String.substring 0 (String.length s - String.length rest) s.

Fixpoint rmatch {A} (r : regex) (s : string) (caps : list string)
    (k : string -> list string -> option A) : option A :=
  match r with
  | Chr p =>
      match s with
      | String c s' => if p c then k s' caps else None
      | EmptyString => None
      end
  | Eps => k s caps
  | Cat r1 r2 => rmatch r1 s caps (fun s1 caps1 => rmatch r2 s1 caps1 k)
  | Alt r1 r2 =>
      match rmatch r1 s caps k with
      | Some x => Some x
      | None => rmatch r2 s caps k
      end
  | Opt r1 =>
      match rmatch r1 s caps k with
      | Some x => Some x
      | None => k s caps
      end
  | Many1 p => greedy1 p s (fun s' => k s' caps)
  | Lazy1 p => lazy1 p s (fun s' => k s' caps)
  | Grp r1 => rmatch r1 s caps (fun s1 caps1 => k s1 (caps1 ++ [consumed s s1]))
  end.

(** [re.search]: the leftmost start position that matches. *)
Fixpoint search_re (r : regex) (s : string) : option (list string) :=
  match rmatch r s [] (fun _ caps => Some caps) with
  | Some caps => Some caps
  | None =>
      match s with
      | String _ s' => search_re r s'
      | EmptyString => None
      end
  end.

Inductive field := FieldStr | FieldG.

Inductive part :=
| Text (c : ascii)
| Field (f : field).

(** The fields the program uses are [{}] and [{:g}]. *)
Fixpoint parts_of (format : string) : list part :=
  match format with
  | EmptyString => []
  | String "{" (String "}" rest) => Field FieldStr :: parts_of rest
  | String "{" (String ":" (String "g" (String "}" rest))) =>
      Field FieldG :: parts_of rest
  | String c rest => Text c :: parts_of rest
  end.

Definition same_char (case_sensitive : bool) (c d : ascii) : bool :=
  if case_sensitive then Ascii.eqb c d else Ascii.eqb (lower c) (lower d).

Fixpoint literal (case_sensitive : bool) (text : string) : regex :=
  match text with
  | EmptyString => Eps
  | String c rest => Cat (Chr (same_char case_sensitive c)) (literal case_sensitive rest)
  end.

Definition any_char (_ : ascii) : bool := true.

Definition one_of (chars : string) (c : ascii) : bool :=
  str_in (String c EmptyString) chars.

Definition general_number (case_sensitive : bool) : regex :=
  Alt (Cat (Opt (Chr (one_of "-+ ")))
      (Cat (Many1 is_digit)
      (Cat (Opt (Cat (Chr (one_of ".")) (Many1 is_digit)))
           (Opt (Cat (Chr (one_of "eE"))
                (Cat (Opt (Chr (one_of "-+"))) (Many1 is_digit)))))))
 (Alt (literal case_sensitive "nan")
 (Alt (literal case_sensitive "NAN")
 (Alt (Cat (Opt (Chr (one_of "-+"))) (literal case_sensitive "inf"))
      (Cat (Opt (Chr (one_of "-+"))) (literal case_sensitive "INF"))))).

Definition field_regex (case_sensitive : bool) (f : field) : regex :=
  match f with
  | FieldStr => Grp (Lazy1 any_char)
  | FieldG => Grp (general_number case_sensitive)
  end.

Fixpoint expression (case_sensitive : bool) (parts : list part) : regex :=
  match parts with
  | [] => Eps
  | Text c :: rest =>
      Cat (Chr (same_char case_sensitive c)) (expression case_sensitive rest)
  | Field f :: rest =>
      Cat (field_regex case_sensitive f) (expression case_sensitive rest)
  end.

Fixpoint fields_of (parts : list part) : list field :=
  match parts with
  | [] => []
  | Text _ :: rest => fields_of rest
  | Field f :: rest => f :: fields_of rest
  end.

(** The conversion of a field's text: [{}] keeps the text, [{:g}] applies
    [float], which accepts every text its pattern matches. *)
Definition convert (f : field) (text : string) : pyval :=
  match f with
  | FieldStr => PyStr text
  | FieldG => PyFloat text
  end.

Fixpoint convert_all (fs : list field) (texts : list string) : list pyval :=
  match fs, texts with
  | f :: fs', t :: texts' => convert f t :: convert_all fs' texts'
  | _, _ => []
  end.

(** [parse.search(format, line, case_sensitive=...)]: [None] or the
    result's positional values. *)
Definition search_with (case_sensitive : bool) (format line : string)
    : option (list pyval) :=
  let parts := parts_of format in
  match search_re (expression case_sensitive parts) line with
  | Some texts => Some (convert_all (fields_of parts) texts)
  | None => None
  end.

Definition search := search_with false.

End Parse.

(** ** fdf_to_wkt.py *)

Module FdfToWkt.

Record AnnotationProperties := {
  line_color : pyval;
  line_opacity : pyval;
  line_weight : pyval;
  line_type : pyval;
  fill_color : pyval;
  fill_opacity : pyval
}.

(** The dataclass [Annotation]; [geom], the geometry object that the
    external library builds from [wkt], is left out. *)
Record Annotation := {
  object_type : string;
  vertices : string;
  page : pyval;
  label : pyval;
  properties : option AnnotationProperties;
  wkt : option string
}.

Definition field_names : gset string :=
  {[ "line_color"; "line_opacity"; "line_weight";
     "line_type"; "fill_color"; "fill_opacity" ]}.

Definition keyword (kw : gmap string pyval) (name : string) : pyval :=
  default PyNone (kw !! name).

(** The dataclass constructor called with the dict [kw] as its keyword
    arguments: a keyword that is no field is a TypeError, a field without
    keyword is [None]. *)
Definition new_AnnotationProperties (kw : gmap string pyval)
    : outcome AnnotationProperties :=
  if bool_decide (dom kw ⊆ field_names) then
    Returns {| line_color := keyword kw "line_color";
               line_opacity := keyword kw "line_opacity";
               line_weight := keyword kw "line_weight";
               line_type := keyword kw "line_type";
               fill_color := keyword kw "fill_color";
               fill_opacity := keyword kw "fill_opacity" |}
  else Raises TypeError.

(** [d.update(other)] *)
Definition update (d other : gmap string pyval) : gmap string pyval :=
  other ∪ d.

(** [d.pop(key)]: the value and the dict without the key. *)
Definition pop (key : string) (d : gmap string pyval)
    : outcome (pyval * gmap string pyval) :=
  match d !! key with
  | Some v => Returns (v, delete key d)
  | None => Raises KeyError
  end.

(** Truth value of a dict. *)
Definition dict_truthy (d : gmap string pyval) : bool :=
  negb (Nat.eqb (size d) 0).

(** [result[0]] where the first field of the format is [{}]: subscripting
    [None] is a TypeError. *)
Definition item0 (result : option (list pyval)) : outcome string :=
  match result with
  | None => Raises TypeError
  | Some (PyStr text :: _) => Returns text
  | Some _ => Raises IndexError
  end.

(** [result[0] if result else None], as the extractors of one value do. *)
Definition first_or_none (result : option (list pyval)) : pyval :=
  match result with
  | Some (v :: _) => v
  | _ => PyNone
  end.

Definition extract_type_and_vertices (line : string)
    : outcome (option (string * string)) :=
  match Parse.search "obj<</Subj({})" line with
  | Some possible_annotation =>
      annot_type ← item0 (Some possible_annotation);
      if String.eqb annot_type "Line" then
        vertices ← item0 (Parse.search "/L[{}]" line);
        Returns (Some (annot_type, vertices))
      else if String.eqb annot_type "Circle" || String.eqb annot_type "PolyLine"
              || String.eqb annot_type "Polygon" then
        vertices ← item0 (Parse.search "/Vertices[{}]" line);
        Returns (Some (annot_type, vertices))
      else if String.eqb annot_type "Rectangle" || String.eqb annot_type "Square" then
        bbox ← item0 (Parse.search "/Rect[{}]" line);
        match split_ws bbox with
        | [x1; y1; x2; y2] =>
            Returns (Some (annot_type, join " " [x1; y1; x1; y2; x2; y2; x2; y1]))
        | _ => Raises ValueError
        end
      else Returns None
  | None => Returns None
  end.

Definition extract_object_opacity (line : string) : gmap string pyval :=
  let fill_opacity := first_or_none (Parse.search "/FillOpacity {:g}/" line) in
  let line_opacity := first_or_none (Parse.search "/LineOpacity {:g}/" line) in
  <["fill_opacity" := fill_opacity]> (<["line_opacity" := line_opacity]> ∅).

Definition extract_label (line : string) : gmap string pyval :=
  {[ "label" := first_or_none (Parse.search "/Contents({})/" line) ]}.

Definition extract_page (line : string) : gmap string pyval :=
  {[ "page" := first_or_none (Parse.search "/Page({})" line) ]}.

Definition extract_object_properties (line : string) : gmap string pyval :=
  let object_properties := ∅ in
  let object_properties := update object_properties (extract_object_opacity line) in
  let object_properties := update object_properties (extract_label line) in
  let object_properties := update object_properties (extract_page line) in
  object_properties.

Definition parse_line_color (stream_line : string) : pyval :=
  match Parse.search_with true "{:g} {:g} {:g} RG" stream_line with
  | Some line_color_result => PyTuple line_color_result
  | None => PyNone
  end.

Definition parse_fill_color (stream_line : string) : pyval :=
  match Parse.search_with true "{:g} {:g} {:g} rg" stream_line with
  | Some fill_color_result => PyTuple fill_color_result
  | None => PyNone
  end.

Definition parse_line_weight (stream_line : string) : pyval :=
  first_or_none (Parse.search_with true " {:g} w" stream_line).

(** The loop [for line in ...split(" "): acc.append(float(line))]. *)
Fixpoint floats (texts : list string) : outcome (list pyval) :=
  match texts with
  | [] => Returns []
  | t :: rest =>
      v ← float t;
      acc ← floats rest;
      Returns (v :: acc)
  end.

Definition parse_line_type (stream_line : string) : outcome pyval :=
  match Parse.search " [{}] {:g} d" stream_line with
  | Some line_type_data =>
      pattern ← item0 (Some line_type_data);
      acc ← floats (split_char " " pattern);
      Returns (PyTuple [default PyNone (line_type_data !! 1%nat); PyTuple acc])
  | None => Returns PyNone
  end.

Definition extract_stream_properties (stream_line : string)
    : outcome (gmap string pyval) :=
  let line_color := parse_line_color stream_line in
  let fill_color := parse_fill_color stream_line in
  let line_weight := parse_line_weight stream_line in
  line_type ← parse_line_type stream_line;
  Returns (<["line_color" := line_color]> (<["fill_color" := fill_color]>
          (<["line_weight" := line_weight]> (<["line_type" := line_type]> ∅)))).

(** The local variables of [get_annotations_from_fdf].  [label] and [page]
    are bound by the first header that is taken up and read only after
    that; [annot_type], [vertices] and [stream_data] start as [None]. *)
Record scanner := {
  annotations : list Annotation;
  in_stream_data : bool;
  stream_data : option string;
  stream_properties : gmap string pyval;
  annotation_properties : gmap string pyval;
  annot_type : option string;
  pending_vertices : option string;
  pending_label : pyval;
  pending_page : pyval
}.

Definition start : scanner :=
  {| annotations := [];
     in_stream_data := false;
     stream_data := None;
     stream_properties := ∅;
     annotation_properties := ∅;
     annot_type := None;
     pending_vertices := None;
     pending_label := PyNone;
     pending_page := PyNone |}.

(** Lines 104 to 124: what the loop body does with a line that none of
    the [continue] branches took. *)
Definition take_up (st : scanner) (line : string) : outcome scanner :=
  type_and_vertices ← extract_type_and_vertices line;
  let object_properties := extract_object_properties line in
  if truthy_str (annot_type st) && truthy_str (pending_vertices st)
     && dict_truthy (stream_properties st) then
    let annotation_properties :=
      update (annotation_properties st) (stream_properties st) in
    properties ← new_AnnotationProperties annotation_properties;
    let annotation :=
      {| object_type := default EmptyString (annot_type st);
         vertices := default EmptyString (pending_vertices st);
         page := pending_page st;
         label := pending_label st;
         properties := Some properties;
         wkt := None |} in
    Returns {| annotations := annotations st ++ [annotation];
               in_stream_data := in_stream_data st;
               stream_data := stream_data st;
               stream_properties := ∅;
               annotation_properties := annotation_properties;
               annot_type := annot_type st;
               pending_vertices := pending_vertices st;
               pending_label := pending_label st;
               pending_page := pending_page st |}
  else
    match type_and_vertices with
    | Some (new_type, new_vertices) =>
        '(label, object_properties) ← pop "label" object_properties;
        '(page, object_properties) ← pop "page" object_properties;
        Returns {| annotations := annotations st;
                   in_stream_data := in_stream_data st;
                   stream_data := stream_data st;
                   stream_properties := stream_properties st;
                   annotation_properties :=
                     update (annotation_properties st) object_properties;
                   annot_type := Some new_type;
                   pending_vertices := Some new_vertices;
                   pending_label := label;
                   pending_page := page |}
    | None => Returns st
    end.

(** One iteration of [for line in fdf_str]. *)
Definition step (st : scanner) (line : string) : outcome scanner :=
  if str_in "endstream" line && truthy_str (stream_data st) then
    stream_properties ←
      extract_stream_properties (default EmptyString (stream_data st));
    take_up {| annotations := annotations st;
               in_stream_data := in_stream_data st;
               stream_data := None;
               stream_properties := stream_properties;
               annotation_properties := annotation_properties st;
               annot_type := annot_type st;
               pending_vertices := pending_vertices st;
               pending_label := pending_label st;
               pending_page := pending_page st |} line
  else if in_stream_data st then
    Returns {| annotations := annotations st;
               in_stream_data := false;
               stream_data := Some line;
               stream_properties := stream_properties st;
               annotation_properties := annotation_properties st;
               annot_type := annot_type st;
               pending_vertices := pending_vertices st;
               pending_label := pending_label st;
               pending_page := pending_page st |}
  else if negb (bool_decide (is_Some (Parse.search "{} 0 obj<<" line)))
          && negb (str_in "stream" line) then
    Returns st
  else if str_in "stream" line then
    Returns {| annotations := annotations st;
               in_stream_data := true;
               stream_data := stream_data st;
               stream_properties := stream_properties st;
               annotation_properties := annotation_properties st;
               annot_type := annot_type st;
               pending_vertices := pending_vertices st;
               pending_label := pending_label st;
               pending_page := pending_page st |}
  else take_up st line.

Fixpoint scan (st : scanner) (fdf_str : list string) : outcome scanner :=
  match fdf_str with
  | [] => Returns st
  | line :: rest =>
      st' ← step st line;
      scan st' rest
  end.

Definition get_annotations_from_fdf (fdf_str : list string)
    : outcome (list Annotation) :=
  st ← scan start fdf_str;
  Returns (annotations st).

(** The body of [for idx, ordinate in enumerate(...)]. *)
Fixpoint group_loop (ordinates : list string) (idx : nat)
    (acc coordinates : list string) : list string :=
  match ordinates with
  | [] => acc
  | ordinate :: rest =>
      if Nat.odd idx then
        let coordinates := coordinates ++ [ordinate] in
        group_loop rest (S idx) (acc ++ [join " " coordinates]) []
      else
        group_loop rest (S idx) acc (coordinates ++ [ordinate])
  end.

(** [acc[0]] is an IndexError on the empty list. *)
Definition close_ring (acc : list string) : outcome (list string) :=
  match acc with
  | first :: _ => Returns (acc ++ [first])
  | [] => Raises IndexError
  end.

Definition group_vertices (vertices : string) (close : bool) : outcome string :=
  let acc := group_loop (split_char " " vertices) 0 [] [] in
  acc ← (if close then close_ring acc else Returns acc);
  Returns (join ", " acc).

(** A function that falls off its end returns [None]. *)
Definition annotation_to_wkt (annot : Annotation) : outcome (option string) :=
  if String.eqb (object_type annot) "PolyLine" || String.eqb (object_type annot) "Line" then
    grouped_vertices ← group_vertices (vertices annot) false;
    Returns (Some ("LINESTRING(" +:+ grouped_vertices +:+ ")"))
  else if String.eqb (object_type annot) "Polygon"
          || String.eqb (object_type annot) "Rectangle" then
    grouped_vertices ← group_vertices (vertices annot) true;
    Returns (Some ("POLYGON((" +:+ grouped_vertices +:+ "))"))
  else Returns None.

End FdfToWkt.

(** ** fdf_to_shapely.py: the converter, which it has in the same words as
    fdf_to_wkt.py, its extractors, its assembler and its conversion of a
    line *)

Module FdfToShapely.

Record AnnotationProperties := {
  line_color : pyval;
  line_opacity : pyval;
  line_weight : pyval;
  line_type : pyval;
  fill_color : pyval;
  fill_opacity : pyval
}.

Record Annotation := {
  object_type : string;
  vertices : string;
  properties : option AnnotationProperties
}.

Fixpoint group_loop (ordinates : list string) (idx : nat)
    (acc coordinates : list string) : list string :=
  match ordinates with
  | [] => acc
  | ordinate :: rest =>
      if Nat.odd idx then
        let coordinates := coordinates ++ [ordinate] in
        group_loop rest (S idx) (acc ++ [join " " coordinates]) []
      else
        group_loop rest (S idx) acc (coordinates ++ [ordinate])
  end.

Definition close_ring (acc : list string) : outcome (list string) :=
  match acc with
  | first :: _ => Returns (acc ++ [first])
  | [] => Raises IndexError
  end.

Definition group_vertices (vertices : string) (close : bool) : outcome string :=
  let acc := group_loop (split_char " " vertices) 0 [] [] in
  acc ← (if close then close_ring acc else Returns acc);
  Returns (join ", " acc).

Definition annotation_to_wkt (annot : Annotation) : outcome (option string) :=
  if String.eqb (object_type annot) "PolyLine" || String.eqb (object_type annot) "Line" then
    grouped_vertices ← group_vertices (vertices annot) false;
    Returns (Some ("LINESTRING(" +:+ grouped_vertices +:+ ")"))
  else if String.eqb (object_type annot) "Polygon"
          || String.eqb (object_type annot) "Rectangle" then
    grouped_vertices ← group_vertices (vertices annot) true;
    Returns (Some ("POLYGON((" +:+ grouped_vertices +:+ "))"))
  else Returns None.

(** The dataclass constructor called with the dict [kw] as its keyword
    arguments. *)
Definition new_AnnotationProperties (kw : gmap string pyval)
    : outcome AnnotationProperties :=
  if bool_decide (dom kw ⊆ FdfToWkt.field_names) then
    Returns {| line_color := FdfToWkt.keyword kw "line_color";
               line_opacity := FdfToWkt.keyword kw "line_opacity";
               line_weight := FdfToWkt.keyword kw "line_weight";
               line_type := FdfToWkt.keyword kw "line_type";
               fill_color := FdfToWkt.keyword kw "fill_color";
               fill_opacity := FdfToWkt.keyword kw "fill_opacity" |}
  else Raises TypeError.

Definition extract_type_and_vertices (line : string)
    : outcome (option (string * string)) :=
  match Parse.search "obj<</Subj({})" line with
  | Some possible_annotation =>
      annot_type ← FdfToWkt.item0 (Some possible_annotation);
      vertices ←
        (if negb (String.eqb annot_type "Rectangle") then
           FdfToWkt.item0 (Parse.search "/Vertices[{}]" line)
         else
           bbox ← FdfToWkt.item0 (Parse.search "/Rect[{}]" line);
           match split_ws bbox with
           | [x1; y1; x2; y2] =>
               Returns (join " " [x1; y1; x1; y2; x2; y2; x2; y1])
           | _ => Raises ValueError
           end);
      Returns (Some (annot_type, vertices))
  | None => Returns None
  end.

Definition extract_object_opacity (line : string) : gmap string pyval :=
  let fill_opacity :=
    FdfToWkt.first_or_none (Parse.search "/FillOpacity {:g}/" line) in
  let line_opacity :=
    FdfToWkt.first_or_none (Parse.search "/LineOpacity {:g}/" line) in
  <["fill_opacity" := fill_opacity]> (<["line_opacity" := line_opacity]> ∅).

(** [tuple(result) if result else None] *)
Definition tuple_or_none (result : option (list pyval)) : pyval :=
  match result with
  | Some fixed => PyTuple fixed
  | None => PyNone
  end.

Definition extract_stream_properties (stream_line : string) : gmap string pyval :=
  let line_color :=
    tuple_or_none (Parse.search_with true "{:g} {:g} {:g} RG" stream_line) in
  let fill_color :=
    tuple_or_none (Parse.search_with true "{:g} {:g} {:g} rg" stream_line) in
  let line_weight :=
    FdfToWkt.first_or_none (Parse.search_with true " {:g} w" stream_line) in
  let line_type := tuple_or_none (Parse.search " [{}] {:g} d" stream_line) in
  <["line_color" := line_color]> (<["fill_color" := fill_color]>
  (<["line_weight" := line_weight]> (<["line_type" := line_type]> ∅))).

(** The local variables of [separate_fdf_objects]. *)
Record separator := {
  annotations : list Annotation;
  in_stream_data : bool;
  stream_data : option string;
  stream_properties : gmap string pyval;
  annotation_properties : gmap string pyval;
  annot_type : option string;
  pending_vertices : option string
}.

Definition start : separator :=
  {| annotations := [];
     in_stream_data := false;
     stream_data := None;
     stream_properties := ∅;
     annotation_properties := ∅;
     annot_type := None;
     pending_vertices := None |}.

(** Lines 77 to 89 of [separate_fdf_objects]. *)
Definition take_up (st : separator) (line : string) : outcome separator :=
  type_and_vertices ← extract_type_and_vertices line;
  let opacity_data := extract_object_opacity line in
  if truthy_str (annot_type st) && truthy_str (pending_vertices st)
     && FdfToWkt.dict_truthy (stream_properties st) then
    let annotation_properties :=
      FdfToWkt.update (annotation_properties st) (stream_properties st) in
    properties ← new_AnnotationProperties annotation_properties;
    let annotation :=
      {| object_type := default EmptyString (annot_type st);
         vertices := default EmptyString (pending_vertices st);
         properties := Some properties |} in
    Returns {| annotations := annotations st ++ [annotation];
               in_stream_data := in_stream_data st;
               stream_data := stream_data st;
               stream_properties := ∅;
               annotation_properties := annotation_properties;
               annot_type := annot_type st;
               pending_vertices := pending_vertices st |}
  else
    match type_and_vertices with
    | Some (new_type, new_vertices) =>
        Returns {| annotations := annotations st;
                   in_stream_data := in_stream_data st;
                   stream_data := stream_data st;
                   stream_properties := stream_properties st;
                   annotation_properties :=
                     FdfToWkt.update (annotation_properties st) opacity_data;
                   annot_type := Some new_type;
                   pending_vertices := Some new_vertices |}
    | None => Returns st
    end.

(** One iteration of the loop of [separate_fdf_objects]. *)
Definition step (st : separator) (line : string) : outcome separator :=
  if str_in "endstream" line && truthy_str (stream_data st) then
    take_up {| annotations := annotations st;
               in_stream_data := in_stream_data st;
               stream_data := None;
               stream_properties :=
                 extract_stream_properties (default EmptyString (stream_data st));
               annotation_properties := annotation_properties st;
               annot_type := annot_type st;
               pending_vertices := pending_vertices st |} line
  else if in_stream_data st then
    Returns {| annotations := annotations st;
               in_stream_data := false;
               stream_data := Some line;
               stream_properties := stream_properties st;
               annotation_properties := annotation_properties st;
               annot_type := annot_type st;
               pending_vertices := pending_vertices st |}
  else if negb (bool_decide (is_Some (Parse.search "{} 0 obj<<" line)))
          && negb (str_in "stream" line) then
    Returns st
  else if str_in "stream" line then
    Returns {| annotations := annotations st;
               in_stream_data := true;
               stream_data := stream_data st;
               stream_properties := stream_properties st;
               annotation_properties := annotation_properties st;
               annot_type := annot_type st;
               pending_vertices := pending_vertices st |}
  else take_up st line.

Fixpoint scan (st : separator) (fdf_str : list string) : outcome separator :=
  match fdf_str with
  | [] => Returns st
  | line :: rest =>
      st' ← step st line;
      scan st' rest
  end.

Definition separate_fdf_objects (fdf_str : list string) : outcome (list Annotation) :=
  st ← scan start fdf_str;
  Returns (annotations st).

(** [x1, y1, x2, y2 = coords] is a ValueError unless there are four. *)
Definition convert_line_object (fdf_line : string) : outcome (option string) :=
  if str_in "/Subj(Line)" fdf_line then
    let beg_index := find "/L[" fdf_line in
    let end_index := find "]" (slice_from fdf_line beg_index) in
    let coords :=
      split_char " " (slice fdf_line (beg_index + 3) (beg_index + end_index)) in
    match coords with
    | [x1; y1; x2; y2] =>
        Returns (Some ("LINESTRING(" +:+ x1 +:+ " " +:+ y1 +:+ ", "
                       +:+ x2 +:+ " " +:+ y2 +:+ ")"))
    | _ => Raises ValueError
    end
  else Returns None.

(** The loop of [convert_line_to_wkt] calls [convert_line_object] once for
    each function of the list, whichever function it is. *)
Fixpoint convert_loop (conversion_funcs : list (string → outcome (option string)))
    (fdf_line : string) (wkt_object : option string) : outcome (option string) :=
  match conversion_funcs with
  | [] => Returns wkt_object
  | conversion_func :: rest =>
      wkt_object ← convert_line_object fdf_line;
      match wkt_object with
      | Some _ => Returns wkt_object
      | None => convert_loop rest fdf_line wkt_object
      end
  end.

Definition convert_line_to_wkt (fdf_line : string) : outcome (option string) :=
  let conversion_funcs := [convert_line_object] in
  convert_loop conversion_funcs fdf_line None.

End FdfToShapely.

(** ** Vocabulary of the properties *)

(** The ordinates of a vertex string, two by two. *)
Fixpoint pair_up (ordinates : list string) : list (string * string) :=
  match ordinates with
  | x :: y :: rest => (x, y) :: pair_up rest
  | _ => []
  end.

Fixpoint ordinates_of (pairs : list (string * string)) : list string :=
  match pairs with
  | [] => []
  | (x, y) :: rest => x :: y :: ordinates_of rest
  end.

(** Whether a character, or a blank, occurs in a string. *)
Fixpoint has_char (sep : ascii) (s : string) : bool :=
  match s with
  | EmptyString => false
  | String c s' => Ascii.eqb c sep || has_char sep s'
  end.

Fixpoint has_blank (s : string) : bool :=
  match s with
  | EmptyString => false
  | String c s' => is_space c || has_blank s'
  end.

(** One coordinate pair of a WKT literal. *)
Definition pair_text (p : string * string) : string :=
  fst p +:+ " " +:+ snd p.

Definition linestring (pairs : list (string * string)) : string :=
  "LINESTRING(" +:+ join ", " (map pair_text pairs) +:+ ")".

Definition polygon (ring : list (string * string)) : string :=
  "POLYGON((" +:+ join ", " (map pair_text ring) +:+ "))".

(** An annotation as the converter reads it: the type and the vertices. *)
Definition shape (object_type vertices : string) : FdfToWkt.Annotation :=
  {| FdfToWkt.object_type := object_type;
     FdfToWkt.vertices := vertices;
     FdfToWkt.page := PyNone;
     FdfToWkt.label := PyNone;
     FdfToWkt.properties := None;
     FdfToWkt.wkt := None |}.

Definition shapely_shape (object_type vertices : string) : FdfToShapely.Annotation :=
  {| FdfToShapely.object_type := object_type;
     FdfToShapely.vertices := vertices;
     FdfToShapely.properties := None |}.

(** What the two files read of an annotation when they convert it. *)
Definition as_shapely (annot : FdfToWkt.Annotation) : FdfToShapely.Annotation :=
  shapely_shape (FdfToWkt.object_type annot) (FdfToWkt.vertices annot).

(** ** Vocabulary of the assembler *)

(** An object header, as the loop recognises it. *)
Definition is_header (line : string) : bool :=
  bool_decide (is_Some (Parse.search "{} 0 obj<<" line)).

(** A line between a header and its stream that the loop passes over: it
    is no header, or a header without a type and vertices, and it does not
    open a stream. *)
Definition passed_over (line : string) : Prop :=
  str_in "stream" line = false ∧
  (is_header line = false ∨
   FdfToWkt.extract_type_and_vertices line = Returns None).

(** The scanner between two stream blocks, with no stream properties left
    to consume. *)
Definition idle (st : FdfToWkt.scanner) : Prop :=
  FdfToWkt.in_stream_data st = false ∧
  FdfToWkt.stream_data st = None ∧
  FdfToWkt.stream_properties st = ∅ ∧
  dom (FdfToWkt.annotation_properties st) ⊆ FdfToWkt.field_names.

(** The scanner holding the type and the vertices of a header. *)
Definition holding (st : FdfToWkt.scanner) (annot_type vertices : string) : Prop :=
  FdfToWkt.in_stream_data st = false ∧
  FdfToWkt.stream_data st = None ∧
  FdfToWkt.annot_type st = Some annot_type ∧
  FdfToWkt.pending_vertices st = Some vertices ∧
  truthy_str (Some annot_type) = true ∧
  truthy_str (Some vertices) = true ∧
  dom (FdfToWkt.annotation_properties st) ⊆ FdfToWkt.field_names.

(** The scanner after it took the type and vertices of [line] up. *)
Definition taken_up (st : FdfToWkt.scanner) (line annot_type vertices : string)
    : FdfToWkt.scanner :=
  {| FdfToWkt.annotations := FdfToWkt.annotations st;
     FdfToWkt.in_stream_data := FdfToWkt.in_stream_data st;
     FdfToWkt.stream_data := FdfToWkt.stream_data st;
     FdfToWkt.stream_properties := FdfToWkt.stream_properties st;
     FdfToWkt.annotation_properties :=
       FdfToWkt.update (FdfToWkt.annotation_properties st)
                       (FdfToWkt.extract_object_opacity line);
     FdfToWkt.annot_type := Some annot_type;
     FdfToWkt.pending_vertices := Some vertices;
     FdfToWkt.pending_label := FdfToWkt.first_or_none (Parse.search "/Contents({})/" line);
     FdfToWkt.pending_page := FdfToWkt.first_or_none (Parse.search "/Page({})" line) |}.

(** The properties of a stream body, with the dash pattern [dash] that
    [parse_line_type] returned for it. *)
Definition stream_dict (body : string) (dash : pyval) : gmap string pyval :=
  <["line_color" := FdfToWkt.parse_line_color body]>
  (<["fill_color" := FdfToWkt.parse_fill_color body]>
  (<["line_weight" := FdfToWkt.parse_line_weight body]>
  (<["line_type" := dash]> ∅))).

(** The annotation that the scanner [st] appends when the stream body
    [body] is closed. *)
Definition completed (st : FdfToWkt.scanner) (annot_type vertices body : string)
    (dash : pyval) : FdfToWkt.Annotation :=
  {| FdfToWkt.object_type := annot_type;
     FdfToWkt.vertices := vertices;
     FdfToWkt.page := FdfToWkt.pending_page st;
     FdfToWkt.label := FdfToWkt.pending_label st;
     FdfToWkt.properties :=
       Some {| FdfToWkt.line_color := FdfToWkt.parse_line_color body;
               FdfToWkt.line_opacity :=
                 FdfToWkt.keyword (FdfToWkt.annotation_properties st) "line_opacity";
               FdfToWkt.line_weight := FdfToWkt.parse_line_weight body;
               FdfToWkt.line_type := dash;
               FdfToWkt.fill_color := FdfToWkt.parse_fill_color body;
               FdfToWkt.fill_opacity :=
                 FdfToWkt.keyword (FdfToWkt.annotation_properties st) "fill_opacity" |};
     FdfToWkt.wkt := None |}.

(** The scanner after that: only the stream properties are emptied. *)
Definition after_block (st : FdfToWkt.scanner) (annot_type vertices body : string)
    (dash : pyval) : FdfToWkt.scanner :=
  {| FdfToWkt.annotations :=
       FdfToWkt.annotations st ++ [completed st annot_type vertices body dash];
     FdfToWkt.in_stream_data := false;
     FdfToWkt.stream_data := None;
     FdfToWkt.stream_properties := ∅;
     FdfToWkt.annotation_properties :=
       FdfToWkt.update (FdfToWkt.annotation_properties st) (stream_dict body dash);
     FdfToWkt.annot_type := FdfToWkt.annot_type st;
     FdfToWkt.pending_vertices := FdfToWkt.pending_vertices st;
     FdfToWkt.pending_label := FdfToWkt.pending_label st;
     FdfToWkt.pending_page := FdfToWkt.pending_page st |}.

(** The annotation of the object whose header is [header] and whose stream
    body is [body]. *)
Definition annotation_of (header body annot_type vertices : string) (dash : pyval)
    : FdfToWkt.Annotation :=
  {| FdfToWkt.object_type := annot_type;
     FdfToWkt.vertices := vertices;
     FdfToWkt.page := FdfToWkt.first_or_none (Parse.search "/Page({})" header);
     FdfToWkt.label := FdfToWkt.first_or_none (Parse.search "/Contents({})/" header);
     FdfToWkt.properties :=
       Some {| FdfToWkt.line_color := FdfToWkt.parse_line_color body;
               FdfToWkt.line_opacity :=
                 FdfToWkt.first_or_none (Parse.search "/LineOpacity {:g}/" header);
               FdfToWkt.line_weight := FdfToWkt.parse_line_weight body;
               FdfToWkt.line_type := dash;
               FdfToWkt.fill_color := FdfToWkt.parse_fill_color body;
               FdfToWkt.fill_opacity :=
                 FdfToWkt.first_or_none (Parse.search "/FillOpacity {:g}/" header) |};
     FdfToWkt.wkt := None |}.

(** ** Vocabulary of the further properties *)

(** The types of markup that the extractor of fdf_to_wkt.py takes up. *)
Definition markup_types : list string :=
  ["Line"; "Circle"; "PolyLine"; "Polygon"; "Rectangle"; "Square"].

(** [rest] is what is left of [s] after some first characters. *)
Definition ends_with (s rest : string) : Prop :=
  ∃ first, s = first +:+ rest.

(** A regular expression without a capturing group. *)
Fixpoint group_free (r : Parse.regex) : bool :=
  match r with
  | Parse.Cat r1 r2 | Parse.Alt r1 r2 => group_free r1 && group_free r2
  | Parse.Opt r1 => group_free r1
  | Parse.Grp _ => false
  | _ => true
  end.

(** What the conversion of a field gives: a [str] or a [float]. *)
Definition field_shape (f : Parse.field) (v : pyval) : Prop :=
  match f with
  | Parse.FieldStr => ∃ text, v = PyStr text
  | Parse.FieldG => ∃ text, v = PyFloat text
  end.

(** The number of lines that hold [endstream]. *)
Fixpoint closings (lines : list string) : nat :=
  match lines with
  | [] => 0
  | line :: rest => (if str_in "endstream" line then 1 else 0) + closings rest
  end.

(** One when stream properties are at hand, to be used by the next
    annotation, and zero otherwise. *)
Definition owed (st : FdfToWkt.scanner) : nat :=
  if FdfToWkt.dict_truthy (FdfToWkt.stream_properties st) then 1 else 0.

(** An annotation as the assembler builds them. *)
Definition well_formed (annotation : FdfToWkt.Annotation) : Prop :=
  FdfToWkt.object_type annotation ∈ markup_types ∧
  FdfToWkt.vertices annotation ≠ EmptyString ∧
  is_Some (FdfToWkt.properties annotation) ∧
  FdfToWkt.wkt annotation = None.

(** The type and vertices that the scanner holds, when it holds any, are
    those of a markup. *)
Definition holds_markup (st : FdfToWkt.scanner) : Prop :=
  FdfToWkt.annot_type st = None ∨
  ∃ annot_type vertices,
    FdfToWkt.annot_type st = Some annot_type ∧
    FdfToWkt.pending_vertices st = Some vertices ∧
    annot_type ∈ markup_types ∧ vertices ≠ EmptyString.

(** The dicts of the scanner have no other keys than the fields of the
    properties. *)
Definition keys_are_fields (st : FdfToWkt.scanner) : Prop :=
  dom (FdfToWkt.annotation_properties st) ⊆ FdfToWkt.field_names ∧
  dom (FdfToWkt.stream_properties st) ⊆ FdfToWkt.field_names.

(** A line on which an extractor of the assembler raises [e]. *)
Definition fails_with (e : exn) (line : string) : Prop :=
  FdfToWkt.extract_type_and_vertices line = Raises e ∨
  FdfToWkt.parse_line_type line = Raises e.

(** Two dicts with the same values, but maybe for the line type. *)
Definition alike (d d' : gmap string pyval) : Prop :=
  ∀ key, key ≠ "line_type" → d !! key = d' !! key.

(** An annotation of fdf_to_wkt.py and one of fdf_to_shapely.py for the
    same object: the same type and vertices, and the same properties but
    maybe for the line type. *)
Definition same_object (a : FdfToWkt.Annotation) (b : FdfToShapely.Annotation)
    : Prop :=
  FdfToShapely.object_type b = FdfToWkt.object_type a ∧
  FdfToShapely.vertices b = FdfToWkt.vertices a ∧
  ∃ p q,
    FdfToWkt.properties a = Some p ∧ FdfToShapely.properties b = Some q ∧
    FdfToShapely.line_color q = FdfToWkt.line_color p ∧
    FdfToShapely.line_opacity q = FdfToWkt.line_opacity p ∧
    FdfToShapely.line_weight q = FdfToWkt.line_weight p ∧
    FdfToShapely.fill_color q = FdfToWkt.fill_color p ∧
    FdfToShapely.fill_opacity q = FdfToWkt.fill_opacity p.

(** Two outcomes that raise the same error or return related values. *)
Definition related {A B} (R : A → B → Prop) (x : outcome A) (y : outcome B) : Prop :=
  match x, y with
  | Returns a, Returns b => R a b
  | Raises e, Raises e' => e = e'
  | _, _ => False
  end.

(** The loops of the two files at the same point of a document. *)
Definition in_step (st : FdfToWkt.scanner) (st' : FdfToShapely.separator) : Prop :=
  Forall2 same_object (FdfToWkt.annotations st) (FdfToShapely.annotations st') ∧
  FdfToShapely.in_stream_data st' = FdfToWkt.in_stream_data st ∧
  FdfToShapely.stream_data st' = FdfToWkt.stream_data st ∧
  FdfToShapely.annot_type st' = FdfToWkt.annot_type st ∧
  FdfToShapely.pending_vertices st' = FdfToWkt.pending_vertices st ∧
  alike (FdfToWkt.stream_properties st) (FdfToShapely.stream_properties st') ∧
  FdfToWkt.dict_truthy (FdfToShapely.stream_properties st') =
    FdfToWkt.dict_truthy (FdfToWkt.stream_properties st) ∧
  alike (FdfToWkt.annotation_properties st) (FdfToShapely.annotation_properties st') ∧
  keys_are_fields st ∧
  dom (FdfToShapely.annotation_properties st') ⊆ FdfToWkt.field_names ∧
  dom (FdfToShapely.stream_properties st') ⊆ FdfToWkt.field_names ∧
  (∀ body, FdfToWkt.stream_data st = Some body →
           ∃ dash, FdfToWkt.parse_line_type body = Returns dash).

(** The fields of the two records of local variables. *)
Ltac fields_of_both :=
  cbn [FdfToWkt.annotations FdfToWkt.in_stream_data FdfToWkt.stream_data
       FdfToWkt.stream_properties FdfToWkt.annotation_properties
       FdfToWkt.annot_type FdfToWkt.pending_vertices
       FdfToShapely.annotations FdfToShapely.in_stream_data FdfToShapely.stream_data
       FdfToShapely.stream_properties FdfToShapely.annotation_properties
       FdfToShapely.annot_type FdfToShapely.pending_vertices taken_up].

(** ** The converter: grouping of the ordinates *)

Section Grouping.

Import FdfToWkt.

Lemma pair_up_even (n : nat) : ∀ ordinates : list string,
  length ordinates = 2 * n →
  length (pair_up ordinates) = n ∧ ordinates_of (pair_up ordinates) = ordinates.
Proof.
  induction n as [|n IH]; intros ordinates Hlen.
  - destruct ordinates; [split; reflexivity | discriminate].
  - destruct ordinates as [|x [|y rest]]; simpl in Hlen; try lia.
    destruct (IH rest) as [Hn Hrest]; [lia|].
    simpl. rewrite Hn, Hrest. split; reflexivity.
Qed.

Lemma pair_up_odd (n : nat) : ∀ ordinates : list string,
  length ordinates = 2 * n + 1 →
  length (pair_up ordinates) = n ∧
  ∃ trailing, ordinates = ordinates_of (pair_up ordinates) ++ [trailing].
Proof.
  induction n as [|n IH]; intros ordinates Hlen.
  - destruct ordinates as [|x [|y rest]]; simpl in Hlen; try lia.
    split; [reflexivity | exists x; reflexivity].
  - destruct ordinates as [|x [|y rest]]; simpl in Hlen; try lia.
    destruct (IH rest) as [Hn [trailing Hrest]]; [lia|].
    simpl. rewrite Hn. split; [reflexivity|].
    exists trailing. rewrite <- Hrest. reflexivity.
Qed.

Lemma odd_after_pair (idx : nat) : Nat.odd (S (S idx)) = Nat.odd idx.
Proof. reflexivity. Qed.

Lemma odd_after_one (idx : nat) : Nat.odd idx = false → Nat.odd (S idx) = true.
Proof. rewrite Nat.odd_succ, <- Nat.negb_odd. intros ->. reflexivity. Qed.

(** A run of whole pairs read at an even index goes to [acc] pair by pair. *)
Lemma group_loop_pairs (pairs : list (string * string)) :
  ∀ (tail : list string) (idx : nat) (acc : list string),
    Nat.odd idx = false →
    group_loop (ordinates_of pairs ++ tail) idx acc [] =
    group_loop tail (2 * length pairs + idx) (acc ++ map pair_text pairs) [].
Proof.
  induction pairs as [|[x y] pairs IH]; intros tail idx acc Hidx.
  - simpl. rewrite app_nil_r. reflexivity.
  - cbn [ordinates_of app group_loop]. rewrite Hidx.
    cbn [group_loop]. rewrite (odd_after_one idx Hidx).
    rewrite IH by (rewrite odd_after_pair; exact Hidx).
    cbn [length map]. rewrite <- app_assoc.
    replace (2 * length pairs + S (S idx)) with (2 * S (length pairs) + idx) by lia.
    reflexivity.
Qed.

Lemma group_loop_even (pairs : list (string * string)) :
  group_loop (ordinates_of pairs) 0 [] [] = map pair_text pairs.
Proof.
  rewrite <- (app_nil_r (ordinates_of pairs)).
  rewrite group_loop_pairs by reflexivity. reflexivity.
Qed.

(** The ordinate left over after the last whole pair never reaches [acc]. *)
Lemma group_loop_trailing (pairs : list (string * string)) (trailing : string) :
  group_loop (ordinates_of pairs ++ [trailing]) 0 [] [] = map pair_text pairs.
Proof.
  rewrite group_loop_pairs by reflexivity.
  cbn [group_loop]. replace (Nat.odd (2 * length pairs + 0)) with false; [reflexivity|].
  symmetry. rewrite Nat.add_0_r, <- Nat.negb_even, Nat.even_mul. reflexivity.
Qed.

Lemma group_loop_length (ordinates : list string) :
  ∀ (idx : nat) (acc coordinates : list string),
    length (group_loop ordinates idx acc coordinates) =
    length acc + Nat.div2 (length ordinates + (if Nat.odd idx then 1 else 0)).
Proof.
  induction ordinates as [|o rest IH]; intros idx acc coordinates.
  - simpl. destruct (Nat.odd idx); simpl; lia.
  - cbn [group_loop]. destruct (Nat.odd idx) eqn:Hidx.
    + rewrite IH, length_app. cbn [length].
      replace (Nat.odd (S idx)) with false
        by (rewrite Nat.odd_succ, <- Nat.negb_odd, Hidx; reflexivity).
      replace (S (length rest) + 1) with (S (S (length rest + 0))) by lia.
      cbn [Nat.div2]. lia.
    + rewrite IH. rewrite (odd_after_one idx Hidx). cbn [length].
      replace (S (length rest) + 0) with (length rest + 1) by lia. reflexivity.
Qed.

Lemma split_char_length (sep : ascii) (s : string) :
  1 ≤ length (split_char sep s).
Proof.
  induction s as [|c s IH]; simpl; [lia|].
  destruct (Ascii.eqb c sep); simpl; [lia|].
  destruct (split_char sep s); simpl; lia.
Qed.

(** The two files group and convert alike. *)
Lemma shapely_group_loop (ordinates : list string) :
  ∀ (idx : nat) (acc coordinates : list string),
    FdfToShapely.group_loop ordinates idx acc coordinates =
    group_loop ordinates idx acc coordinates.
Proof.
  induction ordinates as [|o rest IH]; intros idx acc coordinates; [reflexivity|].
  simpl. destruct (Nat.odd idx); apply IH.
Qed.

Lemma shapely_group_vertices (vertices : string) (close : bool) :
  FdfToShapely.group_vertices vertices close = group_vertices vertices close.
Proof.
  unfold FdfToShapely.group_vertices, group_vertices.
  rewrite shapely_group_loop. reflexivity.
Qed.

Lemma shapely_annotation_to_wkt (annot : Annotation) :
  FdfToShapely.annotation_to_wkt (as_shapely annot) = annotation_to_wkt annot.
Proof.
  unfold FdfToShapely.annotation_to_wkt, annotation_to_wkt. simpl.
  rewrite !shapely_group_vertices. reflexivity.
Qed.

Lemma group_vertices_open (pairs : list (string * string)) (vertices : string) :
  group_loop (split_char " " vertices) 0 [] [] = map pair_text pairs →
  group_vertices vertices false = Returns (join ", " (map pair_text pairs)).
Proof. unfold group_vertices. intros ->. reflexivity. Qed.

Lemma group_vertices_closed (first : string * string)
    (pairs : list (string * string)) (vertices : string) :
  group_loop (split_char " " vertices) 0 [] [] = map pair_text (first :: pairs) →
  group_vertices vertices true =
  Returns (join ", " (map pair_text ((first :: pairs) ++ [first]))).
Proof.
  unfold group_vertices. intros ->. rewrite map_app. reflexivity.
Qed.

Lemma wkt_line (annot : Annotation) :
  object_type annot = "Line" ∨ object_type annot = "PolyLine" →
  annotation_to_wkt annot =
  grouped_vertices ← group_vertices (vertices annot) false;
  Returns (Some ("LINESTRING(" +:+ grouped_vertices +:+ ")")).
Proof. unfold annotation_to_wkt. intros [-> | ->]; reflexivity. Qed.

Lemma wkt_polygon (annot : Annotation) :
  object_type annot = "Polygon" ∨ object_type annot = "Rectangle" →
  annotation_to_wkt annot =
  grouped_vertices ← group_vertices (vertices annot) true;
  Returns (Some ("POLYGON((" +:+ grouped_vertices +:+ "))")).
Proof. unfold annotation_to_wkt. intros [-> | ->]; reflexivity. Qed.

End Grouping.

(** ** The converter: the WKT literal *)

Section Conversion.

Import FdfToWkt.

Lemma pairs_not_empty (n : nat) (pairs : list (string * string)) :
  1 ≤ n → length pairs = n → ∃ first rest, pairs = first :: rest.
Proof.
  intros Hn Hlen. destruct pairs as [|first rest]; [simpl in Hlen; lia|].
  exists first, rest. reflexivity.
Qed.

(** C2: a vertices string of 2n tokens, n >= 1, is converted pair by pair.
    A Line or PolyLine gives the LINESTRING literal of exactly the n pairs
    of its tokens, in input order and with nothing repeated; a Polygon or
    Rectangle gives the POLYGON literal of n+1 pairs, the n pairs followed
    by the first one again.  The tokens appear in the literal as they are
    written in the vertices string. *)
Theorem wkt_of_even_vertices (annot : Annotation) (n : nat) :
  1 ≤ n →
  length (split_char " " (vertices annot)) = 2 * n →
  let pairs := pair_up (split_char " " (vertices annot)) in
  length pairs = n ∧
  ordinates_of pairs = split_char " " (vertices annot) ∧
  (object_type annot = "Line" ∨ object_type annot = "PolyLine" →
     annotation_to_wkt annot = Returns (Some (linestring pairs))) ∧
  (object_type annot = "Polygon" ∨ object_type annot = "Rectangle" →
     ∃ first, head pairs = Some first ∧
       length (pairs ++ [first]) = n + 1 ∧
       last (pairs ++ [first]) = head (pairs ++ [first]) ∧
       annotation_to_wkt annot = Returns (Some (polygon (pairs ++ [first])))).
Proof.
  intros Hn Hlen pairs.
  destruct (pair_up_even n _ Hlen) as [Hpairs Hords]. fold pairs in Hpairs, Hords.
  assert (Hloop : group_loop (split_char " " (vertices annot)) 0 [] [] =
                  map pair_text pairs)
    by (rewrite <- Hords; apply group_loop_even).
  repeat split; try assumption.
  - intros Htype. rewrite (wkt_line annot Htype).
    rewrite (group_vertices_open pairs _ Hloop). reflexivity.
  - intros Htype.
    destruct (pairs_not_empty n pairs Hn Hpairs) as (first & rest & Heq).
    exists first. rewrite Heq in *. repeat split.
    + rewrite length_app. simpl in *. lia.
    + rewrite last_snoc. reflexivity.
    + rewrite (wkt_polygon annot Htype).
      rewrite (group_vertices_closed first rest _ Hloop). reflexivity.
Qed.

Lemma wkt_of_even_vertices_witness :
  annotation_to_wkt (shape "Line" "10 20 30 40") =
    Returns (Some "LINESTRING(10 20, 30 40)") ∧
  ∃ first, first = ("0", "0") ∧
    annotation_to_wkt (shape "Polygon" "0 0 4 0 4 3") =
      Returns (Some (polygon [("0", "0"); ("4", "0"); ("4", "3"); first])).
Proof.
  split.
  - destruct (wkt_of_even_vertices (shape "Line" "10 20 30 40") 2
                ltac:(lia) eq_refl) as (_ & _ & Hline & _).
    exact (Hline (or_introl eq_refl)).
  - destruct (wkt_of_even_vertices (shape "Polygon" "0 0 4 0 4 3") 3
                ltac:(lia) eq_refl) as (_ & _ & _ & Hring).
    destruct (Hring (or_introl eq_refl)) as (first & Hfirst & _ & _ & Hwkt).
    exists first. split; [injection Hfirst as <-; reflexivity | exact Hwkt].
Defined.

(** C7, as the code has it: a vertices string of 2n+1 tokens, n >= 1, is
    converted like its first 2n tokens.  The converter returns the literal
    of the n whole pairs (closed by the first pair for a Polygon or
    Rectangle); the last ordinate is left out and nothing is raised.  Both
    files do the same. *)
Theorem wkt_of_odd_vertices (annot : Annotation) (n : nat) :
  1 ≤ n →
  length (split_char " " (vertices annot)) = 2 * n + 1 →
  let pairs := pair_up (split_char " " (vertices annot)) in
  length pairs = n ∧
  (∃ trailing, split_char " " (vertices annot) = ordinates_of pairs ++ [trailing]) ∧
  (object_type annot = "Line" ∨ object_type annot = "PolyLine" →
     annotation_to_wkt annot = Returns (Some (linestring pairs)) ∧
     FdfToShapely.annotation_to_wkt (as_shapely annot) =
       Returns (Some (linestring pairs))) ∧
  (object_type annot = "Polygon" ∨ object_type annot = "Rectangle" →
     ∃ first, head pairs = Some first ∧
       annotation_to_wkt annot = Returns (Some (polygon (pairs ++ [first]))) ∧
       FdfToShapely.annotation_to_wkt (as_shapely annot) =
         Returns (Some (polygon (pairs ++ [first])))).
Proof.
  intros Hn Hlen pairs.
  destruct (pair_up_odd n _ Hlen) as [Hpairs [trailing Hords]].
  fold pairs in Hpairs, Hords.
  assert (Hloop : group_loop (split_char " " (vertices annot)) 0 [] [] =
                  map pair_text pairs)
    by (rewrite Hords; apply group_loop_trailing).
  split; [assumption|]. split; [exists trailing; assumption|]. split.
  - intros Htype. rewrite shapely_annotation_to_wkt, (wkt_line annot Htype).
    rewrite (group_vertices_open pairs _ Hloop). split; reflexivity.
  - intros Htype.
    destruct (pairs_not_empty n pairs Hn Hpairs) as (first & rest & Heq).
    exists first. rewrite Heq in *. split; [reflexivity|].
    rewrite shapely_annotation_to_wkt, (wkt_polygon annot Htype).
    rewrite (group_vertices_closed first rest _ Hloop). split; reflexivity.
Qed.

Lemma wkt_of_odd_vertices_witness :
  annotation_to_wkt (shape "PolyLine" "1 2 3 4 5") =
    Returns (Some "LINESTRING(1 2, 3 4)") ∧
  ∃ first, first = ("1", "2") ∧
    annotation_to_wkt (shape "Rectangle" "1 2 3 4 5") =
      Returns (Some (polygon [("1", "2"); ("3", "4"); first])).
Proof.
  split.
  - destruct (wkt_of_odd_vertices (shape "PolyLine" "1 2 3 4 5") 2
                ltac:(lia) eq_refl) as (_ & _ & Hline & _).
    exact (proj1 (Hline (or_intror eq_refl))).
  - destruct (wkt_of_odd_vertices (shape "Rectangle" "1 2 3 4 5") 2
                ltac:(lia) eq_refl) as (_ & _ & _ & Hring).
    destruct (Hring (or_intror eq_refl)) as (first & Hfirst & Hwkt & _).
    exists first. split; [injection Hfirst as <-; reflexivity | exact Hwkt].
Defined.

(** C7, as the claim has it, fails: three ordinates are converted to a
    literal of one pair, the third ordinate is gone and nothing is raised. *)
Lemma odd_vertices_are_not_refused :
  length (split_char " " "1 2 3") = 3 ∧
  annotation_to_wkt (shape "Line" "1 2 3") = Returns (Some "LINESTRING(1 2)") ∧
  FdfToShapely.annotation_to_wkt (shapely_shape "Line" "1 2 3") =
    Returns (Some "LINESTRING(1 2)") ∧
  ¬ ∃ e, annotation_to_wkt (shape "Line" "1 2 3") = Raises e.
Proof.
  repeat split. intros [e He]. discriminate He.
Qed.

(** C10: the ring closure of a Polygon or Rectangle reads the first
    accumulated pair.  With fewer than two tokens in the vertices string
    (the empty string has one, itself) no pair was accumulated and the
    conversion raises IndexError; with two tokens or more it returns a
    literal. *)
Theorem ring_closure_needs_a_pair (annot : Annotation) :
  object_type annot = "Polygon" ∨ object_type annot = "Rectangle" →
  (length (split_char " " (vertices annot)) < 2 →
     annotation_to_wkt annot = Raises IndexError) ∧
  (2 ≤ length (split_char " " (vertices annot)) →
     ∃ literal, annotation_to_wkt annot = Returns (Some literal)).
Proof.
  intros Htype. rewrite (wkt_polygon annot Htype). unfold group_vertices.
  pose proof (group_loop_length (split_char " " (vertices annot)) 0 [] []) as Hacc.
  simpl in Hacc. rewrite Nat.add_0_r in Hacc.
  pose proof (split_char_length " " (vertices annot)) as Hone.
  destruct (group_loop (split_char " " (vertices annot)) 0 [] []) as [|first acc].
  - split; [reflexivity|]. intros Htwo.
    destruct (split_char " " (vertices annot)) as [|x [|y rest]];
      cbn [length Nat.div2] in *; (lia || discriminate).
  - split; [|intros _; eexists; reflexivity]. intros Hfew.
    destruct (split_char " " (vertices annot)) as [|x [|y rest]];
      cbn [length Nat.div2] in *; (lia || discriminate).
Qed.

Lemma ring_closure_needs_a_pair_witness :
  annotation_to_wkt (shape "Polygon" EmptyString) = Raises IndexError ∧
  ∃ literal, annotation_to_wkt (shape "Rectangle" "0 0") = Returns (Some literal).
Proof.
  split.
  - apply (ring_closure_needs_a_pair (shape "Polygon" EmptyString)).
    + left; reflexivity.
    + simpl; lia.
  - apply (ring_closure_needs_a_pair (shape "Rectangle" "0 0")).
    + right; reflexivity.
    + simpl; lia.
Defined.

(** C4: the extractor takes a Square up like a Rectangle, with the four
    corners of its box as vertices, but the converter has no case for it:
    whatever the vertices, it returns None where the claim has the closed
    POLYGON literal.  Both files do the same. *)
Theorem square_is_not_converted (annot : Annotation) :
  object_type annot = "Square" →
  annotation_to_wkt annot = Returns None ∧
  FdfToShapely.annotation_to_wkt (as_shapely annot) = Returns None.
Proof.
  intros Htype. rewrite shapely_annotation_to_wkt.
  unfold annotation_to_wkt. rewrite Htype. split; reflexivity.
Qed.

Lemma square_is_not_converted_witness :
  extract_type_and_vertices "1 0 obj<</Subj(Square)/Rect[0 0 100 50]>>" =
    Returns (Some ("Square", "0 0 0 50 100 50 100 0")) ∧
  annotation_to_wkt (shape "Square" "0 0 0 50 100 50 100 0") = Returns None ∧
  annotation_to_wkt (shape "Rectangle" "0 0 0 50 100 50 100 0") =
    Returns (Some "POLYGON((0 0, 0 50, 100 50, 100 0, 0 0))").
Proof.
  split; [vm_compute; reflexivity|]. split; [|reflexivity].
  apply (square_is_not_converted (shape "Square" "0 0 0 50 100 50 100 0")).
  reflexivity.
Defined.

(** C6, as the code has it: for an annotation whose type is none of Line,
    PolyLine, Polygon, Rectangle and Square, which includes Circle, the
    converter returns None.  It returns no WKT string, and it raises
    nothing: no failure names the type. *)
Theorem unsupported_type_gives_none (annot : Annotation) :
  object_type annot ≠ "Line" → object_type annot ≠ "PolyLine" →
  object_type annot ≠ "Polygon" → object_type annot ≠ "Rectangle" →
  object_type annot ≠ "Square" →
  annotation_to_wkt annot = Returns None.
Proof.
  intros Hline Hpoly Hgon Hrect _. unfold annotation_to_wkt.
  apply String.eqb_neq in Hline, Hpoly, Hgon, Hrect.
  rewrite Hline, Hpoly, Hgon, Hrect. reflexivity.
Qed.

Lemma unsupported_type_gives_none_witness :
  annotation_to_wkt (shape "Circle" "0 0 10 0 10 10 0 10") = Returns None.
Proof.
  apply (unsupported_type_gives_none (shape "Circle" "0 0 10 0 10 10 0 10"));
    discriminate.
Defined.

(** C6, as the claim has it, fails: the conversion of a Circle ends
    without a failure. *)
Lemma circle_is_no_failure :
  annotation_to_wkt (shape "Circle" "0 0 10 0 10 10 0 10") = Returns None ∧
  ¬ ∃ e, annotation_to_wkt (shape "Circle" "0 0 10 0 10 10 0 10") = Raises e.
Proof.
  split; [reflexivity|]. intros [e He]. discriminate He.
Qed.

End Conversion.

(** ** The field extractors *)

Section Extraction.

Import FdfToWkt.

Lemma no_blank_no_space (s : string) :
  has_blank s = false → has_char " " s = false.
Proof.
  induction s as [|c s IH]; [reflexivity|]. simpl.
  intros [Hc Hs]%orb_false_elim. rewrite (IH Hs), orb_false_r.
  destruct (Ascii.eqb_spec c " ") as [-> | _]; [discriminate Hc | reflexivity].
Qed.

(** The tokens of [s.split()] hold no blank. *)
Lemma split_ws_tokens (s : string) :
  Forall (λ t, has_blank t = false) (split_ws s).
Proof.
  induction s as [|c s IH]; [constructor|]. simpl.
  destruct (is_space c) eqn:Hc; [exact IH|].
  destruct s as [|c' s']; [repeat constructor; simpl; rewrite Hc; reflexivity|].
  destruct (is_space c') eqn:Hc'.
  - constructor; [simpl; rewrite Hc; reflexivity | exact IH].
  - destruct (split_ws (String c' s')) as [|t ts].
    + repeat constructor. simpl. rewrite Hc. reflexivity.
    + inversion IH as [|? ? Ht Hts]; subst. constructor; [|exact Hts].
      simpl. rewrite Hc, Ht. reflexivity.
Qed.

Lemma split_char_token (sep : ascii) (t : string) :
  has_char sep t = false → split_char sep t = [t].
Proof.
  induction t as [|c t IH]; [reflexivity|]. simpl.
  intros [Hc Ht]%orb_false_elim. rewrite Hc, (IH Ht). reflexivity.
Qed.

Lemma split_char_app (sep : ascii) (t rest : string) :
  has_char sep t = false →
  split_char sep (t +:+ String sep rest) = t :: split_char sep rest.
Proof.
  induction t as [|c t IH]; simpl.
  - intros _. rewrite Ascii.eqb_refl. reflexivity.
  - intros [Hc Ht]%orb_false_elim. rewrite Hc, (IH Ht). reflexivity.
Qed.

(** Splitting undoes joining when no token holds the separator. *)
Lemma split_char_join (sep : ascii) (tokens : list string) :
  tokens ≠ [] →
  Forall (λ t, has_char sep t = false) tokens →
  split_char sep (join (String sep EmptyString) tokens) = tokens.
Proof.
  induction tokens as [|t [|u rest] IH]; intros Hne Hall; [congruence| |].
  - inversion Hall; subst. apply split_char_token; assumption.
  - inversion Hall as [|? ? Ht Hrest]; subst.
    change (join (String sep EmptyString) (t :: u :: rest))
      with (t +:+ String sep (join (String sep EmptyString) (u :: rest))).
    rewrite (split_char_app sep t _ Ht), IH; [reflexivity|congruence|exact Hrest].
Qed.

(** C3: on a header line that names a Rectangle or a Square and carries
    the box [x1 y1 x2 y2], the extractor returns the type with a vertices
    string of exactly eight ordinates, the corners (x1,y1), (x1,y2),
    (x2,y2), (x2,y1) in this order; the converter turns the Rectangle
    into the POLYGON literal of these four corners closed by the first.
    At the box [0 0 100 50] these are the vertices [0 0 0 50 100 50 100 0]
    and the literal [POLYGON((0 0, 0 50, 100 50, 100 0, 0 0))]. *)
Theorem rectangle_corners (line annot_type bbox x1 y1 x2 y2 : string) :
  Parse.search "obj<</Subj({})" line = Some [PyStr annot_type] →
  annot_type = "Rectangle" ∨ annot_type = "Square" →
  Parse.search "/Rect[{}]" line = Some [PyStr bbox] →
  split_ws bbox = [x1; y1; x2; y2] →
  ∃ corners,
    extract_type_and_vertices line = Returns (Some (annot_type, corners)) ∧
    split_char " " corners = [x1; y1; x1; y2; x2; y2; x2; y1] ∧
    pair_up (split_char " " corners) = [(x1, y1); (x1, y2); (x2, y2); (x2, y1)] ∧
    annotation_to_wkt (shape "Rectangle" corners) =
      Returns (Some (polygon [(x1, y1); (x1, y2); (x2, y2); (x2, y1); (x1, y1)])).
Proof.
  intros Hsubj Htype Hrect Hbox.
  exists (join " " [x1; y1; x1; y2; x2; y2; x2; y1]).
  assert (Hsplit : split_char " " (join " " [x1; y1; x1; y2; x2; y2; x2; y1]) =
                   [x1; y1; x1; y2; x2; y2; x2; y1]).
  { apply split_char_join; [discriminate|].
    pose proof (split_ws_tokens bbox) as Htokens. rewrite Hbox in Htokens.
    apply Forall_cons in Htokens as [H1 Htokens].
    apply Forall_cons in Htokens as [H2 Htokens].
    apply Forall_cons in Htokens as [H3 Htokens].
    apply Forall_cons in Htokens as [H4 _].
    repeat constructor; apply no_blank_no_space; assumption. }
  split; [|split; [exact Hsplit|split]].
  - unfold extract_type_and_vertices. rewrite Hsubj. cbn [item0 mbind outcome_bind Py.bind].
    destruct Htype as [-> | ->]; cbn [String.eqb Ascii.eqb Bool.eqb orb];
      rewrite Hrect; cbn [item0 mbind outcome_bind Py.bind]; rewrite Hbox; reflexivity.
  - rewrite Hsplit. reflexivity.
  - rewrite (wkt_polygon (shape "Rectangle" _) (or_intror eq_refl)).
    cbn [vertices shape].
    rewrite (group_vertices_closed (x1, y1) [(x1, y2); (x2, y2); (x2, y1)]);
      [reflexivity|].
    rewrite Hsplit. apply (group_loop_even [(x1, y1); (x1, y2); (x2, y2); (x2, y1)]).
Qed.

Lemma rectangle_corners_witness :
  ∃ corners,
    extract_type_and_vertices "1 0 obj<</Subj(Rectangle)/Rect[0 0 100 50]>>" =
      Returns (Some ("Rectangle", corners)) ∧
    corners = "0 0 0 50 100 50 100 0" ∧
    annotation_to_wkt (shape "Rectangle" corners) =
      Returns (Some "POLYGON((0 0, 0 50, 100 50, 100 0, 0 0))").
Proof.
  destruct (rectangle_corners "1 0 obj<</Subj(Rectangle)/Rect[0 0 100 50]>>"
              "Rectangle" "0 0 100 50" "0" "0" "100" "50"
              ltac:(vm_compute; reflexivity) (or_introl eq_refl)
              ltac:(vm_compute; reflexivity) ltac:(vm_compute; reflexivity))
    as (corners & Hextract & _ & _ & Hwkt).
  exists corners. split; [exact Hextract|].
  assert (Hcorners : corners = "0 0 0 50 100 50 100 0").
  { assert (Hrun : extract_type_and_vertices
                     "1 0 obj<</Subj(Rectangle)/Rect[0 0 100 50]>>" =
                   Returns (Some ("Rectangle", "0 0 0 50 100 50 100 0")))
      by (vm_compute; reflexivity).
    rewrite Hrun in Hextract. injection Hextract as <-. reflexivity. }
  split; [exact Hcorners|]. rewrite Hcorners in Hwkt |- *. exact Hwkt.
Defined.

(** C5: a header line whose Subj names a type with vertices but which
    lacks the field of that type, [/L[] for a Line, [/Vertices[] for a
    Circle, PolyLine or Polygon, [/Rect[] for a Rectangle or Square, makes
    the extractor subscript the None of the failed search: it raises
    TypeError, where its docstring and the claim have it return None. *)
Theorem missing_vertex_field_raises (line annot_type : string) :
  Parse.search "obj<</Subj({})" line = Some [PyStr annot_type] →
  (annot_type = "Line" ∧ Parse.search "/L[{}]" line = None) ∨
  ((annot_type = "Circle" ∨ annot_type = "PolyLine" ∨ annot_type = "Polygon") ∧
     Parse.search "/Vertices[{}]" line = None) ∨
  ((annot_type = "Rectangle" ∨ annot_type = "Square") ∧
     Parse.search "/Rect[{}]" line = None) →
  extract_type_and_vertices line = Raises TypeError.
Proof.
  intros Hsubj Hmissing. unfold extract_type_and_vertices. rewrite Hsubj.
  cbn [item0 mbind outcome_bind Py.bind].
  destruct Hmissing as [[-> Hnone] | [[[-> | [-> | ->]] Hnone] | [[-> | ->] Hnone]]];
    cbn [String.eqb Ascii.eqb Bool.eqb orb]; rewrite Hnone; reflexivity.
Qed.

Lemma missing_vertex_field_raises_witness :
  extract_type_and_vertices "1 0 obj<</Subj(Line)/Page(1)>>" = Raises TypeError ∧
  extract_type_and_vertices "2 0 obj<</Subj(Polygon)/Rect[0 0 1 1]>>" = Raises TypeError ∧
  extract_type_and_vertices "3 0 obj<</Subj(Square)>>" = Raises TypeError.
Proof.
  split; [|split].
  - apply (missing_vertex_field_raises _ "Line"); [vm_compute; reflexivity|].
    left. split; [reflexivity | vm_compute; reflexivity].
  - apply (missing_vertex_field_raises _ "Polygon"); [vm_compute; reflexivity|].
    right; left. split; [right; right; reflexivity | vm_compute; reflexivity].
  - apply (missing_vertex_field_raises _ "Square"); [vm_compute; reflexivity|].
    right; right. split; [right; reflexivity | vm_compute; reflexivity].
Defined.

(** C9: the stream line [0.2 0.4 0.6 RG] gives the line colour
    (0.2, 0.4, 0.6), as the claim has it.  The line weight of the stream
    line [2.5 w] is None, where the claim has 2.5: [parse_line_weight]
    searches the format [ {:g} w], with a blank in front of the number, so
    that a weight is found after a blank only ([ 2.5 w], or the operator
    after other operators) and not at the start of the line, against its
    docstring (the line weight contained within the line). *)
Theorem stream_colour_and_weight :
  parse_line_color "0.2 0.4 0.6 RG" =
    PyTuple [PyFloat "0.2"; PyFloat "0.4"; PyFloat "0.6"] ∧
  parse_line_weight " 2.5 w" = PyFloat "2.5" ∧
  parse_line_weight "0.2 0.4 0.6 RG 2.5 w" = PyFloat "2.5" ∧
  parse_line_weight "2.5 w" = PyNone ∧
  extract_stream_properties "0.2 0.4 0.6 RG 2.5 w" =
    Returns (<["line_color" := PyTuple [PyFloat "0.2"; PyFloat "0.4"; PyFloat "0.6"]]>
            (<["fill_color" := PyNone]>
            (<["line_weight" := PyFloat "2.5"]>
            (<["line_type" := PyNone]> ∅)))).
Proof. repeat split; vm_compute; reflexivity. Qed.

(** The operator that comes first in a stream line: the colour parsers
    find theirs there, the weight parser does not, and the dict of the
    stream properties holds None for the weight. *)
Lemma weight_placed_first_is_lost :
  parse_line_weight "2 w 0 0 1 RG" = PyNone ∧
  parse_line_color "0 0 1 RG 2 w" = PyTuple [PyFloat "0"; PyFloat "0"; PyFloat "1"] ∧
  parse_fill_color "1 0 0 rg 2 w" = PyTuple [PyFloat "1"; PyFloat "0"; PyFloat "0"] ∧
  parse_line_weight "0 0 1 RG 2 w" = PyFloat "2" ∧
  (extract_stream_properties "2.5 w" ≫= λ d, Returns (d !! "line_weight")) =
    Returns (Some PyNone).
Proof. repeat split; vm_compute; reflexivity. Qed.

End Extraction.

(** ** The pattern search: what a [{}] field holds *)

Section Matching.

Import Parse.

Lemma lazy1_shorter {A} (p : ascii → bool) (k : string → option A) (res : A) :
  ∀ s, lazy1 p s k = Some res →
       ∃ rest, k rest = Some res ∧ String.length rest < String.length s.
Proof.
  induction s as [|c s IH]; [discriminate|]. simpl.
  destruct (p c); [|discriminate].
  destruct (k s) as [r|] eqn:Hk.
  - intros [= <-]. exists s. split; [exact Hk | lia].
  - intros Hlazy. destruct (IH Hlazy) as (rest & Hrest & Hlen).
    exists rest. split; [exact Hrest | lia].
Qed.

Lemma consumed_not_empty (s rest : string) :
  String.length rest < String.length s → consumed s rest ≠ EmptyString.
Proof.
  unfold consumed. intros Hlen. destruct s as [|c s]; simpl in Hlen; [lia|].
  simpl String.length.
  destruct (S (String.length s) - String.length rest) as [|n] eqn:Hn; [lia|].
  discriminate.
Qed.

Lemma text_keeps_captures (cs : bool) (chars : list ascii) :
  ∀ (s : string) (caps res : list string),
    rmatch (expression cs (map Text chars)) s caps (λ _ c, Some c) = Some res →
    res = caps.
Proof.
  induction chars as [|ch chars IH]; intros s caps res.
  - simpl. intros [= <-]. reflexivity.
  - simpl. destruct s as [|c s]; [discriminate|].
    destruct (same_char cs ch c); [apply IH | discriminate].
Qed.

Lemma one_str_field (cs : bool) (before after : list ascii) :
  ∀ (s : string) (caps res : list string),
    rmatch (expression cs (map Text before ++ Field FieldStr :: map Text after))
           s caps (λ _ c, Some c) = Some res →
    ∃ text, text ≠ EmptyString ∧ res = caps ++ [text].
Proof.
  induction before as [|ch before IH]; intros s caps res.
  - cbn [map app expression field_regex rmatch]. intros Hlazy.
    apply lazy1_shorter in Hlazy as (rest & Hrest & Hlen).
    apply text_keeps_captures in Hrest.
    exists (consumed s rest). split; [apply consumed_not_empty; exact Hlen | exact Hrest].
  - cbn [map app expression rmatch]. destruct s as [|c s]; [discriminate|].
    destruct (same_char cs ch c); [apply IH | discriminate].
Qed.

Lemma search_re_matches (r : regex) (res : list string) :
  ∀ s, search_re r s = Some res →
       ∃ s', rmatch r s' [] (λ _ c, Some c) = Some res.
Proof.
  induction s as [|c s IH]; simpl.
  - destruct (rmatch r EmptyString [] (λ _ c, Some c)) eqn:Hm; [|discriminate].
    intros [= <-]. eexists; exact Hm.
  - destruct (rmatch r (String c s) [] (λ _ c, Some c)) eqn:Hm.
    + intros [= <-]. eexists; exact Hm.
    + exact IH.
Qed.

Lemma fields_of_one_str (before after : list ascii) :
  fields_of (map Text before ++ Field FieldStr :: map Text after) = [FieldStr].
Proof.
  induction before as [|ch before IH]; simpl; [|exact IH].
  induction after as [|ch after IH]; simpl; [reflexivity | exact IH].
Qed.

(** A format with one field [{}] between two texts finds a text that is
    not empty. *)
Lemma search_one_str (format line : string) (before after : list ascii)
    (values : list pyval) :
  parts_of format = map Text before ++ Field FieldStr :: map Text after →
  search format line = Some values →
  ∃ text, text ≠ EmptyString ∧ values = [PyStr text].
Proof.
  unfold search, search_with. intros ->.
  destruct (search_re _ line) as [texts|] eqn:Hsearch; [|discriminate].
  intros [= <-]. apply search_re_matches in Hsearch as [s' Hmatch].
  apply one_str_field in Hmatch as (text & Htext & ->).
  exists text. split; [exact Htext|]. rewrite fields_of_one_str. reflexivity.
Qed.

Lemma item0_one_str (format line : string) (before after : list ascii) (text : string) :
  parts_of format = map Text before ++ Field FieldStr :: map Text after →
  FdfToWkt.item0 (search format line) = Returns text →
  text ≠ EmptyString.
Proof.
  intros Hparts. destruct (search format line) as [values|] eqn:Hsearch; [|discriminate].
  destruct (search_one_str _ _ _ _ _ Hparts Hsearch) as (found & Hfound & ->).
  simpl. intros [= <-]. exact Hfound.
Qed.

Lemma truthy_not_empty (s : string) :
  s ≠ EmptyString → truthy_str (Some s) = true.
Proof. destruct s; [congruence | reflexivity]. Qed.

(** What the extractor returns is a type and vertices that count as true. *)
Lemma extracted_is_truthy (line annot_type vertices : string) :
  FdfToWkt.extract_type_and_vertices line = Returns (Some (annot_type, vertices)) →
  truthy_str (Some annot_type) = true ∧ truthy_str (Some vertices) = true.
Proof.
  unfold FdfToWkt.extract_type_and_vertices.
  destruct (search "obj<</Subj({})" line) as [values|] eqn:Hsubj; [|discriminate].
  destruct (FdfToWkt.item0 (Some values)) as [found|] eqn:Hfound; [|discriminate].
  cbn [mbind outcome_bind Py.bind].
  destruct (String.eqb found "Line") eqn:Hline.
  { apply String.eqb_eq in Hline as ->.
    destruct (FdfToWkt.item0 (search "/L[{}]" line)) as [v|] eqn:Hv; [|discriminate].
    cbn [mbind outcome_bind Py.bind]. intros [= <- <-]. split; [reflexivity|].
    apply truthy_not_empty.
    apply (item0_one_str "/L[{}]" line ["/"; "L"; "["]%char ["]"]%char); [reflexivity|exact Hv]. }
  destruct (String.eqb found "Circle" || String.eqb found "PolyLine"
            || String.eqb found "Polygon") eqn:Hvert.
  { destruct (FdfToWkt.item0 (search "/Vertices[{}]" line)) as [v|] eqn:Hv; [|discriminate].
    cbn [mbind outcome_bind Py.bind]. intros [= <- <-]. split.
    - apply orb_true_iff in Hvert as [Hvert | ->%String.eqb_eq]; [|reflexivity].
      apply orb_true_iff in Hvert as [->%String.eqb_eq | ->%String.eqb_eq]; reflexivity.
    - apply truthy_not_empty.
      apply (item0_one_str "/Vertices[{}]" line
               ["/"; "V"; "e"; "r"; "t"; "i"; "c"; "e"; "s"; "["]%char ["]"]%char);
        [reflexivity|exact Hv]. }
  destruct (String.eqb found "Rectangle" || String.eqb found "Square") eqn:Hrect;
    [|discriminate].
  destruct (FdfToWkt.item0 (search "/Rect[{}]" line)) as [bbox|]; [|discriminate].
  cbn [mbind outcome_bind Py.bind].
  destruct (split_ws bbox) as [|x1 [|y1 [|x2 [|y2 [|extra rest]]]]]; try discriminate.
  intros [= <- <-]. split.
  - apply orb_true_iff in Hrect as [->%String.eqb_eq | ->%String.eqb_eq]; reflexivity.
  - destruct x1; reflexivity.
Qed.

End Matching.

(** ** The annotation assembler *)

Section Assembling.

Import FdfToWkt.

Lemma prefix_deeper (sub s : string) (c : ascii) :
  str_in sub s = true → str_in sub (String c s) = true.
Proof. intros H. cbn [str_in]. rewrite H. apply orb_true_r. Qed.

Lemma prefix_is_in (sub s : string) :
  String.prefix sub s = true → str_in sub s = true.
Proof. intros H. destruct s; cbn [str_in]; rewrite H; reflexivity. Qed.

(** A line that holds [endstream] holds [stream]. *)
Lemma endstream_is_stream (line : string) :
  str_in "endstream" line = true → str_in "stream" line = true.
Proof.
  induction line as [|c line IH]; [discriminate|].
  cbn [str_in]. intros [Hhere | Hlater]%orb_true_iff.
  - destruct line as [|c1 [|c2 rest]]; simpl in Hhere;
      repeat (match type of Hhere with
              | (if ?b then _ else _) = true => destruct b; [|discriminate]
              end); try discriminate.
    do 3 apply prefix_deeper. apply prefix_is_in. exact Hhere.
  - apply orb_true_iff. right. exact (IH Hlater).
Qed.

Lemma no_stream_no_endstream (line : string) :
  str_in "stream" line = false → str_in "endstream" line = false.
Proof.
  intros Hno. destruct (str_in "endstream" line) eqn:Hend; [|reflexivity].
  rewrite (endstream_is_stream line Hend) in Hno. discriminate.
Qed.

Lemma pop_label (line : string) :
  pop "label" (extract_object_properties line) =
  Returns (first_or_none (Parse.search "/Contents({})/" line),
           delete "label" (extract_object_properties line)).
Proof.
  unfold pop, extract_object_properties, update, extract_page, extract_label,
    extract_object_opacity.
  simplify_map_eq. reflexivity.
Qed.

Lemma pop_page (line : string) :
  pop "page" (delete "label" (extract_object_properties line)) =
  Returns (first_or_none (Parse.search "/Page({})" line),
           delete "page" (delete "label" (extract_object_properties line))).
Proof.
  unfold pop, extract_object_properties, update, extract_page, extract_label,
    extract_object_opacity.
  simplify_map_eq. reflexivity.
Qed.

(** Without its label and page the dict of a header is its opacities. *)
Lemma popped_properties (line : string) :
  delete "page" (delete "label" (extract_object_properties line)) =
  extract_object_opacity line.
Proof.
  unfold extract_object_properties, update, extract_page, extract_label,
    extract_object_opacity.
  apply map_eq. intros k.
  destruct (decide (k = "page")) as [-> | Hpage]; [rewrite lookup_delete_eq; reflexivity|].
  rewrite lookup_delete_ne by congruence.
  destruct (decide (k = "label")) as [-> | Hlabel]; [rewrite lookup_delete_eq; reflexivity|].
  rewrite lookup_delete_ne by congruence.
  rewrite lookup_union_r by (apply lookup_singleton_ne; congruence).
  rewrite lookup_union_r by (apply lookup_singleton_ne; congruence).
  rewrite (right_id_L ∅ (∪)). reflexivity.
Qed.

Lemma opacity_keys (line : string) :
  dom (extract_object_opacity line) ⊆ field_names.
Proof. unfold extract_object_opacity, field_names. set_solver. Qed.

Lemma stream_keys (body : string) (dash : pyval) :
  dom (stream_dict body dash) ⊆ field_names.
Proof. unfold stream_dict, field_names. set_solver. Qed.

Lemma update_keys (d other : gmap string pyval) :
  dom d ⊆ field_names → dom other ⊆ field_names → dom (update d other) ⊆ field_names.
Proof. unfold update. set_solver. Qed.

Lemma stream_dict_truthy (body : string) (dash : pyval) :
  dict_truthy (stream_dict body dash) = true.
Proof.
  unfold dict_truthy, stream_dict.
  destruct (size _) eqn:Hsize; [|reflexivity].
  apply map_size_empty_iff in Hsize. apply insert_non_empty in Hsize. contradiction.
Qed.

Lemma extract_stream_properties_dict (body : string) (dash : pyval) :
  parse_line_type body = Returns dash →
  extract_stream_properties body = Returns (stream_dict body dash).
Proof. unfold extract_stream_properties. intros ->. reflexivity. Qed.

(** With no stream properties at hand a line is taken up, or passed. *)
Lemma take_up_header (st : scanner) (line annot_type vertices : string) :
  stream_properties st = ∅ →
  extract_type_and_vertices line = Returns (Some (annot_type, vertices)) →
  take_up st line = Returns (taken_up st line annot_type vertices).
Proof.
  intros Hnone Hfields. unfold take_up. rewrite Hfields, Hnone.
  cbn [mbind outcome_bind Py.bind].
  replace (dict_truthy ∅) with false by reflexivity.
  rewrite andb_false_r, pop_label. cbn [mbind outcome_bind Py.bind].
  rewrite pop_page. cbn [mbind outcome_bind Py.bind].
  rewrite popped_properties. unfold taken_up. rewrite Hnone. reflexivity.
Qed.

Lemma take_up_nothing (st : scanner) (line : string) :
  stream_properties st = ∅ →
  extract_type_and_vertices line = Returns None →
  take_up st line = Returns st.
Proof.
  intros Hnone Hfields. unfold take_up. rewrite Hfields, Hnone.
  cbn [mbind outcome_bind Py.bind].
  replace (dict_truthy ∅) with false by reflexivity.
  rewrite andb_false_r. reflexivity.
Qed.

Lemma taken_up_idle (st : scanner) (line annot_type vertices : string) :
  idle st → idle (taken_up st line annot_type vertices).
Proof.
  intros (Hin & Hdata & Hprops & Hkeys). repeat split; try assumption.
  cbn [annotation_properties taken_up].
  apply update_keys; [exact Hkeys | apply opacity_keys].
Qed.

Lemma take_up_idle (st st' : scanner) (line : string) :
  idle st → take_up st line = Returns st' →
  idle st' ∧ annotations st' = annotations st.
Proof.
  intros Hidle. pose proof Hidle as (_ & _ & Hprops & _).
  destruct (extract_type_and_vertices line) as [[[t v]|]|e] eqn:Hfields.
  - rewrite (take_up_header st line t v Hprops Hfields). intros [= <-].
    split; [apply taken_up_idle; exact Hidle | reflexivity].
  - rewrite (take_up_nothing st line Hprops Hfields). intros [= <-].
    split; [exact Hidle | reflexivity].
  - unfold take_up. rewrite Hfields. discriminate.
Qed.

Lemma step_idle (st st' : scanner) (line : string) :
  idle st → str_in "stream" line = false → step st line = Returns st' →
  idle st' ∧ annotations st' = annotations st.
Proof.
  intros Hidle Hno. pose proof Hidle as (Hin & _ & _ & _).
  unfold step. rewrite (no_stream_no_endstream line Hno), Hin, Hno.
  cbn [andb negb].
  destruct (negb (bool_decide (is_Some (Parse.search "{} 0 obj<<" line))) && true).
  - intros [= <-]. split; [exact Hidle | reflexivity].
  - apply take_up_idle. exact Hidle.
Qed.

Lemma scan_idle (lines : list string) :
  ∀ st st', idle st →
    Forall (λ line, str_in "stream" line = false) lines →
    scan st lines = Returns st' →
    idle st' ∧ annotations st' = annotations st.
Proof.
  induction lines as [|line lines IH]; intros st st' Hidle Hall.
  - intros [= <-]. split; [exact Hidle | reflexivity].
  - apply Forall_cons in Hall as [Hline Hall]. cbn [scan].
    destruct (step st line) as [st1|e] eqn:Hstep; [|discriminate].
    cbn [mbind outcome_bind Py.bind]. intros Hscan.
    destruct (step_idle st st1 line Hidle Hline Hstep) as [Hidle1 Hsame1].
    destruct (IH st1 st' Hidle1 Hall Hscan) as [Hidle' Hsame'].
    split; [exact Hidle' | congruence].
Qed.

Lemma start_idle : idle start.
Proof. repeat split. cbn [annotation_properties start]. set_solver. Qed.

Lemma scan_app (first : list string) :
  ∀ (st : scanner) (second : list string),
    scan st (first ++ second) = st' ← scan st first; scan st' second.
Proof.
  induction first as [|line first IH]; intros st second; [reflexivity|].
  cbn [app scan]. destruct (step st line) as [st1|e]; [|reflexivity].
  cbn [mbind outcome_bind Py.bind]. apply IH.
Qed.

(** A header line of an idle scanner that has a type and vertices. *)
Lemma step_header (st : scanner) (line annot_type vertices : string) :
  idle st → is_header line = true → str_in "stream" line = false →
  extract_type_and_vertices line = Returns (Some (annot_type, vertices)) →
  step st line = Returns (taken_up st line annot_type vertices).
Proof.
  intros (Hin & _ & Hprops & _) Hheader Hno Hfields.
  unfold step. rewrite (no_stream_no_endstream line Hno), Hin, Hno.
  unfold is_header in Hheader. rewrite Hheader. cbn [andb negb].
  apply take_up_header; assumption.
Qed.

Lemma taken_up_holding (st : scanner) (line annot_type vertices : string) :
  idle st →
  extract_type_and_vertices line = Returns (Some (annot_type, vertices)) →
  holding (taken_up st line annot_type vertices) annot_type vertices.
Proof.
  intros Hidle Hfields.
  destruct (extracted_is_truthy line annot_type vertices Hfields) as [Htype Hvert].
  destruct (taken_up_idle st line annot_type vertices Hidle) as (Hin & Hdata & _ & Hkeys).
  repeat split; assumption.
Qed.

(** Lines that are passed over change nothing. *)
Lemma scan_passed (lines : list string) (st : scanner) :
  in_stream_data st = false → stream_data st = None → stream_properties st = ∅ →
  Forall passed_over lines →
  scan st lines = Returns st.
Proof.
  intros Hin Hdata Hprops.
  induction 1 as [|line lines [Hno Hline] _ IH]; [reflexivity|].
  cbn [scan]. unfold step at 1.
  rewrite (no_stream_no_endstream line Hno), Hin, Hno. cbn [andb negb].
  destruct Hline as [Hheader | Hfields].
  - unfold is_header in Hheader. rewrite Hheader. cbn [andb negb].
    cbn [mbind outcome_bind Py.bind]. exact IH.
  - rewrite andb_true_r.
    destruct (negb (bool_decide (is_Some (Parse.search "{} 0 obj<<" line)))).
    + cbn [mbind outcome_bind Py.bind]. exact IH.
    + rewrite (take_up_nothing st line Hprops Hfields).
      cbn [mbind outcome_bind Py.bind]. exact IH.
Qed.

(** The three lines of a stream block. *)
Lemma step_opening (st : scanner) (line : string) :
  in_stream_data st = false → stream_data st = None →
  str_in "stream" line = true →
  step st line =
  Returns {| annotations := annotations st;
             in_stream_data := true;
             stream_data := stream_data st;
             stream_properties := stream_properties st;
             annotation_properties := annotation_properties st;
             annot_type := annot_type st;
             pending_vertices := pending_vertices st;
             pending_label := pending_label st;
             pending_page := pending_page st |}.
Proof.
  intros Hin Hdata Hopen. unfold step. rewrite Hdata, Hin, Hopen.
  cbn [truthy_str negb]. rewrite !andb_false_r. reflexivity.
Qed.

Lemma step_body (st : scanner) (line : string) :
  in_stream_data st = true → stream_data st = None →
  step st line =
  Returns {| annotations := annotations st;
             in_stream_data := false;
             stream_data := Some line;
             stream_properties := stream_properties st;
             annotation_properties := annotation_properties st;
             annot_type := annot_type st;
             pending_vertices := pending_vertices st;
             pending_label := pending_label st;
             pending_page := pending_page st |}.
Proof.
  intros Hin Hdata. unfold step. rewrite Hdata, Hin.
  cbn [truthy_str]. rewrite andb_false_r. reflexivity.
Qed.

Lemma step_closing (st : scanner) (body line : string) (dash : pyval) :
  stream_data st = Some body → body ≠ EmptyString →
  parse_line_type body = Returns dash →
  str_in "endstream" line = true →
  step st line =
  take_up {| annotations := annotations st;
             in_stream_data := in_stream_data st;
             stream_data := None;
             stream_properties := stream_dict body dash;
             annotation_properties := annotation_properties st;
             annot_type := annot_type st;
             pending_vertices := pending_vertices st;
             pending_label := pending_label st;
             pending_page := pending_page st |} line.
Proof.
  intros Hdata Hbody Hdash Hclose. unfold step.
  rewrite Hdata, Hclose, (truthy_not_empty body Hbody). cbn [andb].
  change (default EmptyString (Some body)) with body.
  rewrite (extract_stream_properties_dict body dash Hdash). reflexivity.
Qed.

(** A line met with a type, vertices and stream properties at hand. *)
Lemma take_up_completes (st : scanner) (annot_type vertices body line : string)
    (dash : pyval) (fields : option (string * string)) :
  FdfToWkt.annot_type st = Some annot_type →
  pending_vertices st = Some vertices →
  truthy_str (Some annot_type) = true →
  truthy_str (Some vertices) = true →
  stream_properties st = stream_dict body dash →
  dom (annotation_properties st) ⊆ field_names →
  extract_type_and_vertices line = Returns fields →
  ∃ properties,
    new_AnnotationProperties
      (update (annotation_properties st) (stream_dict body dash)) =
      Returns properties ∧
    take_up st line =
    Returns {| annotations :=
                 annotations st ++
                 [{| object_type := annot_type;
                     vertices := vertices;
                     page := pending_page st;
                     label := pending_label st;
                     properties := Some properties;
                     wkt := None |}];
               in_stream_data := in_stream_data st;
               stream_data := stream_data st;
               stream_properties := ∅;
               annotation_properties :=
                 update (annotation_properties st) (stream_dict body dash);
               annot_type := Some annot_type;
               pending_vertices := Some vertices;
               pending_label := pending_label st;
               pending_page := pending_page st |}.
Proof.
  intros Htype Hvert Htt Htv Hprops Hkeys Hfields.
  unfold take_up. rewrite Hfields. cbn [mbind outcome_bind Py.bind].
  rewrite Htype, Hvert, Htt, Htv, Hprops, stream_dict_truthy. cbn [andb].
  unfold new_AnnotationProperties.
  rewrite bool_decide_eq_true_2
    by (apply update_keys; [exact Hkeys | apply stream_keys]).
  eexists. split; reflexivity.
Qed.

Lemma stream_dict_color (body : string) (dash : pyval) :
  stream_dict body dash !! "line_color" = Some (parse_line_color body).
Proof. unfold stream_dict. simplify_map_eq. reflexivity. Qed.

Lemma stream_dict_fill (body : string) (dash : pyval) :
  stream_dict body dash !! "fill_color" = Some (parse_fill_color body).
Proof. unfold stream_dict. simplify_map_eq. reflexivity. Qed.

Lemma stream_dict_weight (body : string) (dash : pyval) :
  stream_dict body dash !! "line_weight" = Some (parse_line_weight body).
Proof. unfold stream_dict. simplify_map_eq. reflexivity. Qed.

Lemma stream_dict_dash (body : string) (dash : pyval) :
  stream_dict body dash !! "line_type" = Some dash.
Proof. unfold stream_dict. simplify_map_eq. reflexivity. Qed.

Lemma stream_dict_other (body : string) (dash : pyval) (key : string) :
  key ≠ "line_color" → key ≠ "fill_color" → key ≠ "line_weight" →
  key ≠ "line_type" → stream_dict body dash !! key = None.
Proof. intros. unfold stream_dict. simplify_map_eq. reflexivity. Qed.

Lemma completed_properties (d : gmap string pyval) (body : string) (dash : pyval) :
  dom d ⊆ field_names →
  new_AnnotationProperties (update d (stream_dict body dash)) =
  Returns {| line_color := parse_line_color body;
             line_opacity := keyword d "line_opacity";
             line_weight := parse_line_weight body;
             line_type := dash;
             fill_color := parse_fill_color body;
             fill_opacity := keyword d "fill_opacity" |}.
Proof.
  intros Hkeys. unfold new_AnnotationProperties.
  rewrite bool_decide_eq_true_2
    by (apply update_keys; [exact Hkeys | apply stream_keys]).
  unfold keyword, update.
  rewrite (lookup_union_Some_l _ d _ _ (stream_dict_color body dash)),
    (lookup_union_Some_l _ d _ _ (stream_dict_fill body dash)),
    (lookup_union_Some_l _ d _ _ (stream_dict_weight body dash)),
    (lookup_union_Some_l _ d _ _ (stream_dict_dash body dash)).
  rewrite !lookup_union_r by (apply stream_dict_other; discriminate).
  reflexivity.
Qed.

(** A stream block met while a type and vertices are held: its closing
    line appends an annotation, and the scanner goes on holding the same
    type and vertices. *)
Lemma scan_block (st : scanner) (annot_type vertices opening body closing : string)
    (dash : pyval) (closing_fields : option (string * string)) :
  holding st annot_type vertices →
  str_in "stream" opening = true →
  body ≠ EmptyString →
  parse_line_type body = Returns dash →
  str_in "endstream" closing = true →
  extract_type_and_vertices closing = Returns closing_fields →
  scan st [opening; body; closing] =
    Returns (after_block st annot_type vertices body dash) ∧
  holding (after_block st annot_type vertices body dash) annot_type vertices.
Proof.
  intros (Hin & Hdata & Htype & Hvert & Htt & Htv & Hkeys)
    Hopen Hbody Hdash Hclose Hfields.
  split.
  - cbn [scan]. rewrite (step_opening st opening Hin Hdata Hopen).
    cbn [mbind outcome_bind Py.bind].
    rewrite step_body by (cbn; assumption || reflexivity).
    cbn [mbind outcome_bind Py.bind].
    rewrite (step_closing _ body closing dash) by (cbn; assumption || reflexivity).
    cbn [annotations in_stream_data stream_properties annotation_properties
         FdfToWkt.annot_type pending_vertices pending_label pending_page].
    match goal with
    | |- take_up ?held _ ≫= _ = _ =>
        destruct (take_up_completes held annot_type vertices body closing dash
                    closing_fields Htype Hvert Htt Htv eq_refl Hkeys Hfields)
          as (properties & Hnew & Htake)
    end.
    rewrite Htake. cbn [mbind outcome_bind Py.bind].
    cbn [annotations in_stream_data stream_data stream_properties
         annotation_properties pending_label pending_page] in Hnew |- *.
    rewrite (completed_properties _ body dash Hkeys) in Hnew.
    injection Hnew as <-.
    unfold after_block, completed. rewrite Htype, Hvert. reflexivity.
  - repeat split; cbn [after_block in_stream_data stream_data FdfToWkt.annot_type
                       pending_vertices annotation_properties]; try assumption.
    apply update_keys; [exact Hkeys | apply stream_keys].
Qed.

Lemma opacity_line (d : gmap string pyval) (line : string) :
  keyword (update d (extract_object_opacity line)) "line_opacity" =
  first_or_none (Parse.search "/LineOpacity {:g}/" line).
Proof.
  unfold keyword, update, extract_object_opacity.
  erewrite lookup_union_Some_l; [reflexivity|]. simplify_map_eq. reflexivity.
Qed.

Lemma opacity_fill (d : gmap string pyval) (line : string) :
  keyword (update d (extract_object_opacity line)) "fill_opacity" =
  first_or_none (Parse.search "/FillOpacity {:g}/" line).
Proof.
  unfold keyword, update, extract_object_opacity.
  erewrite lookup_union_Some_l; [reflexivity|]. simplify_map_eq. reflexivity.
Qed.

Lemma stream_keeps_opacity (d : gmap string pyval) (body : string) (dash : pyval)
    (key : string) :
  key = "line_opacity" ∨ key = "fill_opacity" →
  keyword (update d (stream_dict body dash)) key = keyword d key.
Proof.
  intros Hkey. unfold keyword, update.
  rewrite lookup_union_r; [reflexivity|].
  apply stream_dict_other; destruct Hkey as [-> | ->]; discriminate.
Qed.

(** The annotation completed right after a header was taken up is the
    annotation of that header. *)
Lemma completed_after_header (st : scanner) (header annot_type vertices body : string)
    (dash : pyval) :
  completed (taken_up st header annot_type vertices) annot_type vertices body dash =
  annotation_of header body annot_type vertices dash.
Proof.
  unfold completed, annotation_of.
  cbn [taken_up pending_page pending_label annotation_properties].
  rewrite opacity_line, opacity_fill. reflexivity.
Qed.

(** The list of annotations only grows. *)
Lemma take_up_keeps (st st' : scanner) (line : string) :
  take_up st line = Returns st' → annotations st `prefix_of` annotations st'.
Proof.
  unfold take_up.
  destruct (extract_type_and_vertices line) as [fields|e]; [|discriminate].
  cbn [mbind outcome_bind Py.bind].
  destruct (truthy_str (annot_type st) && truthy_str (pending_vertices st)
            && dict_truthy (stream_properties st)).
  - destruct (new_AnnotationProperties _) as [properties|e]; [|discriminate].
    cbn [mbind outcome_bind Py.bind]. intros [= <-].
    cbn [annotations]. apply prefix_app_r. reflexivity.
  - destruct fields as [[t v]|]; [|intros [= <-]; reflexivity].
    destruct (pop "label" _) as [[l d]|e]; [|discriminate].
    cbn [mbind outcome_bind Py.bind].
    destruct (pop "page" d) as [[p d']|e]; [|discriminate].
    cbn [mbind outcome_bind Py.bind]. intros [= <-]. reflexivity.
Qed.

Lemma step_keeps (st st' : scanner) (line : string) :
  step st line = Returns st' → annotations st `prefix_of` annotations st'.
Proof.
  unfold step.
  destruct (str_in "endstream" line && truthy_str (stream_data st)).
  - destruct (extract_stream_properties _) as [d|e]; [|discriminate].
    cbn [mbind outcome_bind Py.bind]. intros Htake.
    apply take_up_keeps in Htake. exact Htake.
  - destruct (in_stream_data st); [intros [= <-]; reflexivity|].
    destruct (negb _ && negb _); [intros [= <-]; reflexivity|].
    destruct (str_in "stream" line); [intros [= <-]; reflexivity|].
    apply take_up_keeps.
Qed.

Lemma scan_keeps (lines : list string) :
  ∀ st st', scan st lines = Returns st' →
            annotations st `prefix_of` annotations st'.
Proof.
  induction lines as [|line lines IH]; intros st st'.
  - intros [= <-]. reflexivity.
  - cbn [scan]. destruct (step st line) as [st1|e] eqn:Hstep; [|discriminate].
    cbn [mbind outcome_bind Py.bind]. intros Hscan.
    transitivity (annotations st1); [exact (step_keeps _ _ _ Hstep) | exact (IH _ _ Hscan)].
Qed.

(** A header met by an idle scanner, then the stream block of its object. *)
Lemma scan_object (st : scanner)
    (header annot_type vertices opening body closing : string) (quiet : list string)
    (dash : pyval) (closing_fields : option (string * string)) :
  idle st →
  is_header header = true → str_in "stream" header = false →
  extract_type_and_vertices header = Returns (Some (annot_type, vertices)) →
  Forall passed_over quiet →
  str_in "stream" opening = true →
  body ≠ EmptyString →
  parse_line_type body = Returns dash →
  str_in "endstream" closing = true →
  extract_type_and_vertices closing = Returns closing_fields →
  ∃ st',
    scan st (header :: quiet ++ [opening; body; closing]) = Returns st' ∧
    annotations st' =
      annotations st ++ [annotation_of header body annot_type vertices dash] ∧
    st' = after_block (taken_up st header annot_type vertices)
                      annot_type vertices body dash ∧
    holding st' annot_type vertices.
Proof.
  intros Hidle Hheader Hno Hfields Hquiet Hopen Hbody Hdash Hclose Hclosing.
  pose proof (taken_up_holding st header annot_type vertices Hidle Hfields) as Hheld.
  destruct (scan_block _ _ _ opening body closing dash closing_fields
              Hheld Hopen Hbody Hdash Hclose Hclosing) as [Hblock Hafter].
  eexists. split; [|split; [|split; [reflexivity | exact Hafter]]].
  - cbn [scan]. rewrite (step_header st header annot_type vertices Hidle Hheader Hno Hfields).
    cbn [mbind outcome_bind Py.bind]. rewrite scan_app.
    destruct Hheld as (Hin & Hdata & _).
    rewrite (scan_passed quiet _ Hin Hdata (proj1 (proj2 (proj2 Hidle))) Hquiet).
    cbn [mbind outcome_bind Py.bind]. exact Hblock.
  - cbn [after_block annotations]. rewrite completed_after_header. reflexivity.
Qed.

(** C8, with the conditions the assembler needs: no line before the
    header of A holds the text [stream], and these lines are scanned without
    a failure; the headers of A and of B, each with a type and vertices,
    do not hold the text [stream] themselves; the header of B follows the
    header of A at once, and the stream block of B comes after it with
    nothing but lines that are passed over in between; the body of the
    block is not empty and its dash pattern, if it has one, converts; the
    extractor does not fail on the closing line.  Then the assembler
    returns one annotation: the one of B, with the type, the vertices, the
    label, the page and the opacities of B's header and the properties of
    B's stream.  Nothing of A is returned.  Whatever follows in the
    document, the annotation of B stays the first of the result. *)
Theorem second_header_replaces_first
    (before quiet : list string)
    (header_a header_b opening body closing : string)
    (type_a vertices_a type_b vertices_b : string)
    (dash : pyval) (closing_fields : option (string * string)) (st : scanner) :
  Forall (λ line, str_in "stream" line = false) before →
  scan start before = Returns st →
  is_header header_a = true → str_in "stream" header_a = false →
  extract_type_and_vertices header_a = Returns (Some (type_a, vertices_a)) →
  is_header header_b = true → str_in "stream" header_b = false →
  extract_type_and_vertices header_b = Returns (Some (type_b, vertices_b)) →
  Forall passed_over quiet →
  str_in "stream" opening = true →
  body ≠ EmptyString →
  parse_line_type body = Returns dash →
  str_in "endstream" closing = true →
  extract_type_and_vertices closing = Returns closing_fields →
  let document :=
    before ++ header_a :: header_b :: quiet ++ [opening; body; closing] in
  let annotation_b := annotation_of header_b body type_b vertices_b dash in
  get_annotations_from_fdf document = Returns [annotation_b] ∧
  ∀ after result,
    get_annotations_from_fdf (document ++ after) = Returns result →
    [annotation_b] `prefix_of` result.
Proof.
  intros Hbefore Hscan Hha Hna Hfa Hhb Hnb Hfb Hquiet Hopen Hbody Hdash Hclose
    Hclosing document annotation_b.
  destruct (scan_idle before start st start_idle Hbefore Hscan) as [Hidle Hnone].
  pose proof (taken_up_idle st header_a type_a vertices_a Hidle) as Hidle_a.
  destruct (scan_object _ header_b type_b vertices_b opening body closing quiet
              dash closing_fields Hidle_a Hhb Hnb Hfb Hquiet Hopen Hbody Hdash
              Hclose Hclosing) as (st' & Hobject & Hout & _ & _).
  assert (Hdoc : scan start document = Returns st').
  { unfold document. rewrite scan_app, Hscan. cbn [mbind outcome_bind Py.bind scan].
    rewrite (step_header st header_a type_a vertices_a Hidle Hha Hna Hfa).
    cbn [mbind outcome_bind Py.bind]. exact Hobject. }
  assert (Hresult : annotations st' = [annotation_b]).
  { rewrite Hout. cbn [taken_up annotations]. rewrite Hnone. reflexivity. }
  split.
  - unfold get_annotations_from_fdf. rewrite Hdoc.
    cbn [mbind outcome_bind Py.bind]. rewrite Hresult. reflexivity.
  - intros after result. unfold get_annotations_from_fdf.
    rewrite scan_app, Hdoc. cbn [mbind outcome_bind Py.bind].
    destruct (scan st' after) as [st''|e] eqn:Hafter; [|discriminate].
    cbn [mbind outcome_bind Py.bind]. intros [= <-].
    rewrite <- Hresult. exact (scan_keeps after st' st'' Hafter).
Qed.

Lemma second_header_replaces_first_witness :
  get_annotations_from_fdf
    [ "%FDF-1.2";
      "1 0 obj<</Subj(Line)/L[10 20 30 40]/Contents(first)/Page(1)/LineOpacity 0.5/>>";
      "2 0 obj<</Subj(Polygon)/Vertices[0 0 4 0 4 3]/Contents(second)/Page(2)/FillOpacity 0.25/>>";
      "3 0 obj<</Length 20>>";
      "stream";
      "0.2 0.4 0.6 RG 2.5 w";
      "endstream" ] =
  Returns
    [ {| object_type := "Polygon";
         vertices := "0 0 4 0 4 3";
         page := PyStr "2";
         label := PyStr "second";
         properties :=
           Some {| line_color := PyTuple [PyFloat "0.2"; PyFloat "0.4"; PyFloat "0.6"];
                   line_opacity := PyNone;
                   line_weight := PyFloat "2.5";
                   line_type := PyNone;
                   fill_color := PyNone;
                   fill_opacity := PyFloat "0.25" |};
         wkt := None |} ].
Proof.
  refine (eq_trans (proj1 (second_header_replaces_first
    ["%FDF-1.2"] ["3 0 obj<</Length 20>>"]
    "1 0 obj<</Subj(Line)/L[10 20 30 40]/Contents(first)/Page(1)/LineOpacity 0.5/>>"
    "2 0 obj<</Subj(Polygon)/Vertices[0 0 4 0 4 3]/Contents(second)/Page(2)/FillOpacity 0.25/>>"
    "stream" "0.2 0.4 0.6 RG 2.5 w" "endstream"
    "Line" "10 20 30 40" "Polygon" "0 0 4 0 4 3" PyNone None start
    _ _ _ _ _ _ _ _ _ _ _ _ _ _)) _).
  all: try (vm_compute; reflexivity).
  - repeat constructor.
  - constructor; [|constructor].
    split; [reflexivity | right; vm_compute; reflexivity].
  - discriminate.
Defined.

(** C8, as the claim has it, fails.  The header of B below holds the
    text [stream] in its label: the loop tests for that text before it
    extracts anything, reads the header of B as the opening of a stream and
    the line [stream] as its body, and at [endstream] appends the object
    of A with the properties of that body.  B is never returned.  In the
    second document the dash pattern of the stream body has blanks within
    its brackets, [float] fails on the empty text between them, and
    nothing is returned. *)
Lemma second_header_read_as_stream :
  get_annotations_from_fdf
    [ "1 0 obj<</Subj(Line)/L[10 20 30 40]/Contents(first)/Page(1)/LineOpacity 0.5/>>";
      "2 0 obj<</Subj(Polygon)/Vertices[0 0 4 0 4 3]/Contents(downstream)/Page(2)/FillOpacity 0.25/>>";
      "stream";
      "0 0 1 RG";
      "endstream" ] =
  Returns
    [ {| object_type := "Line";
         vertices := "10 20 30 40";
         page := PyStr "1";
         label := PyStr "first";
         properties :=
           Some {| line_color := PyNone;
                   line_opacity := PyFloat "0.5";
                   line_weight := PyNone;
                   line_type := PyNone;
                   fill_color := PyNone;
                   fill_opacity := PyNone |};
         wkt := None |} ] ∧
  get_annotations_from_fdf
    [ "1 0 obj<</Subj(Line)/L[10 20 30 40]/Contents(first)/Page(1)/LineOpacity 0.5/>>";
      "2 0 obj<</Subj(Polygon)/Vertices[0 0 4 0 4 3]/Contents(second)/Page(2)/FillOpacity 0.25/>>";
      "stream";
      "0 0 1 RG [ 3 2 ] 0 d";
      "endstream" ] =
  Raises ValueError.
Proof. split; vm_compute; reflexivity. Qed.

(** C1: one header and two stream blocks after it, with no header in
    between, give two annotations.  Closing the first block appends the
    annotation of the header and empties the stream properties only; the
    type, the vertices, the label, the page and the opacities stay, so
    closing the second block appends the same object again, with the
    properties of the second stream. *)
Theorem second_stream_emits_again
    (header annot_type vertices : string)
    (opening1 body1 closing1 opening2 body2 closing2 : string)
    (dash1 dash2 : pyval) (fields1 fields2 : option (string * string)) :
  is_header header = true → str_in "stream" header = false →
  extract_type_and_vertices header = Returns (Some (annot_type, vertices)) →
  str_in "stream" opening1 = true → body1 ≠ EmptyString →
  parse_line_type body1 = Returns dash1 →
  str_in "endstream" closing1 = true →
  extract_type_and_vertices closing1 = Returns fields1 →
  str_in "stream" opening2 = true → body2 ≠ EmptyString →
  parse_line_type body2 = Returns dash2 →
  str_in "endstream" closing2 = true →
  extract_type_and_vertices closing2 = Returns fields2 →
  get_annotations_from_fdf
    [header; opening1; body1; closing1; opening2; body2; closing2] =
  Returns [annotation_of header body1 annot_type vertices dash1;
           annotation_of header body2 annot_type vertices dash2].
Proof.
  intros Hheader Hno Hfields Hopen1 Hbody1 Hdash1 Hclose1 Hfields1
    Hopen2 Hbody2 Hdash2 Hclose2 Hfields2.
  destruct (scan_object start header annot_type vertices opening1 body1 closing1 []
              dash1 fields1 start_idle Hheader Hno Hfields (Forall_nil_2 _)
              Hopen1 Hbody1 Hdash1 Hclose1 Hfields1)
    as (st1 & Hfirst & Hout1 & Hst1 & Hheld1).
  destruct (scan_block st1 annot_type vertices opening2 body2 closing2 dash2 fields2
              Hheld1 Hopen2 Hbody2 Hdash2 Hclose2 Hfields2) as [Hsecond _].
  unfold get_annotations_from_fdf.
  change [header; opening1; body1; closing1; opening2; body2; closing2]
    with ((header :: [] ++ [opening1; body1; closing1]) ++ [opening2; body2; closing2]).
  rewrite scan_app, Hfirst. cbn [mbind outcome_bind Py.bind].
  rewrite Hsecond. cbn [mbind outcome_bind Py.bind after_block annotations].
  rewrite Hout1. cbn [start annotations app]. do 3 f_equal.
  rewrite Hst1. unfold completed, annotation_of.
  cbn [after_block taken_up pending_page pending_label annotation_properties].
  rewrite !stream_keeps_opacity by (first [left; reflexivity | right; reflexivity]).
  rewrite opacity_line, opacity_fill. reflexivity.
Qed.

Lemma second_stream_emits_again_witness :
  get_annotations_from_fdf
    [ "1 0 obj<</Subj(Line)/L[10 20 30 40]/Contents(hi)/Page(2)/FillOpacity 0.5/>>";
      "stream"; "0.2 0.4 0.6 RG 2.5 w"; "endstream";
      "stream"; "1 0 0 rg"; "endstream" ] =
  Returns
    [ {| object_type := "Line";
         vertices := "10 20 30 40";
         page := PyStr "2";
         label := PyStr "hi";
         properties :=
           Some {| line_color := PyTuple [PyFloat "0.2"; PyFloat "0.4"; PyFloat "0.6"];
                   line_opacity := PyNone;
                   line_weight := PyFloat "2.5";
                   line_type := PyNone;
                   fill_color := PyNone;
                   fill_opacity := PyFloat "0.5" |};
         wkt := None |};
      {| object_type := "Line";
         vertices := "10 20 30 40";
         page := PyStr "2";
         label := PyStr "hi";
         properties :=
           Some {| line_color := PyNone;
                   line_opacity := PyNone;
                   line_weight := PyNone;
                   line_type := PyNone;
                   fill_color := PyTuple [PyFloat "1"; PyFloat "0"; PyFloat "0"];
                   fill_opacity := PyFloat "0.5" |};
         wkt := None |} ].
Proof.
  refine (eq_trans (second_stream_emits_again
    "1 0 obj<</Subj(Line)/L[10 20 30 40]/Contents(hi)/Page(2)/FillOpacity 0.5/>>"
    "Line" "10 20 30 40"
    "stream" "0.2 0.4 0.6 RG 2.5 w" "endstream"
    "stream" "1 0 0 rg" "endstream" PyNone PyNone None None
    _ _ _ _ _ _ _ _ _ _ _ _ _) _).
  all: try (vm_compute; reflexivity).
  all: discriminate.
Defined.

End Assembling.

(** ** The pattern search: where a match lies and what it captures *)

Section Captures.

Import Parse.

Lemma ends_with_refl (s : string) : ends_with s s.
Proof. exists EmptyString. reflexivity. Qed.

Lemma ends_with_tail (c : ascii) (s rest : string) :
  ends_with s rest → ends_with (String c s) rest.
Proof. intros [first ->]. exists (String c first). reflexivity. Qed.

Lemma append_assoc (a b c : string) : a +:+ (b +:+ c) = (a +:+ b) +:+ c.
Proof.
  induction a as [|x a IH]; [reflexivity|].
  change (String x (a +:+ (b +:+ c)) = String x ((a +:+ b) +:+ c)).
  rewrite IH. reflexivity.
Qed.

Lemma append_length (a b : string) :
  String.length (a +:+ b) = String.length a + String.length b.
Proof.
  induction a as [|x a IH]; [reflexivity|].
  change (S (String.length (a +:+ b)) = S (String.length a + String.length b)).
  rewrite IH. reflexivity.
Qed.

Lemma ends_with_trans (s mid rest : string) :
  ends_with s mid → ends_with mid rest → ends_with s rest.
Proof.
  intros [first ->] [second ->]. exists (first +:+ second). apply append_assoc.
Qed.

Lemma ends_with_in (sub s rest : string) :
  ends_with s rest → String.prefix sub rest = true → str_in sub s = true.
Proof.
  intros [first ->] Hsub. induction first as [|c first IH].
  - apply prefix_is_in. exact Hsub.
  - apply prefix_deeper. exact IH.
Qed.

Lemma greedy1_rest {A} (p : ascii → bool) (k : string → option A) (res : A) :
  ∀ s, greedy1 p s k = Some res → ∃ rest, k rest = Some res ∧ ends_with s rest.
Proof.
  induction s as [|c s IH]; [discriminate|]. simpl.
  destruct (p c); [|discriminate].
  destruct (greedy1 p s k) as [r|] eqn:Hmore.
  - intros [= <-]. destruct (IH eq_refl) as (rest & Hrest & Hends).
    exists rest. split; [exact Hrest | apply ends_with_tail; exact Hends].
  - intros Hk. exists s. split; [exact Hk | apply ends_with_tail, ends_with_refl].
Qed.

Lemma lazy1_rest {A} (p : ascii → bool) (k : string → option A) (res : A) :
  ∀ s, lazy1 p s k = Some res → ∃ rest, k rest = Some res ∧ ends_with s rest.
Proof.
  induction s as [|c s IH]; [discriminate|]. simpl.
  destruct (p c); [|discriminate].
  destruct (k s) as [r|] eqn:Hk.
  - intros [= <-]. exists s. split; [exact Hk | apply ends_with_tail, ends_with_refl].
  - intros Hlazy. destruct (IH Hlazy) as (rest & Hrest & Hends).
    exists rest. split; [exact Hrest | apply ends_with_tail; exact Hends].
Qed.

(** A match goes on with what is left of the text, and only a group adds
    to the captures. *)
Lemma rmatch_rest {A} (r : regex) :
  ∀ (s : string) (caps : list string) (k : string → list string → option A) (res : A),
    rmatch r s caps k = Some res →
    ∃ rest caps', k rest caps' = Some res ∧ ends_with s rest ∧
                  (group_free r = true → caps' = caps).
Proof.
  induction r as [p| |r1 IH1 r2 IH2|r1 IH1 r2 IH2|r1 IH1|p|p|r1 IH1];
    intros s caps k res; cbn [rmatch group_free].
  - destruct s as [|c s]; [discriminate|]. destruct (p c); [|discriminate].
    intros Hk. exists s, caps.
    split; [exact Hk | split; [apply ends_with_tail, ends_with_refl | reflexivity]].
  - intros Hk. exists s, caps.
    split; [exact Hk | split; [apply ends_with_refl | reflexivity]].
  - intros Hcat. apply IH1 in Hcat as (s1 & caps1 & Hsecond & Hends1 & Hfree1).
    apply IH2 in Hsecond as (rest & caps' & Hk & Hends2 & Hfree2).
    exists rest, caps'. split; [exact Hk|].
    split; [exact (ends_with_trans _ _ _ Hends1 Hends2)|].
    intros [H1 H2]%andb_true_iff. rewrite (Hfree2 H2). exact (Hfree1 H1).
  - destruct (rmatch r1 s caps k) as [x|] eqn:Hfirst.
    + intros [= <-]. apply IH1 in Hfirst as (rest & caps' & Hk & Hends & Hfree).
      exists rest, caps'. split; [exact Hk | split; [exact Hends|]].
      intros [H1 _]%andb_true_iff. exact (Hfree H1).
    + intros Hsecond. apply IH2 in Hsecond as (rest & caps' & Hk & Hends & Hfree).
      exists rest, caps'. split; [exact Hk | split; [exact Hends|]].
      intros [_ H2]%andb_true_iff. exact (Hfree H2).
  - destruct (rmatch r1 s caps k) as [x|] eqn:Hfirst.
    + intros [= <-]. apply IH1 in Hfirst as (rest & caps' & Hk & Hends & Hfree).
      exists rest, caps'. split; [exact Hk | split; [exact Hends | exact Hfree]].
    + intros Hk. exists s, caps.
      split; [exact Hk | split; [apply ends_with_refl | reflexivity]].
  - intros Hgreedy. apply greedy1_rest in Hgreedy as (rest & Hk & Hends).
    exists rest, caps. split; [exact Hk | split; [exact Hends | reflexivity]].
  - intros Hlazy. apply lazy1_rest in Hlazy as (rest & Hk & Hends).
    exists rest, caps. split; [exact Hk | split; [exact Hends | reflexivity]].
  - intros Hgroup. apply IH1 in Hgroup as (rest & caps' & Hk & Hends & _).
    eexists rest, _. split; [exact Hk | split; [exact Hends | discriminate]].
Qed.

Lemma field_regex_group (cs : bool) (f : field) :
  ∃ r1, field_regex cs f = Grp r1 ∧ group_free r1 = true.
Proof. destruct f, cs; eexists; split; reflexivity. Qed.

(** A field adds one capture. *)
Lemma field_captures_one {A} (cs : bool) (f : field) (s : string) (caps : list string)
    (k : string → list string → option A) (res : A) :
  rmatch (field_regex cs f) s caps k = Some res →
  ∃ rest text, k rest (caps ++ [text]) = Some res ∧ ends_with s rest.
Proof.
  destruct (field_regex_group cs f) as (r1 & -> & Hfree). cbn [rmatch].
  intros Hgroup. apply rmatch_rest in Hgroup as (rest & caps' & Hk & Hends & Hsame).
  rewrite (Hsame Hfree) in Hk. exists rest, (consumed s rest). split; assumption.
Qed.

Lemma expression_captures (cs : bool) (parts : list part) :
  ∀ (s : string) (caps res : list string),
    rmatch (expression cs parts) s caps (λ _ c, Some c) = Some res →
    ∃ texts, res = caps ++ texts ∧ length texts = length (fields_of parts).
Proof.
  induction parts as [|[c|f] parts IH]; intros s caps res; cbn [expression rmatch fields_of].
  - intros [= <-]. exists []. split; [rewrite app_nil_r|]; reflexivity.
  - destruct s as [|d s]; [discriminate|].
    destruct (same_char cs c d); [apply IH | discriminate].
  - intros Hfield. apply field_captures_one in Hfield as (rest & text & Hrest & _).
    apply IH in Hrest as (texts & -> & Hlen).
    exists (text :: texts). split; [rewrite <- app_assoc; reflexivity|].
    cbn [length]. rewrite Hlen. reflexivity.
Qed.

Lemma convert_all_shape (fs : list field) :
  ∀ texts, length texts = length fs → Forall2 field_shape fs (convert_all fs texts).
Proof.
  induction fs as [|f fs IH]; intros [|t texts] Hlen; try discriminate Hlen.
  - constructor.
  - cbn [convert_all]. constructor; [|apply IH; injection Hlen as ->; reflexivity].
    destruct f; eexists; reflexivity.
Qed.

(** The values of a result are as many as the fields of the format, each of
    the type of its field. *)
Lemma search_with_shape (cs : bool) (format line : string) (values : list pyval) :
  search_with cs format line = Some values →
  Forall2 field_shape (fields_of (parts_of format)) values.
Proof.
  unfold search_with.
  destruct (search_re _ line) as [texts|] eqn:Hsearch; [|discriminate].
  intros [= <-]. apply search_re_matches in Hsearch as [s' Hmatch].
  apply expression_captures in Hmatch as (found & -> & Hlen).
  apply convert_all_shape. exact Hlen.
Qed.

Lemma search_re_rest (r : regex) (res : list string) :
  ∀ s, search_re r s = Some res →
       ∃ s', ends_with s s' ∧ rmatch r s' [] (λ _ c, Some c) = Some res.
Proof.
  induction s as [|c s IH]; simpl.
  - destruct (rmatch r EmptyString [] (λ _ c, Some c)) eqn:Hm; [|discriminate].
    intros [= <-]. exists EmptyString. split; [apply ends_with_refl | exact Hm].
  - destruct (rmatch r (String c s) [] (λ _ c, Some c)) eqn:Hm.
    + intros [= <-]. exists (String c s). split; [apply ends_with_refl | exact Hm].
    + intros Hlater. destruct (IH Hlater) as (s' & Hends & Hmatch).
      exists s'. split; [apply ends_with_tail; exact Hends | exact Hmatch].
Qed.

Lemma expression_tail {A} (cs : bool) (front back : list part) :
  ∀ (s : string) (caps : list string) (k : string → list string → option A) (res : A),
    rmatch (expression cs (front ++ back)) s caps k = Some res →
    ∃ rest caps', ends_with s rest ∧
                  rmatch (expression cs back) rest caps' k = Some res.
Proof.
  induction front as [|[c|f] front IH]; intros s caps k res; cbn [app expression rmatch].
  - intros Hback. exists s, caps. split; [apply ends_with_refl | exact Hback].
  - destruct s as [|d s]; [discriminate|].
    destruct (same_char cs c d); [|discriminate].
    intros Hrest. apply IH in Hrest as (rest & caps' & Hends & Hback).
    exists rest, caps'. split; [apply ends_with_tail; exact Hends | exact Hback].
  - intros Hfield. apply field_captures_one in Hfield as (s1 & text & Hrest & Hends1).
    apply IH in Hrest as (rest & caps' & Hends2 & Hback).
    exists rest, caps'. split; [exact (ends_with_trans _ _ _ Hends1 Hends2) | exact Hback].
Qed.

(** With case distinguished, literal text matches itself only. *)
Lemma text_is_prefix {A} (chars : list ascii) :
  ∀ (s : string) (caps : list string) (k : string → list string → option A) (res : A),
    rmatch (expression true (map Text chars)) s caps k = Some res →
    String.prefix (String.string_of_list_ascii chars) s = true.
Proof.
  induction chars as [|c chars IH]; intros s caps k res; [destruct s; reflexivity|].
  cbn [map expression rmatch String.string_of_list_ascii same_char].
  destruct s as [|d s]; [discriminate|].
  destruct (Ascii.eqb_spec c d) as [<- | Hne]; [|discriminate].
  intros Hrest. apply IH in Hrest. cbn [String.prefix].
  destruct (ascii_dec c c) as [_|Hcc]; [exact Hrest | congruence].
Qed.

(** A case-sensitive search fails on a line that lacks the text at the end
    of the format. *)
Lemma search_needs_text (format line : string) (front : list part)
    (chars : list ascii) :
  parts_of format = front ++ map Text chars →
  str_in (String.string_of_list_ascii chars) line = false →
  search_with true format line = None.
Proof.
  intros Hparts Hlacks. unfold search_with. rewrite Hparts.
  destruct (search_re _ line) as [texts|] eqn:Hsearch; [|reflexivity].
  apply search_re_rest in Hsearch as (s' & Hends1 & Hmatch).
  apply expression_tail in Hmatch as (rest & caps' & Hends2 & Htext).
  apply text_is_prefix in Htext.
  rewrite (ends_with_in _ line rest (ends_with_trans _ _ _ Hends1 Hends2) Htext) in Hlacks.
  discriminate.
Qed.

End Captures.

(** ** The field extractors: every outcome *)

Section Outcomes.

Import FdfToWkt.

(** The subscript [[0]] of a search for one [{}] field: a TypeError when
    nothing was found, a text that is not empty otherwise. *)
Lemma item0_cases (format line : string) (before after : list ascii) :
  Parse.parts_of format =
    map Parse.Text before ++ Parse.Field Parse.FieldStr :: map Parse.Text after →
  (Parse.search format line = None ∧
   item0 (Parse.search format line) = Raises TypeError) ∨
  (∃ text, text ≠ EmptyString ∧ Parse.search format line = Some [PyStr text] ∧
           item0 (Parse.search format line) = Returns text).
Proof.
  intros Hparts. destruct (Parse.search format line) as [values|] eqn:Hsearch.
  - right. destruct (search_one_str _ _ _ _ _ Hparts Hsearch) as (text & Htext & ->).
    exists text. repeat split; assumption || reflexivity.
  - left. split; reflexivity.
Qed.

Lemma subj_cases (line : string) :
  (Parse.search "obj<</Subj({})" line = None ∧
   item0 (Parse.search "obj<</Subj({})" line) = Raises TypeError) ∨
  (∃ text, text ≠ EmptyString ∧
           Parse.search "obj<</Subj({})" line = Some [PyStr text] ∧
           item0 (Parse.search "obj<</Subj({})" line) = Returns text).
Proof.
  apply (item0_cases _ line
           ["o"; "b"; "j"; "<"; "<"; "/"; "S"; "u"; "b"; "j"; "("]%char [")"]%char).
  reflexivity.
Qed.

Lemma line_field_cases (line : string) :
  (Parse.search "/L[{}]" line = None ∧
   item0 (Parse.search "/L[{}]" line) = Raises TypeError) ∨
  (∃ text, text ≠ EmptyString ∧ Parse.search "/L[{}]" line = Some [PyStr text] ∧
           item0 (Parse.search "/L[{}]" line) = Returns text).
Proof. apply (item0_cases _ line ["/"; "L"; "["]%char ["]"]%char). reflexivity. Qed.

Lemma vertices_field_cases (line : string) :
  (Parse.search "/Vertices[{}]" line = None ∧
   item0 (Parse.search "/Vertices[{}]" line) = Raises TypeError) ∨
  (∃ text, text ≠ EmptyString ∧ Parse.search "/Vertices[{}]" line = Some [PyStr text] ∧
           item0 (Parse.search "/Vertices[{}]" line) = Returns text).
Proof.
  apply (item0_cases _ line
           ["/"; "V"; "e"; "r"; "t"; "i"; "c"; "e"; "s"; "["]%char ["]"]%char).
  reflexivity.
Qed.

Lemma rect_field_cases (line : string) :
  (Parse.search "/Rect[{}]" line = None ∧
   item0 (Parse.search "/Rect[{}]" line) = Raises TypeError) ∨
  (∃ text, text ≠ EmptyString ∧ Parse.search "/Rect[{}]" line = Some [PyStr text] ∧
           item0 (Parse.search "/Rect[{}]" line) = Returns text).
Proof.
  apply (item0_cases _ line ["/"; "R"; "e"; "c"; "t"; "["]%char ["]"]%char).
  reflexivity.
Qed.

(** The extractor with the type that the Subj search found put in. *)
Lemma extract_with_type (line annot_type : string) :
  Parse.search "obj<</Subj({})" line = Some [PyStr annot_type] →
  extract_type_and_vertices line =
    if String.eqb annot_type "Line" then
      vertices ← item0 (Parse.search "/L[{}]" line);
      Returns (Some (annot_type, vertices))
    else if String.eqb annot_type "Circle" || String.eqb annot_type "PolyLine"
            || String.eqb annot_type "Polygon" then
      vertices ← item0 (Parse.search "/Vertices[{}]" line);
      Returns (Some (annot_type, vertices))
    else if String.eqb annot_type "Rectangle" || String.eqb annot_type "Square" then
      bbox ← item0 (Parse.search "/Rect[{}]" line);
      match split_ws bbox with
      | [x1; y1; x2; y2] =>
          Returns (Some (annot_type, join " " [x1; y1; x1; y2; x2; y2; x2; y1]))
      | _ => Raises ValueError
      end
    else Returns None.
Proof. unfold extract_type_and_vertices. intros ->. reflexivity. Qed.

Lemma markup_type_tests (annot_type : string) :
  annot_type ∈ markup_types ↔
  String.eqb annot_type "Line"
  || (String.eqb annot_type "Circle" || String.eqb annot_type "PolyLine"
      || String.eqb annot_type "Polygon")
  || (String.eqb annot_type "Rectangle" || String.eqb annot_type "Square") = true.
Proof.
  unfold markup_types. rewrite !elem_of_cons, elem_of_nil.
  rewrite !orb_true_iff, !String.eqb_eq. tauto.
Qed.

Lemma extract_outcomes (line : string) :
  (∀ annot_type vertices,
     extract_type_and_vertices line = Returns (Some (annot_type, vertices)) →
     annot_type ∈ markup_types ∧ vertices ≠ EmptyString ∧
     Parse.search "obj<</Subj({})" line = Some [PyStr annot_type]) ∧
  (∀ e, extract_type_and_vertices line = Raises e →
     (e = TypeError ∨ e = ValueError) ∧
     ∃ annot_type, annot_type ∈ markup_types ∧
       Parse.search "obj<</Subj({})" line = Some [PyStr annot_type]) ∧
  (∀ annot_type,
     Parse.search "obj<</Subj({})" line = Some [PyStr annot_type] →
     annot_type ∉ markup_types →
     extract_type_and_vertices line = Returns None).
Proof.
  destruct (subj_cases line) as [[Hnone _] | (t & _ & Hsubj & _)].
  { assert (Hrun : extract_type_and_vertices line = Returns None)
      by (unfold extract_type_and_vertices; rewrite Hnone; reflexivity).
    split; [|split].
    - intros annot_type vertices Hpair. rewrite Hrun in Hpair. discriminate.
    - intros e Hraise. rewrite Hrun in Hraise. discriminate.
    - intros annot_type Hsome. rewrite Hnone in Hsome. discriminate. }
  pose proof (extract_with_type line t Hsubj) as Hrun.
  pose proof (markup_type_tests t) as Htests.
  split; [|split].
  - intros annot_type vertices Hpair.
    destruct (extracted_is_truthy line annot_type vertices Hpair) as [_ Hvert].
    assert (annot_type = t) as ->.
    { rewrite Hpair in Hrun.
      destruct (String.eqb t "Line").
      { destruct (item0 _); [injection Hrun as -> _; reflexivity | discriminate]. }
      destruct (String.eqb t "Circle" || String.eqb t "PolyLine" || String.eqb t "Polygon").
      { destruct (item0 _); [injection Hrun as -> _; reflexivity | discriminate]. }
      destruct (String.eqb t "Rectangle" || String.eqb t "Square"); [|discriminate].
      destruct (item0 _) as [bbox|]; [|discriminate]. cbn [mbind outcome_bind Py.bind] in Hrun.
      destruct (split_ws bbox) as [|x1 [|y1 [|x2 [|y2 [|extra rest]]]]]; try discriminate.
      injection Hrun as -> _. reflexivity. }
    split; [|split; [destruct vertices; [discriminate | discriminate] | exact Hsubj]].
    apply Htests. rewrite Hpair in Hrun.
    destruct (String.eqb t "Line"); [reflexivity|].
    destruct (String.eqb t "Circle" || String.eqb t "PolyLine" || String.eqb t "Polygon");
      [reflexivity|].
    destruct (String.eqb t "Rectangle" || String.eqb t "Square"); [reflexivity | discriminate].
  - intros e Hraise. rewrite Hraise in Hrun.
    assert (Hmarkup : t ∈ markup_types ∧ (e = TypeError ∨ e = ValueError)).
    { rewrite Htests.
      destruct (String.eqb t "Line").
      { split; [reflexivity|].
        destruct (line_field_cases line) as [[_ Hmiss] | (v & _ & _ & Hfound)].
        - rewrite Hmiss in Hrun. injection Hrun as ->. left; reflexivity.
        - rewrite Hfound in Hrun. discriminate. }
      destruct (String.eqb t "Circle" || String.eqb t "PolyLine" || String.eqb t "Polygon").
      { split; [reflexivity|].
        destruct (vertices_field_cases line) as [[_ Hmiss] | (v & _ & _ & Hfound)].
        - rewrite Hmiss in Hrun. injection Hrun as ->. left; reflexivity.
        - rewrite Hfound in Hrun. discriminate. }
      destruct (String.eqb t "Rectangle" || String.eqb t "Square"); [|discriminate].
      split; [reflexivity|].
      destruct (rect_field_cases line) as [[_ Hmiss] | (bbox & _ & _ & Hfound)].
      - rewrite Hmiss in Hrun. injection Hrun as ->. left; reflexivity.
      - rewrite Hfound in Hrun. cbn [mbind outcome_bind Py.bind] in Hrun.
        destruct (split_ws bbox) as [|x1 [|y1 [|x2 [|y2 [|extra rest]]]]];
          try discriminate; injection Hrun as ->; right; reflexivity. }
    destruct Hmarkup as [Hin He]. split; [exact He|]. exists t. split; assumption.
  - intros annot_type Hsame Hnot. rewrite Hsubj in Hsame. injection Hsame as <-.
    rewrite Hrun. rewrite Htests in Hnot.
    destruct (String.eqb t "Line"); [contradiction Hnot; reflexivity|].
    destruct (String.eqb t "Circle" || String.eqb t "PolyLine" || String.eqb t "Polygon");
      [contradiction Hnot; reflexivity|].
    destruct (String.eqb t "Rectangle" || String.eqb t "Square");
      [contradiction Hnot; reflexivity | reflexivity].
Qed.

(** X1: whatever line it is given, the extractor of fdf_to_wkt.py ends in
    one of three ways.  A pair it returns has one of the six types of
    markup and vertices that are not empty, on a line whose Subj names that
    type.  When it raises, the line has a Subj, and the error is the
    TypeError of a vertex field that was not found or the ValueError of a
    box that has not four numbers; it is never another error.  A line whose
    Subj names another type gives None. *)
Theorem type_and_vertices_outcomes (line : string) :
  (∀ annot_type vertices,
     extract_type_and_vertices line = Returns (Some (annot_type, vertices)) →
     annot_type ∈ markup_types ∧ vertices ≠ EmptyString ∧
     Parse.search "obj<</Subj({})" line = Some [PyStr annot_type]) ∧
  (∀ e, extract_type_and_vertices line = Raises e →
     (e = TypeError ∨ e = ValueError) ∧
     ∃ annot_type, annot_type ∈ markup_types ∧
       Parse.search "obj<</Subj({})" line = Some [PyStr annot_type]) ∧
  (∀ annot_type,
     Parse.search "obj<</Subj({})" line = Some [PyStr annot_type] →
     annot_type ∉ markup_types →
     extract_type_and_vertices line = Returns None).
Proof. exact (extract_outcomes line). Qed.

Lemma type_and_vertices_outcomes_witness :
  extract_type_and_vertices "4 0 obj<</Subj(Text)/Vertices[1 2 3 4]>>" = Returns None ∧
  "PolyLine" ∈ markup_types.
Proof.
  split.
  - apply (proj2 (proj2 (type_and_vertices_outcomes
             "4 0 obj<</Subj(Text)/Vertices[1 2 3 4]>>")) "Text").
    + vm_compute. reflexivity.
    + intros Hin. apply markup_type_tests in Hin. vm_compute in Hin. discriminate.
  - apply (proj1 (type_and_vertices_outcomes
             "5 0 obj<</Subj(PolyLine)/Vertices[1 2 3 4]>>") "PolyLine" "1 2 3 4").
    vm_compute. reflexivity.
Defined.

(** X2: a Rectangle or Square header whose box has not exactly four
    numbers makes the extractor raise ValueError, in fdf_to_wkt.py and, for
    a Rectangle, in fdf_to_shapely.py. *)
Theorem box_without_four_numbers_raises (line annot_type bbox : string) :
  Parse.search "obj<</Subj({})" line = Some [PyStr annot_type] →
  annot_type = "Rectangle" ∨ annot_type = "Square" →
  Parse.search "/Rect[{}]" line = Some [PyStr bbox] →
  length (split_ws bbox) ≠ 4 →
  extract_type_and_vertices line = Raises ValueError ∧
  (annot_type = "Rectangle" →
   FdfToShapely.extract_type_and_vertices line = Raises ValueError).
Proof.
  intros Hsubj Htype Hrect Hcount. split.
  - rewrite (extract_with_type line annot_type Hsubj).
    destruct Htype as [-> | ->]; cbn [String.eqb Ascii.eqb Bool.eqb orb];
      rewrite Hrect; cbn [item0 mbind outcome_bind Py.bind];
      destruct (split_ws bbox) as [|x1 [|y1 [|x2 [|y2 [|extra rest]]]]];
      try reflexivity; contradiction Hcount; reflexivity.
  - intros ->. unfold FdfToShapely.extract_type_and_vertices. rewrite Hsubj, Hrect.
    cbn [item0 mbind outcome_bind Py.bind String.eqb Ascii.eqb Bool.eqb negb].
    destruct (split_ws bbox) as [|x1 [|y1 [|x2 [|y2 [|extra rest]]]]];
      try reflexivity; contradiction Hcount; reflexivity.
Qed.

Lemma box_without_four_numbers_raises_witness :
  extract_type_and_vertices "1 0 obj<</Subj(Square)/Rect[0 0 100]>>" = Raises ValueError ∧
  FdfToShapely.extract_type_and_vertices "1 0 obj<</Subj(Rectangle)/Rect[0 0 100 50 7]>>" =
    Raises ValueError.
Proof.
  split.
  - apply (box_without_four_numbers_raises _ "Square" "0 0 100");
      [vm_compute; reflexivity | right; reflexivity | vm_compute; reflexivity
      | vm_compute; discriminate].
  - apply (box_without_four_numbers_raises _ "Rectangle" "0 0 100 50 7");
      [vm_compute; reflexivity | left; reflexivity | vm_compute; reflexivity
      | vm_compute; discriminate | reflexivity].
Defined.

Lemma floats_failure (texts : list string) (e : exn) :
  floats texts = Raises e →
  e = ValueError ∧ Exists (λ t, float_accepts t = false) texts.
Proof.
  induction texts as [|t texts IH]; [discriminate|]. cbn [floats]. unfold float.
  destruct (float_accepts t) eqn:Haccepts.
  - cbn [mbind outcome_bind Py.bind].
    destruct (floats texts) as [acc|e'] eqn:Hrest; [discriminate|].
    cbn [mbind outcome_bind Py.bind]. intros [= <-].
    destruct (IH eq_refl) as [-> Hbad]. split; [reflexivity | right; exact Hbad].
  - cbn [mbind outcome_bind Py.bind]. intros [= <-].
    split; [reflexivity | left; exact Haccepts].
Qed.

Lemma dash_shape (stream_line : string) (values : list pyval) :
  Parse.search " [{}] {:g} d" stream_line = Some values →
  ∃ pattern phase, values = [PyStr pattern; PyFloat phase].
Proof.
  intros Hsearch. apply search_with_shape in Hsearch.
  change (Parse.fields_of (Parse.parts_of " [{}] {:g} d"))
    with [Parse.FieldStr; Parse.FieldG] in Hsearch.
  inversion Hsearch as [|? v1 ? rest1 Hfirst Hrest]; subst.
  inversion Hrest as [|? v2 ? rest2 Hsecond Hnil]; subst.
  inversion Hnil; subst. cbn [field_shape] in Hfirst, Hsecond.
  destruct Hfirst as [pattern ->]. destruct Hsecond as [phase ->].
  exists pattern, phase. reflexivity.
Qed.

(** X3: the properties of a stream body.  Without a dash pattern on the
    line they are returned; whenever they are returned they are a dict of
    exactly the four keys line_color, fill_color, line_weight and
    line_type; and the only failure is the ValueError of a dash pattern
    that was found and of which one part, between two spaces, is no
    float. *)
Theorem stream_properties_outcomes (stream_line : string) :
  (Parse.search " [{}] {:g} d" stream_line = None →
     extract_stream_properties stream_line = Returns (stream_dict stream_line PyNone)) ∧
  (∀ d, extract_stream_properties stream_line = Returns d →
     dom d = ({["line_color"; "fill_color"; "line_weight"; "line_type"]} : gset string) ∧
     d !! "line_color" = Some (parse_line_color stream_line) ∧
     d !! "fill_color" = Some (parse_fill_color stream_line) ∧
     d !! "line_weight" = Some (parse_line_weight stream_line)) ∧
  (∀ e, extract_stream_properties stream_line = Raises e →
     e = ValueError ∧
     ∃ pattern phase,
       Parse.search " [{}] {:g} d" stream_line = Some [PyStr pattern; PyFloat phase] ∧
       Exists (λ t, float_accepts t = false) (split_char " " pattern)).
Proof.
  split; [|split].
  - intros Hnone. apply extract_stream_properties_dict.
    unfold parse_line_type. rewrite Hnone. reflexivity.
  - intros d. unfold extract_stream_properties.
    destruct (parse_line_type stream_line) as [dash|e]; [|discriminate].
    cbn [mbind outcome_bind Py.bind]. intros [= <-].
    fold (stream_dict stream_line dash).
    split; [unfold stream_dict; set_solver|].
    rewrite stream_dict_color, stream_dict_fill, stream_dict_weight.
    repeat split; reflexivity.
  - intros e. unfold extract_stream_properties, parse_line_type.
    destruct (Parse.search " [{}] {:g} d" stream_line) as [values|] eqn:Hsearch;
      [|discriminate].
    destruct (dash_shape stream_line values Hsearch) as (pattern & phase & ->).
    cbn [item0 mbind outcome_bind Py.bind].
    destruct (floats (split_char " " pattern)) as [acc|e'] eqn:Hfloats; [discriminate|].
    cbn [mbind outcome_bind Py.bind]. intros [= <-].
    destruct (floats_failure _ _ Hfloats) as [-> Hbad].
    split; [reflexivity|]. exists pattern, phase. split; [reflexivity | exact Hbad].
Qed.

Lemma stream_properties_outcomes_witness :
  extract_stream_properties "0 0 1 RG 2 w" =
    Returns (stream_dict "0 0 1 RG 2 w" PyNone) ∧
  ∃ pattern, Exists (λ t, float_accepts t = false) (split_char " " pattern) ∧
    pattern = "3 x".
Proof.
  split.
  - apply (proj1 (stream_properties_outcomes "0 0 1 RG 2 w")). vm_compute. reflexivity.
  - destruct (proj2 (proj2 (stream_properties_outcomes "0 0 1 RG [3 x] 0 d"))
                ValueError ltac:(vm_compute; reflexivity))
      as (_ & pattern & phase & Hfound & Hbad).
    exists pattern. split; [exact Hbad|].
    assert (Hrun : Parse.search " [{}] {:g} d" "0 0 1 RG [3 x] 0 d" =
                   Some [PyStr "3 x"; PyFloat "0"]) by (vm_compute; reflexivity).
    rewrite Hrun in Hfound. injection Hfound as <- _. reflexivity.
Defined.

(** X4: the colour and weight operators are read as they are written.  A
    stream line without the text [ RG] has no line colour, one without
    [ rg] no fill colour, and one without [ w] no line weight: a lowercase
    operator never gives the line colour, nor an uppercase one the fill
    colour. *)
Theorem stream_operators_are_literal (stream_line : string) :
  (str_in " RG" stream_line = false → parse_line_color stream_line = PyNone) ∧
  (str_in " rg" stream_line = false → parse_fill_color stream_line = PyNone) ∧
  (str_in " w" stream_line = false → parse_line_weight stream_line = PyNone).
Proof.
  split; [|split]; intros Hlacks.
  - unfold parse_line_color.
    rewrite (search_needs_text "{:g} {:g} {:g} RG" stream_line
               [Parse.Field Parse.FieldG; Parse.Text " "; Parse.Field Parse.FieldG;
                Parse.Text " "; Parse.Field Parse.FieldG]
               [" "; "R"; "G"]%char eq_refl Hlacks).
    reflexivity.
  - unfold parse_fill_color.
    rewrite (search_needs_text "{:g} {:g} {:g} rg" stream_line
               [Parse.Field Parse.FieldG; Parse.Text " "; Parse.Field Parse.FieldG;
                Parse.Text " "; Parse.Field Parse.FieldG]
               [" "; "r"; "g"]%char eq_refl Hlacks).
    reflexivity.
  - unfold parse_line_weight.
    rewrite (search_needs_text " {:g} w" stream_line
               [Parse.Text " "; Parse.Field Parse.FieldG]
               [" "; "w"]%char eq_refl Hlacks).
    reflexivity.
Qed.

Lemma stream_operators_are_literal_witness :
  parse_line_color "1 0 0 rg 2 w" = PyNone ∧
  parse_fill_color "1 0 0 RG 2 w" = PyNone ∧
  parse_line_weight "1 0 0 RG 2 W" = PyNone.
Proof.
  split; [|split].
  - apply (proj1 (stream_operators_are_literal "1 0 0 rg 2 w")). vm_compute. reflexivity.
  - apply (proj1 (proj2 (stream_operators_are_literal "1 0 0 RG 2 w"))).
    vm_compute. reflexivity.
  - apply (proj2 (proj2 (stream_operators_are_literal "1 0 0 RG 2 W"))).
    vm_compute. reflexivity.
Defined.

End Outcomes.

(** ** The annotation assembler: the whole scan *)

Section Scanning.

Import FdfToWkt.

Lemma emission_test (st : scanner) :
  truthy_str (annot_type st) && truthy_str (pending_vertices st)
  && dict_truthy (stream_properties st) = true →
  (∃ t, annot_type st = Some t) ∧ (∃ v, pending_vertices st = Some v) ∧ owed st = 1.
Proof.
  intros [[Ht Hv]%andb_true_iff Hd]%andb_true_iff. unfold owed. rewrite Hd.
  destruct (annot_type st) as [t|]; [|discriminate].
  destruct (pending_vertices st) as [v|]; [|discriminate]. eauto.
Qed.

(** What [take_up] returns: the scanner with one more annotation and no
    stream properties, or with a new type and vertices, or as it was. *)
Lemma take_up_cases (st st' : scanner) (line : string) :
  take_up st line = Returns st' →
  (∃ t v properties,
     annot_type st = Some t ∧ pending_vertices st = Some v ∧ owed st = 1 ∧
     annotations st' =
       annotations st ++ [{| object_type := t; vertices := v;
                             page := pending_page st; label := pending_label st;
                             properties := Some properties; wkt := None |}] ∧
     stream_properties st' = ∅ ∧
     annotation_properties st' =
       update (annotation_properties st) (stream_properties st) ∧
     annot_type st' = annot_type st ∧ pending_vertices st' = pending_vertices st ∧
     stream_data st' = stream_data st ∧ in_stream_data st' = in_stream_data st) ∨
  (∃ t v,
     extract_type_and_vertices line = Returns (Some (t, v)) ∧
     annotations st' = annotations st ∧
     stream_properties st' = stream_properties st ∧
     annotation_properties st' =
       update (annotation_properties st) (extract_object_opacity line) ∧
     annot_type st' = Some t ∧ pending_vertices st' = Some v ∧
     stream_data st' = stream_data st ∧ in_stream_data st' = in_stream_data st) ∨
  st' = st.
Proof.
  unfold take_up.
  destruct (extract_type_and_vertices line) as [fields|e]; [|discriminate].
  cbn [mbind outcome_bind Py.bind].
  destruct (truthy_str (annot_type st) && truthy_str (pending_vertices st)
            && dict_truthy (stream_properties st)) eqn:Htest.
  - destruct (emission_test st Htest) as ([t Ht] & [v Hv] & Howed).
    destruct (new_AnnotationProperties _) as [properties|e]; [|discriminate].
    cbn [mbind outcome_bind Py.bind]. intros [= <-]. left.
    exists t, v, properties. rewrite Ht, Hv. repeat split; assumption.
  - destruct fields as [[t v]|]; [|intros [= <-]; right; right; reflexivity].
    rewrite pop_label. cbn [mbind outcome_bind Py.bind].
    rewrite pop_page. cbn [mbind outcome_bind Py.bind].
    rewrite popped_properties. intros [= <-]. right; left.
    exists t, v. repeat split.
Qed.

(** What [step] returns, beside what [take_up] does. *)
Lemma step_cases (st st' : scanner) (line : string) :
  step st line = Returns st' →
  (∃ body dash,
     str_in "endstream" line = true ∧ stream_data st = Some body ∧
     parse_line_type body = Returns dash ∧
     take_up {| annotations := annotations st;
                in_stream_data := in_stream_data st;
                stream_data := None;
                stream_properties := stream_dict body dash;
                annotation_properties := annotation_properties st;
                annot_type := annot_type st;
                pending_vertices := pending_vertices st;
                pending_label := pending_label st;
                pending_page := pending_page st |} line = Returns st') ∨
  (annotations st' = annotations st ∧
   stream_properties st' = stream_properties st ∧
   annotation_properties st' = annotation_properties st ∧
   annot_type st' = annot_type st ∧ pending_vertices st' = pending_vertices st ∧
   (stream_data st' = stream_data st ∨ stream_data st' = Some line)) ∨
  take_up st line = Returns st'.
Proof.
  unfold step.
  destruct (str_in "endstream" line && truthy_str (stream_data st)) eqn:Hclose.
  - apply andb_true_iff in Hclose as [Hend Hdata].
    destruct (stream_data st) as [body|] eqn:Hbody; [|discriminate].
    change (default EmptyString (Some body)) with body.
    unfold extract_stream_properties.
    destruct (parse_line_type body) as [dash|e] eqn:Hdash; [|discriminate].
    cbn [mbind outcome_bind Py.bind]. fold (stream_dict body dash).
    intros Htake. left. exists body, dash. repeat split; assumption.
  - destruct (in_stream_data st).
    { intros [= <-]. right; left. cbn. repeat split; try reflexivity. right; reflexivity. }
    destruct (negb _ && negb _).
    { intros [= <-]. right; left. repeat split; try reflexivity. left; reflexivity. }
    destruct (str_in "stream" line).
    { intros [= <-]. right; left. cbn. repeat split; try reflexivity. left; reflexivity. }
    intros Htake. right; right. exact Htake.
Qed.

Lemma owed_stream_dict (st : scanner) (body : string) (dash : pyval) :
  stream_properties st = stream_dict body dash → owed st = 1.
Proof. unfold owed. intros ->. rewrite stream_dict_truthy. reflexivity. Qed.

Lemma owed_bound (st : scanner) : owed st ≤ 1.
Proof. unfold owed. destruct (dict_truthy _); lia. Qed.

Lemma owed_none (st : scanner) : stream_properties st = ∅ → owed st = 0.
Proof. unfold owed. intros ->. reflexivity. Qed.

Lemma take_up_bound (st st' : scanner) (line : string) :
  take_up st line = Returns st' →
  length (annotations st') + owed st' ≤ length (annotations st) + owed st.
Proof.
  intros Htake. destruct (take_up_cases st st' line Htake)
    as [(t & v & properties & _ & _ & Howed & Hout & Hnone & _)
       | [(t & v & _ & Hout & Hsame & _) | ->]]; [| |lia].
  - rewrite Hout, length_app, (owed_none st' Hnone), Howed. cbn [length]. lia.
  - rewrite Hout. unfold owed. rewrite Hsame. lia.
Qed.

Lemma step_bound (st st' : scanner) (line : string) :
  step st line = Returns st' →
  length (annotations st') + owed st' ≤
  length (annotations st) + owed st + (if str_in "endstream" line then 1 else 0).
Proof.
  intros Hstep. destruct (step_cases st st' line Hstep)
    as [(body & dash & -> & _ & _ & Htake) | [(Hout & Hsame & _) | Htake]].
  - apply take_up_bound in Htake. cbn [annotations] in Htake.
    pose proof (owed_bound {| annotations := annotations st;
                              in_stream_data := in_stream_data st;
                              stream_data := None;
                              stream_properties := stream_dict body dash;
                              annotation_properties := annotation_properties st;
                              annot_type := annot_type st;
                              pending_vertices := pending_vertices st;
                              pending_label := pending_label st;
                              pending_page := pending_page st |}).
    lia.
  - rewrite Hout. unfold owed. rewrite Hsame. lia.
  - apply take_up_bound in Htake. lia.
Qed.

Lemma scan_bound (lines : list string) :
  ∀ st st', scan st lines = Returns st' →
    length (annotations st') + owed st' ≤
    length (annotations st) + owed st + closings lines.
Proof.
  induction lines as [|line lines IH]; intros st st'.
  - intros [= <-]. cbn [closings]. lia.
  - cbn [scan closings]. destruct (step st line) as [st1|e] eqn:Hstep; [|discriminate].
    cbn [mbind outcome_bind Py.bind]. intros Hscan.
    apply step_bound in Hstep. apply IH in Hscan. lia.
Qed.

Lemma scan_returned (lines : list string) (result : list Annotation) :
  get_annotations_from_fdf lines = Returns result →
  ∃ st, scan start lines = Returns st ∧ annotations st = result.
Proof.
  unfold get_annotations_from_fdf.
  destruct (scan start lines) as [st|e]; [|discriminate].
  cbn [mbind outcome_bind Py.bind]. intros [= <-]. exists st. split; reflexivity.
Qed.

(** X6: scanning a longer document.  When the scan of a document raises,
    the scan of the document followed by further lines raises the same
    error and returns nothing of what was assembled before; when both
    return, the annotations of the document are the first annotations of
    the longer one, in the same order. *)
Theorem scan_of_longer_document (lines more : list string) :
  (∀ e, get_annotations_from_fdf lines = Raises e →
        get_annotations_from_fdf (lines ++ more) = Raises e) ∧
  (∀ result longer,
     get_annotations_from_fdf lines = Returns result →
     get_annotations_from_fdf (lines ++ more) = Returns longer →
     result `prefix_of` longer).
Proof.
  unfold get_annotations_from_fdf. rewrite scan_app. split.
  - intros e. destruct (scan start lines) as [st|e']; [discriminate|].
    cbn [mbind outcome_bind Py.bind]. intros [= <-]. reflexivity.
  - intros result longer. destruct (scan start lines) as [st|e']; [|discriminate].
    cbn [mbind outcome_bind Py.bind]. intros [= <-].
    destruct (scan st more) as [st'|e'] eqn:Hmore; [|discriminate].
    cbn [mbind outcome_bind Py.bind]. intros [= <-].
    exact (scan_keeps more st st' Hmore).
Qed.

Lemma scan_of_longer_document_witness :
  get_annotations_from_fdf
    (["1 0 obj<</Subj(Line)/L[1 2 3 4]>>"; "stream"; "0 0 1 RG"; "endstream";
      "2 0 obj<</Subj(Line)/Page(1)>>"] ++ ["stream"; "1 0 0 rg"; "endstream"]) =
  Raises TypeError.
Proof.
  apply (proj1 (scan_of_longer_document _ _)). vm_compute. reflexivity.
Defined.

Lemma start_keys : keys_are_fields start.
Proof. split; cbn [start annotation_properties stream_properties]; set_solver. Qed.

Lemma take_up_keys (st st' : scanner) (line : string) :
  keys_are_fields st → take_up st line = Returns st' → keys_are_fields st'.
Proof.
  intros [Hap Hsp] Htake. destruct (take_up_cases st st' line Htake)
    as [(t & v & properties & _ & _ & _ & _ & Hnone & Hnew & _)
       | [(t & v & _ & _ & Hsame & Hnew & _) | ->]]; [| |split; assumption].
  - split; [rewrite Hnew; apply update_keys; assumption | rewrite Hnone; set_solver].
  - split; [rewrite Hnew; apply update_keys; [assumption | apply opacity_keys]
           | rewrite Hsame; assumption].
Qed.

Lemma step_keys (st st' : scanner) (line : string) :
  keys_are_fields st → step st line = Returns st' → keys_are_fields st'.
Proof.
  intros [Hap Hsp] Hstep. destruct (step_cases st st' line Hstep)
    as [(body & dash & _ & _ & _ & Htake) | [(_ & Hsame & Hnew & _) | Htake]].
  - eapply take_up_keys; [|exact Htake]. split; [exact Hap | apply stream_keys].
  - split; [rewrite Hnew | rewrite Hsame]; assumption.
  - eapply take_up_keys; [|exact Htake]. split; assumption.
Qed.

Lemma take_up_failure (st : scanner) (line : string) (e : exn) :
  keys_are_fields st → take_up st line = Raises e →
  extract_type_and_vertices line = Raises e.
Proof.
  intros [Hap Hsp]. unfold take_up.
  destruct (extract_type_and_vertices line) as [fields|e']; [|intros [= <-]; reflexivity].
  cbn [mbind outcome_bind Py.bind].
  destruct (truthy_str (annot_type st) && truthy_str (pending_vertices st)
            && dict_truthy (stream_properties st)).
  - unfold new_AnnotationProperties.
    rewrite bool_decide_eq_true_2 by (apply update_keys; assumption). discriminate.
  - destruct fields as [[t v]|]; [|discriminate].
    rewrite pop_label. cbn [mbind outcome_bind Py.bind]. rewrite pop_page. discriminate.
Qed.

Lemma take_up_stream_data (st st' : scanner) (line : string) :
  take_up st line = Returns st' → stream_data st' = stream_data st.
Proof.
  intros Htake. destruct (take_up_cases st st' line Htake)
    as [(t & v & properties & H) | [(t & v & H) | ->]]; [| |reflexivity].
  - apply H.
  - apply H.
Qed.

Lemma step_failure (st : scanner) (line : string) (e : exn) :
  keys_are_fields st → step st line = Raises e →
  extract_type_and_vertices line = Raises e ∨
  ∃ body, stream_data st = Some body ∧ parse_line_type body = Raises e.
Proof.
  intros [Hap Hsp]. unfold step.
  destruct (str_in "endstream" line && truthy_str (stream_data st)).
  - destruct (stream_data st) as [body|] eqn:Hbody.
    + change (default EmptyString (Some body)) with body.
      unfold extract_stream_properties.
      destruct (parse_line_type body) as [dash|e'] eqn:Hdash.
      * cbn [mbind outcome_bind Py.bind]. fold (stream_dict body dash).
        intros Htake. left.
        eapply take_up_failure; [|exact Htake]. split; [exact Hap | apply stream_keys].
      * cbn [mbind outcome_bind Py.bind]. intros [= <-]. right.
        exists body. split; [reflexivity | exact Hdash].
    + change (default EmptyString None) with EmptyString.
      unfold extract_stream_properties.
      destruct (parse_line_type EmptyString) as [dash|e'] eqn:Hdash;
        [|vm_compute in Hdash; discriminate].
      cbn [mbind outcome_bind Py.bind]. fold (stream_dict EmptyString dash).
      intros Htake. left.
      eapply take_up_failure; [|exact Htake]. split; [exact Hap | apply stream_keys].
  - destruct (in_stream_data st); [discriminate|].
    destruct (negb _ && negb _); [discriminate|].
    destruct (str_in "stream" line); [discriminate|].
    intros Htake. left. eapply take_up_failure; [|exact Htake]. split; assumption.
Qed.

Lemma step_stream_data (st st' : scanner) (line : string) :
  step st line = Returns st' →
  stream_data st' = stream_data st ∨ stream_data st' = Some line ∨
  stream_data st' = None.
Proof.
  intros Hstep. destruct (step_cases st st' line Hstep)
    as [(body & dash & _ & _ & _ & Htake) | [(_ & _ & _ & _ & _ & [H | H]) | Htake]].
  - right; right. apply take_up_stream_data in Htake. exact Htake.
  - left; exact H.
  - right; left; exact H.
  - left. apply take_up_stream_data in Htake. exact Htake.
Qed.

Lemma scan_failure (lines : list string) (e : exn) :
  ∀ st, keys_are_fields st → scan st lines = Raises e →
    Exists (fails_with e) lines ∨
    ∃ body, stream_data st = Some body ∧ parse_line_type body = Raises e.
Proof.
  induction lines as [|line lines IH]; intros st Hkeys; [discriminate|].
  cbn [scan]. destruct (step st line) as [st1|e'] eqn:Hstep.
  - cbn [mbind outcome_bind Py.bind]. intros Hscan.
    destruct (IH st1 (step_keys _ _ _ Hkeys Hstep) Hscan)
      as [Hlater | (body & Hbody & Hdash)].
    + left. right. exact Hlater.
    + destruct (step_stream_data _ _ _ Hstep) as [Hsame | [Hline | Hnone]].
      * right. exists body. rewrite <- Hsame. split; assumption.
      * left. left. right. rewrite Hline in Hbody. injection Hbody as ->. exact Hdash.
      * rewrite Hnone in Hbody. discriminate.
  - cbn [mbind outcome_bind Py.bind]. intros [= <-].
    destruct (step_failure _ _ _ Hkeys Hstep) as [Hextract | Hbody].
    + left. left. left. exact Hextract.
    + right. exact Hbody.
Qed.

Lemma step_unclosed_failure (st : scanner) (line : string) (e : exn) :
  keys_are_fields st → str_in "endstream" line = false →
  step st line = Raises e → extract_type_and_vertices line = Raises e.
Proof.
  intros [Hap Hsp] Hno. unfold step. rewrite Hno. cbn [andb].
  destruct (in_stream_data st); [discriminate|].
  destruct (negb _ && negb _); [discriminate|].
  destruct (str_in "stream" line); [discriminate|].
  intros Htake. eapply take_up_failure; [|exact Htake]. split; assumption.
Qed.

Lemma scan_unclosed_failure (lines : list string) (e : exn) :
  closings lines = 0 →
  ∀ st, keys_are_fields st → scan st lines = Raises e →
    Exists (λ line, extract_type_and_vertices line = Raises e) lines.
Proof.
  induction lines as [|line lines IH]; intros Hzero st Hkeys; [discriminate|].
  cbn [closings] in Hzero.
  destruct (str_in "endstream" line) eqn:Hno; [lia|].
  cbn [scan]. destruct (step st line) as [st1|e'] eqn:Hstep.
  - cbn [mbind outcome_bind Py.bind]. intros Hscan. right.
    exact (IH Hzero st1 (step_keys _ _ _ Hkeys Hstep) Hscan).
  - cbn [mbind outcome_bind Py.bind]. intros [= <-]. left.
    exact (step_unclosed_failure st line e' Hkeys Hno Hstep).
Qed.

(** X5: whenever the assembler returns, it returns no more annotations
    than the document has lines that hold [endstream]: each annotation
    uses up the properties of one closed stream; so a document without such
    a line, when it is scanned to the end, gives no annotation, whatever
    headers it has.  The scan of such a document parses no stream body: it
    can only fail where the type-and-vertices extractor raises on one of
    its lines, with the error of the extractor, and it does return the
    empty list when the extractor raises on none. *)
Theorem annotations_need_closed_streams (lines : list string) :
  (∀ result, get_annotations_from_fdf lines = Returns result →
     length result ≤ closings lines ∧ (closings lines = 0 → result = [])) ∧
  (closings lines = 0 →
     (∀ e, get_annotations_from_fdf lines = Raises e →
        Exists (λ line, extract_type_and_vertices line = Raises e) lines) ∧
     (Forall (λ line, ∀ e, extract_type_and_vertices line ≠ Raises e) lines →
      get_annotations_from_fdf lines = Returns [])).
Proof.
  assert (Hbound : ∀ result, get_annotations_from_fdf lines = Returns result →
            length result ≤ closings lines ∧ (closings lines = 0 → result = [])).
  { intros result Hrun. destruct (scan_returned lines result Hrun) as (st & Hscan & <-).
    apply scan_bound in Hscan. cbn [start annotations length] in Hscan.
    rewrite (owed_none start eq_refl) in Hscan.
    assert (Hlen : length (annotations st) ≤ closings lines) by lia.
    split; [exact Hlen|]. intros Hzero.
    destruct (annotations st); [reflexivity | cbn [length] in Hlen; lia]. }
  split; [exact Hbound|]. intros Hzero.
  assert (Hfail : ∀ e, get_annotations_from_fdf lines = Raises e →
            Exists (λ line, extract_type_and_vertices line = Raises e) lines).
  { intros e. unfold get_annotations_from_fdf.
    destruct (scan start lines) as [st|e'] eqn:Hscan; [discriminate|].
    cbn [mbind outcome_bind Py.bind]. intros [= <-].
    exact (scan_unclosed_failure lines e' Hzero start start_keys Hscan). }
  split; [exact Hfail|]. intros Hgood.
  destruct (get_annotations_from_fdf lines) as [result|e] eqn:Hrun.
  - f_equal. exact (proj2 (Hbound result eq_refl) Hzero).
  - pose proof (Hfail e eq_refl) as Hsome.
    apply Exists_exists in Hsome as (line & Hin & Hbad).
    rewrite Forall_forall in Hgood. destruct (Hgood line Hin e Hbad).
Qed.

Lemma annotations_need_closed_streams_witness :
  get_annotations_from_fdf
    ["1 0 obj<</Subj(Line)/L[10 20 30 40]>>"; "2 0 obj<</Subj(Polygon)/Vertices[0 0 1 0 1 1]>>"] =
  Returns [] ∧
  Exists (λ line, extract_type_and_vertices line = Raises TypeError)
    ["%FDF-1.2"; "1 0 obj<</Subj(Line)/Page(1)>>"].
Proof.
  split.
  - apply (proj2 (annotations_need_closed_streams _)); [reflexivity|].
    repeat constructor; intros e H; vm_compute in H; discriminate H.
  - apply (proj2 (annotations_need_closed_streams _)); [reflexivity|].
    vm_compute. reflexivity.
Defined.

Lemma parse_line_type_failure (stream_line : string) (e : exn) :
  parse_line_type stream_line = Raises e → e = ValueError.
Proof.
  unfold parse_line_type.
  destruct (Parse.search " [{}] {:g} d" stream_line) as [values|] eqn:Hsearch;
    [|discriminate].
  destruct (dash_shape stream_line values Hsearch) as (pattern & phase & ->).
  cbn [item0 mbind outcome_bind Py.bind].
  destruct (floats (split_char " " pattern)) as [acc|e'] eqn:Hfloats; [discriminate|].
  cbn [mbind outcome_bind Py.bind]. intros [= <-].
  apply (floats_failure _ _ Hfloats).
Qed.

(** X7: where a failure of the assembler comes from.  When the scan of a
    document raises an error, one line of the document makes the
    type-and-vertices extractor or the dash-pattern parser raise that very
    error, which is a TypeError or a ValueError; the dicts, the dataclass
    constructor and the subscripts of the loop never fail.  A document of
    which no line makes these two raise is scanned to the end. *)
Theorem scan_fails_on_a_line (lines : list string) :
  (∀ e, get_annotations_from_fdf lines = Raises e →
        Exists (fails_with e) lines ∧ (e = TypeError ∨ e = ValueError)) ∧
  (Forall (λ line, ∀ e, ¬ fails_with e line) lines →
   ∃ result, get_annotations_from_fdf lines = Returns result).
Proof.
  assert (Hfail : ∀ e, get_annotations_from_fdf lines = Raises e →
                       Exists (fails_with e) lines).
  { intros e. unfold get_annotations_from_fdf.
    destruct (scan start lines) as [st|e'] eqn:Hscan; [discriminate|].
    cbn [mbind outcome_bind Py.bind]. intros [= <-].
    destruct (scan_failure lines e' start start_keys Hscan) as [Hbad | (b & Hb & _)];
      [exact Hbad | discriminate Hb]. }
  split.
  - intros e Hraise. pose proof (Hfail e Hraise) as Hbad. split; [exact Hbad|].
    apply Exists_exists in Hbad as (line & _ & [Hextract | Hdash]).
    + apply (extract_outcomes line). exact Hextract.
    + right. exact (parse_line_type_failure line e Hdash).
  - intros Hgood. destruct (get_annotations_from_fdf lines) as [result|e] eqn:Hrun.
    + exists result. reflexivity.
    + pose proof (Hfail e eq_refl) as Hsome.
      apply Exists_exists in Hsome as (line & Hin & Hbad).
      rewrite Forall_forall in Hgood. destruct (Hgood line Hin e Hbad).
Qed.

Lemma scan_fails_on_a_line_witness :
  Exists (fails_with ValueError)
    ["1 0 obj<</Subj(Line)/L[1 2 3 4]>>"; "stream"; "0 0 1 RG [3 x] 0 d"; "endstream"].
Proof.
  apply (proj1 (scan_fails_on_a_line _) ValueError). vm_compute. reflexivity.
Defined.

End Scanning.

(** ** The annotation assembler: what it returns *)

Section Returned.

Import FdfToWkt.

Lemma take_up_markup (st st' : scanner) (line : string) :
  holds_markup st → Forall well_formed (annotations st) →
  take_up st line = Returns st' →
  holds_markup st' ∧ Forall well_formed (annotations st').
Proof.
  intros Hheld Hall Htake. destruct (take_up_cases st st' line Htake)
    as [(t & v & properties & Ht & Hv & _ & Hout & _ & _ & Ht' & Hv' & _)
       | [(t & v & Hfields & Hout & _ & _ & Ht' & Hv' & _) | ->]];
    [| |split; assumption].
  - assert (Hmarkup : t ∈ markup_types ∧ v ≠ EmptyString).
    { destruct Hheld as [Hnone | (t0 & v0 & Ht0 & Hv0 & Hin & Hne)];
        [congruence|]. rewrite Ht in Ht0. rewrite Hv in Hv0.
      injection Ht0 as <-. injection Hv0 as <-. split; assumption. }
    split.
    + right. exists t, v. rewrite Ht', Hv'. destruct Hmarkup. repeat split; assumption.
    + rewrite Hout. apply Forall_app. split; [exact Hall|].
      constructor; [|constructor]. destruct Hmarkup.
      repeat split; cbn; eauto.
  - split; [|rewrite Hout; exact Hall].
    right. exists t, v.
    destruct (proj1 (extract_outcomes line) t v Hfields) as (Hin & Hne & _).
    repeat split; assumption.
Qed.

Lemma step_markup (st st' : scanner) (line : string) :
  holds_markup st → Forall well_formed (annotations st) →
  step st line = Returns st' →
  holds_markup st' ∧ Forall well_formed (annotations st').
Proof.
  intros Hheld Hall Hstep. destruct (step_cases st st' line Hstep)
    as [(body & dash & _ & _ & _ & Htake) | [(Hout & _ & _ & Ht & Hv & _) | Htake]].
  - eapply take_up_markup; [| |exact Htake]; assumption.
  - split; [|rewrite Hout; exact Hall].
    destruct Hheld as [Hnone | (t & v & Ht0 & Hv0 & Hin & Hne)].
    + left. rewrite Ht. exact Hnone.
    + right. exists t, v. rewrite Ht, Hv. repeat split; assumption.
  - eapply take_up_markup; [| |exact Htake]; assumption.
Qed.

Lemma scan_markup (lines : list string) :
  ∀ st st', holds_markup st → Forall well_formed (annotations st) →
    scan st lines = Returns st' →
    holds_markup st' ∧ Forall well_formed (annotations st').
Proof.
  induction lines as [|line lines IH]; intros st st' Hheld Hall.
  - intros [= <-]. split; assumption.
  - cbn [scan]. destruct (step st line) as [st1|e] eqn:Hstep; [|discriminate].
    cbn [mbind outcome_bind Py.bind]. intros Hscan.
    destruct (step_markup st st1 line Hheld Hall Hstep) as [Hheld1 Hall1].
    exact (IH st1 st' Hheld1 Hall1 Hscan).
Qed.

(** X8: every annotation that the assembler returns has one of the six
    types of markup as its object type, vertices that are not the empty
    string, a properties record, and no WKT literal yet. *)
Theorem returned_annotations_are_markup (lines : list string)
    (result : list Annotation) :
  get_annotations_from_fdf lines = Returns result →
  Forall well_formed result.
Proof.
  intros Hrun. destruct (scan_returned lines result Hrun) as (st & Hscan & <-).
  apply (scan_markup lines start st); [left; reflexivity | constructor | exact Hscan].
Qed.

Lemma returned_annotations_are_markup_witness :
  Forall well_formed
    [annotation_of "1 0 obj<</Subj(Circle)/Vertices[0 0 2 2]>>" "0 0 1 RG"
       "Circle" "0 0 2 2" PyNone].
Proof.
  apply (returned_annotations_are_markup
           ["1 0 obj<</Subj(Circle)/Vertices[0 0 2 2]>>"; "stream"; "0 0 1 RG"; "endstream"]).
  vm_compute. reflexivity.
Defined.






End Returned.

(** ** The converter: every outcome, in both files *)

Section ConversionOutcomes.

Import FdfToWkt.

Lemma group_vertices_open_returns (vertices : string) :
  group_vertices vertices false =
  Returns (join ", " (group_loop (split_char " " vertices) 0 [] [])).
Proof. reflexivity. Qed.

Lemma accumulated_pairs (vertices : string) :
  length (group_loop (split_char " " vertices) 0 [] []) =
  Nat.div2 (length (split_char " " vertices)).
Proof.
  rewrite group_loop_length. cbn [length Nat.odd Nat.even negb].
  rewrite Nat.add_0_r. reflexivity.
Qed.

Lemma one_token_no_pair (vertices : string) :
  length (split_char " " vertices) < 2 →
  group_loop (split_char " " vertices) 0 [] [] = [].
Proof.
  intros Hfew. pose proof (accumulated_pairs vertices) as Hacc.
  pose proof (split_char_length " " vertices) as Hone.
  destruct (split_char " " vertices) as [|x [|y rest]]; cbn [length] in *; try lia.
  destruct (group_loop [x] 0 [] []); [reflexivity | discriminate Hacc].
Qed.

Lemma supported_type_tests (annot_type : string) :
  annot_type ∈ ["PolyLine"; "Line"; "Polygon"; "Rectangle"] ↔
  (String.eqb annot_type "PolyLine" || String.eqb annot_type "Line")
  || (String.eqb annot_type "Polygon" || String.eqb annot_type "Rectangle") = true.
Proof.
  rewrite !elem_of_cons, elem_of_nil.
  rewrite !orb_true_iff, !String.eqb_eq. tauto.
Qed.

(** X10: every outcome of the conversion.  It fails in one case only, the
    IndexError of a Polygon or Rectangle whose vertices string has a single
    token; a Line or PolyLine with a single token is not refused but gives
    the literal [LINESTRING()]; and None is returned exactly for the types
    other than PolyLine, Line, Polygon and Rectangle. *)
Theorem conversion_outcomes (annot : Annotation) :
  (∀ e, annotation_to_wkt annot = Raises e →
        e = IndexError ∧
        (object_type annot = "Polygon" ∨ object_type annot = "Rectangle") ∧
        length (split_char " " (vertices annot)) = 1) ∧
  (object_type annot = "Line" ∨ object_type annot = "PolyLine" →
   length (split_char " " (vertices annot)) < 2 →
   annotation_to_wkt annot = Returns (Some "LINESTRING()")) ∧
  (annotation_to_wkt annot = Returns None ↔
   object_type annot ∉ ["PolyLine"; "Line"; "Polygon"; "Rectangle"]).
Proof.
  split; [|split].
  - intros e. unfold annotation_to_wkt.
    destruct (String.eqb (object_type annot) "PolyLine"
              || String.eqb (object_type annot) "Line"); [discriminate|].
    destruct (String.eqb (object_type annot) "Polygon"
              || String.eqb (object_type annot) "Rectangle") eqn:Hring; [|discriminate].
    unfold group_vertices.
    pose proof (accumulated_pairs (vertices annot)) as Hacc.
    pose proof (split_char_length " " (vertices annot)) as Hone.
    destruct (group_loop (split_char " " (vertices annot)) 0 [] []) as [|first acc];
      [|discriminate].
    cbn [close_ring mbind outcome_bind Py.bind]. intros [= <-].
    split; [reflexivity|]. split.
    + apply orb_true_iff in Hring as [H | H]; apply String.eqb_eq in H; tauto.
    + destruct (split_char " " (vertices annot)) as [|x [|y rest]];
        cbn [length Nat.div2] in *; (lia || discriminate).
  - intros Htype Hfew. rewrite (wkt_line annot Htype), group_vertices_open_returns.
    rewrite (one_token_no_pair _ Hfew). reflexivity.
  - rewrite supported_type_tests. unfold annotation_to_wkt.
    destruct (String.eqb (object_type annot) "PolyLine"
              || String.eqb (object_type annot) "Line").
    { cbn [orb]. split; [|intros H; contradiction H; reflexivity].
      rewrite group_vertices_open_returns. discriminate. }
    destruct (String.eqb (object_type annot) "Polygon"
              || String.eqb (object_type annot) "Rectangle").
    { cbn [orb]. split; [|intros H; contradiction H; reflexivity].
      destruct (group_vertices (vertices annot) true); discriminate. }
    cbn [orb]. split; [intros _; discriminate | reflexivity].
Qed.

Lemma conversion_outcomes_witness :
  annotation_to_wkt (shape "Line" "7") = Returns (Some "LINESTRING()") ∧
  annotation_to_wkt (shape "Text" "1 2") = Returns None.
Proof.
  split.
  - apply (proj1 (proj2 (conversion_outcomes (shape "Line" "7"))));
      [left; reflexivity | cbn; lia].
  - apply (proj2 (proj2 (conversion_outcomes (shape "Text" "1 2")))).
    intros Hin. apply supported_type_tests in Hin. vm_compute in Hin. discriminate.
Defined.

(** X11: the converters of the two files give the same outcome on two
    annotations that have the same object type and the same vertices,
    whatever their other fields. *)
Theorem converters_agree (annot : Annotation) (other : FdfToShapely.Annotation) :
  FdfToShapely.object_type other = object_type annot →
  FdfToShapely.vertices other = vertices annot →
  FdfToShapely.annotation_to_wkt other = annotation_to_wkt annot.
Proof.
  intros Htype Hvertices.
  unfold FdfToShapely.annotation_to_wkt, annotation_to_wkt.
  rewrite Htype, Hvertices, !shapely_group_vertices. reflexivity.
Qed.

Lemma converters_agree_witness :
  FdfToShapely.annotation_to_wkt (shapely_shape "Polygon" "0 0 4 0 4 3") =
  Returns (Some "POLYGON((0 0, 4 0, 4 3, 0 0))").
Proof.
  rewrite (converters_agree (shape "Polygon" "0 0 4 0 4 3")
             (shapely_shape "Polygon" "0 0 4 0 4 3") eq_refl eq_refl).
  reflexivity.
Defined.

End ConversionOutcomes.

(** ** fdf_to_shapely.py and fdf_to_wkt.py side by side *)

Section Files.

(** X12: the extractor of fdf_to_shapely.py reads the box of a Rectangle
    and, for every other type, the Vertices field.  It returns what the
    extractor of fdf_to_wkt.py returns on a line without Subj and on a
    Circle, PolyLine, Polygon or Rectangle header.  On a header of another
    type, a Line or a Square among them, it raises TypeError when the line
    has no Vertices field, and takes the type up with the vertices of that
    field when it has one, be it a type that fdf_to_wkt.py passes over. *)
Theorem extractors_of_the_two_files (line : string) :
  (Parse.search "obj<</Subj({})" line = None →
   FdfToShapely.extract_type_and_vertices line = Returns None ∧
   FdfToWkt.extract_type_and_vertices line = Returns None) ∧
  (∀ annot_type,
     Parse.search "obj<</Subj({})" line = Some [PyStr annot_type] →
     annot_type ∈ ["Circle"; "PolyLine"; "Polygon"; "Rectangle"] →
     FdfToShapely.extract_type_and_vertices line =
     FdfToWkt.extract_type_and_vertices line) ∧
  (∀ annot_type,
     Parse.search "obj<</Subj({})" line = Some [PyStr annot_type] →
     annot_type ≠ "Rectangle" →
     (Parse.search "/Vertices[{}]" line = None →
      FdfToShapely.extract_type_and_vertices line = Raises TypeError) ∧
     (∀ vertices, Parse.search "/Vertices[{}]" line = Some [PyStr vertices] →
      FdfToShapely.extract_type_and_vertices line =
        Returns (Some (annot_type, vertices)))).
Proof.
  split; [|split].
  - intros Hnone. unfold FdfToShapely.extract_type_and_vertices,
      FdfToWkt.extract_type_and_vertices. rewrite Hnone. split; reflexivity.
  - intros annot_type Hsubj Hin. rewrite (extract_with_type line annot_type Hsubj).
    unfold FdfToShapely.extract_type_and_vertices. rewrite Hsubj.
    cbn [FdfToWkt.item0 mbind outcome_bind Py.bind].
    rewrite !elem_of_cons, elem_of_nil in Hin.
    destruct Hin as [-> | [-> | [-> | [-> | []]]]];
      cbn [String.eqb Ascii.eqb Bool.eqb orb negb].
    + destruct (FdfToWkt.item0 _); reflexivity.
    + destruct (FdfToWkt.item0 _); reflexivity.
    + destruct (FdfToWkt.item0 _); reflexivity.
    + destruct (FdfToWkt.item0 _) as [bbox|]; [|reflexivity].
      cbn [mbind outcome_bind Py.bind].
      destruct (split_ws bbox) as [|x1 [|y1 [|x2 [|y2 [|extra rest]]]]]; reflexivity.
  - intros annot_type Hsubj Hother.
    apply String.eqb_neq in Hother.
    unfold FdfToShapely.extract_type_and_vertices. rewrite Hsubj.
    cbn [FdfToWkt.item0 mbind outcome_bind Py.bind]. rewrite Hother. cbn [negb].
    split; [intros -> | intros vertices ->]; reflexivity.
Qed.

Lemma extractors_of_the_two_files_witness :
  FdfToShapely.extract_type_and_vertices "1 0 obj<</Subj(Line)/L[1 2 3 4]>>" =
    Raises TypeError ∧
  FdfToWkt.extract_type_and_vertices "1 0 obj<</Subj(Line)/L[1 2 3 4]>>" =
    Returns (Some ("Line", "1 2 3 4")) ∧
  FdfToShapely.extract_type_and_vertices "2 0 obj<</Subj(Cloud)/Vertices[1 2 3 4]>>" =
    Returns (Some ("Cloud", "1 2 3 4")).
Proof.
  split; [|split].
  - apply (proj2 (proj2 (extractors_of_the_two_files
             "1 0 obj<</Subj(Line)/L[1 2 3 4]>>")) "Line");
      [vm_compute; reflexivity | discriminate | vm_compute; reflexivity].
  - vm_compute. reflexivity.
  - apply (proj2 (proj2 (extractors_of_the_two_files
             "2 0 obj<</Subj(Cloud)/Vertices[1 2 3 4]>>")) "Cloud");
      [vm_compute; reflexivity | discriminate | vm_compute; reflexivity].
Defined.

(** X13: the stream properties of fdf_to_shapely.py are returned for every
    stream line, with the same line colour, fill colour and line weight as
    those of fdf_to_wkt.py whenever these are returned; the line type is
    the plain pair of the texts found, or None, where fdf_to_wkt.py
    converts the dash pattern to floats and can fail. *)
Theorem stream_properties_of_the_two_files (stream_line : string) :
  dom (FdfToShapely.extract_stream_properties stream_line) =
    ({["line_color"; "fill_color"; "line_weight"; "line_type"]} : gset string) ∧
  FdfToShapely.extract_stream_properties stream_line !! "line_type" =
    Some (FdfToShapely.tuple_or_none (Parse.search " [{}] {:g} d" stream_line)) ∧
  (∀ d key,
     FdfToWkt.extract_stream_properties stream_line = Returns d →
     key ≠ "line_type" →
     FdfToShapely.extract_stream_properties stream_line !! key = d !! key).
Proof.
  split; [unfold FdfToShapely.extract_stream_properties; set_solver|].
  split; [unfold FdfToShapely.extract_stream_properties; simplify_map_eq; reflexivity|].
  intros d key. unfold FdfToWkt.extract_stream_properties.
  destruct (FdfToWkt.parse_line_type stream_line) as [dash|e]; [|discriminate].
  cbn [mbind outcome_bind Py.bind]. intros [= <-] Hkey.
  unfold FdfToShapely.extract_stream_properties, FdfToWkt.parse_line_color,
    FdfToWkt.parse_fill_color, FdfToWkt.parse_line_weight, FdfToShapely.tuple_or_none.
  destruct (decide (key = "line_color")) as [-> | H1]; [simplify_map_eq; reflexivity|].
  destruct (decide (key = "fill_color")) as [-> | H2]; [simplify_map_eq; reflexivity|].
  destruct (decide (key = "line_weight")) as [-> | H3]; [simplify_map_eq; reflexivity|].
  simplify_map_eq. reflexivity.
Qed.

Lemma stream_properties_of_the_two_files_witness :
  FdfToShapely.extract_stream_properties "0 0 1 RG 2 w" !! "line_weight" =
  Some (PyFloat "2").
Proof.
  rewrite (proj2 (proj2 (stream_properties_of_the_two_files "0 0 1 RG 2 w"))
             (stream_dict "0 0 1 RG 2 w" PyNone) "line_weight"
             ltac:(vm_compute; reflexivity) ltac:(discriminate)).
  vm_compute. reflexivity.
Defined.

End Files.

(** ** fdf_to_shapely.py: the conversion of a line *)

Section LineObject.

Import FdfToShapely.

Lemma substring_all (s : string) : String.substring 0 (String.length s) s = s.
Proof. induction s as [|c s IH]; [reflexivity|]. cbn. rewrite IH. reflexivity. Qed.

Lemma substring_first (a b : string) :
  String.substring 0 (String.length a) (a +:+ b) = a.
Proof.
  induction a as [|c a IH]; [destruct b; reflexivity|].
  change (String c (String.substring 0 (String.length a) (a +:+ b)) = String c a).
  rewrite IH. reflexivity.
Qed.

Lemma substring_skip (a b : string) (n : nat) :
  String.substring (String.length a) n (a +:+ b) = String.substring 0 n b.
Proof.
  induction a as [|c a IH]; [reflexivity|].
  change (String.substring (String.length a) n (a +:+ b) = String.substring 0 n b).
  exact IH.
Qed.

Lemma slice_bound_inside (n i : Z) : (0 ≤ i ≤ n)%Z → slice_bound n i = i.
Proof.
  intros Hi. unfold slice_bound.
  destruct (Z.ltb_spec i 0); [lia | apply Z.min_l; lia].
Qed.

(** [s[a:]] and [s[a:b]] of a string put together from three parts. *)
Lemma slice_from_parts (a b : string) :
  slice_from (a +:+ b) (Z.of_nat (String.length a)) = b.
Proof.
  unfold slice_from, slice. rewrite append_length.
  rewrite !slice_bound_inside by lia.
  rewrite Nat2Z.id.
  replace (Z.to_nat (Z.of_nat (String.length a + String.length b)
                     - Z.of_nat (String.length a))) with (String.length b) by lia.
  rewrite substring_skip. apply substring_all.
Qed.

Lemma slice_parts (a b c : string) :
  slice (a +:+ b +:+ c) (Z.of_nat (String.length a))
        (Z.of_nat (String.length a) + Z.of_nat (String.length b)) = b.
Proof.
  unfold slice. rewrite !append_length.
  rewrite !slice_bound_inside by lia.
  rewrite Nat2Z.id.
  replace (Z.to_nat (Z.of_nat (String.length a) + Z.of_nat (String.length b)
                     - Z.of_nat (String.length a))) with (String.length b) by lia.
  rewrite substring_skip. apply substring_first.
Qed.

Lemma find_from_next (sub s : string) (c : ascii) (i : Z) :
  String.prefix sub (String c s) = false →
  find_from sub (String c s) i = find_from sub s (i + 1).
Proof. intros Hno. cbn [find_from]. rewrite Hno. reflexivity. Qed.

Lemma prefix_of_append (a b : string) : String.prefix a (a +:+ b) = true.
Proof.
  induction a as [|c a IH]; [destruct b; reflexivity|].
  change (String c a +:+ b) with (String c (a +:+ b)). cbn [String.prefix].
  destruct (ascii_dec c c) as [_|Hcc]; [exact IH | congruence].
Qed.

Lemma find_from_here (sub s : string) (i : Z) :
  String.prefix sub s = true → find_from sub s i = i.
Proof. intros Hhere. destruct s; cbn [find_from]; rewrite Hhere; reflexivity. Qed.

(** The first [/L[] of a line that has none before. *)
Lemma find_field_start (pre rest : string) :
  ∀ i, str_in "/L[" pre = false →
       find_from "/L[" (pre +:+ "/L[" +:+ rest) i =
       (i + Z.of_nat (String.length pre))%Z.
Proof.
  induction pre as [|c pre IH]; intros i Hno.
  - change (EmptyString +:+ "/L[" +:+ rest) with ("/L[" +:+ rest).
    rewrite find_from_here by apply prefix_of_append. cbn [String.length]. lia.
  - cbn [str_in] in Hno. apply orb_false_elim in Hno as [Hhere Hlater].
    change (String c pre +:+ "/L[" +:+ rest) with (String c (pre +:+ "/L[" +:+ rest)).
    rewrite find_from_next.
    + rewrite (IH _ Hlater). cbn [String.length]. lia.
    + clear IH Hlater. cbn [String.prefix] in Hhere |- *.
      destruct (ascii_dec "/" c) as [_|]; [|reflexivity].
      destruct pre as [|c2 pre]; [reflexivity|].
      change (String c2 pre +:+ "/L[" +:+ rest)
        with (String c2 (pre +:+ "/L[" +:+ rest)).
      cbn [String.prefix] in Hhere |- *.
      destruct (ascii_dec "L" c2) as [_|]; [|reflexivity].
      destruct pre as [|c3 pre]; [reflexivity|].
      change (String c3 pre +:+ "/L[" +:+ rest)
        with (String c3 (pre +:+ "/L[" +:+ rest)).
      cbn [String.prefix] in Hhere |- *.
      destruct (ascii_dec "[" c3) as [_|]; [|reflexivity].
      destruct pre; discriminate Hhere.
Qed.

(** The first []] after text that has none. *)
Lemma find_field_end (body rest : string) :
  ∀ i, has_char "]" body = false →
       find_from "]" (body +:+ "]" +:+ rest) i =
       (i + Z.of_nat (String.length body))%Z.
Proof.
  induction body as [|c body IH]; intros i Hno.
  - change (EmptyString +:+ "]" +:+ rest) with ("]" +:+ rest).
    rewrite find_from_here by apply prefix_of_append. cbn [String.length]. lia.
  - cbn [has_char] in Hno. apply orb_false_elim in Hno as [Hhere Hlater].
    change (String c body +:+ "]" +:+ rest) with (String c (body +:+ "]" +:+ rest)).
    rewrite find_from_next.
    + rewrite (IH _ Hlater). cbn [String.length]. lia.
    + cbn [String.prefix]. destruct (ascii_dec "]" c) as [<-|]; [|reflexivity].
      discriminate Hhere.
Qed.

Lemma two_pairs_literal (x1 y1 x2 y2 : string) :
  "LINESTRING(" +:+ x1 +:+ " " +:+ y1 +:+ ", " +:+ x2 +:+ " " +:+ y2 +:+ ")" =
  linestring [(x1, y1); (x2, y2)].
Proof.
  unfold linestring, pair_text. cbn [map join fst snd].
  rewrite <- !append_assoc. reflexivity.
Qed.

(** X14: the conversion of a line by fdf_to_shapely.py.  On a line that
    holds [/Subj(Line)] and whose first [/L[] is followed by a text without
    []] and then by []], the text between the brackets is split at every
    space: four parts give the LINESTRING literal of the two pairs, the
    same literal as the converter gives for a Line with these vertices,
    and any other number of parts is a ValueError.  [convert_line_to_wkt]
    does the same. *)
Theorem line_object_conversion (pre body post : string) :
  let fdf_line := pre +:+ "/L[" +:+ body +:+ "]" +:+ post in
  str_in "/Subj(Line)" fdf_line = true →
  str_in "/L[" pre = false →
  has_char "]" body = false →
  (∀ x1 y1 x2 y2,
     split_char " " body = [x1; y1; x2; y2] →
     convert_line_object fdf_line = Returns (Some (linestring [(x1, y1); (x2, y2)])) ∧
     convert_line_to_wkt fdf_line = Returns (Some (linestring [(x1, y1); (x2, y2)])) ∧
     FdfToWkt.annotation_to_wkt (shape "Line" body) =
       Returns (Some (linestring [(x1, y1); (x2, y2)]))) ∧
  (length (split_char " " body) ≠ 4 →
   convert_line_object fdf_line = Raises ValueError ∧
   convert_line_to_wkt fdf_line = Raises ValueError).
Proof.
  intros fdf_line Hsubj Hpre Hbody.
  assert (Hrun : convert_line_object fdf_line =
                 match split_char " " body with
                 | [x1; y1; x2; y2] =>
                     Returns (Some ("LINESTRING(" +:+ x1 +:+ " " +:+ y1 +:+ ", "
                                    +:+ x2 +:+ " " +:+ y2 +:+ ")"))
                 | _ => Raises ValueError
                 end).
  { unfold convert_line_object. rewrite Hsubj.
    assert (Hbeg : find "/L[" fdf_line = Z.of_nat (String.length pre)).
    { unfold find, fdf_line. rewrite (find_field_start pre _ 0 Hpre). lia. }
    assert (Hrest : slice_from fdf_line (Z.of_nat (String.length pre)) =
                    "/L[" +:+ body +:+ "]" +:+ post)
      by apply slice_from_parts.
    assert (Hend : find "]" ("/L[" +:+ body +:+ "]" +:+ post) =
                   (3 + Z.of_nat (String.length body))%Z).
    { unfold find. change ("/L[" +:+ body +:+ "]" +:+ post)
        with (String "/" (String "L" (String "[" (body +:+ "]" +:+ post)))).
      rewrite !find_from_next by reflexivity.
      rewrite (find_field_end body post _ Hbody). lia. }
    assert (Hcoords : slice fdf_line (Z.of_nat (String.length pre) + 3)
                        (Z.of_nat (String.length pre)
                         + (3 + Z.of_nat (String.length body))) = body).
    { unfold fdf_line. rewrite (append_assoc pre "/L[").
      replace (Z.of_nat (String.length pre) + 3)%Z
        with (Z.of_nat (String.length (pre +:+ "/L[")))
        by (rewrite append_length; cbn [String.length]; lia).
      replace (Z.of_nat (String.length pre) + (3 + Z.of_nat (String.length body)))%Z
        with (Z.of_nat (String.length (pre +:+ "/L[")) + Z.of_nat (String.length body))%Z
        by (rewrite append_length; cbn [String.length]; lia).
      apply slice_parts. }
    rewrite Hbeg, Hrest, Hend, Hcoords. reflexivity. }
  assert (Hloop : convert_line_to_wkt fdf_line =
                  match split_char " " body with
                  | [x1; y1; x2; y2] =>
                      Returns (Some ("LINESTRING(" +:+ x1 +:+ " " +:+ y1 +:+ ", "
                                     +:+ x2 +:+ " " +:+ y2 +:+ ")"))
                  | _ => Raises ValueError
                  end).
  { unfold convert_line_to_wkt. cbn [convert_loop]. rewrite Hrun.
    destruct (split_char " " body) as [|x1 [|y1 [|x2 [|y2 [|extra rest]]]]];
      reflexivity. }
  split.
  - intros x1 y1 x2 y2 Hfour. rewrite Hrun, Hloop, Hfour, two_pairs_literal.
    split; [reflexivity|]. split; [reflexivity|].
    rewrite (wkt_line (shape "Line" body) (or_introl eq_refl)).
    rewrite (group_vertices_open [(x1, y1); (x2, y2)]); [reflexivity|].
    cbn [FdfToWkt.vertices shape]. rewrite Hfour.
    apply (group_loop_even [(x1, y1); (x2, y2)]).
  - intros Hcount. rewrite Hrun, Hloop.
    destruct (split_char " " body) as [|x1 [|y1 [|x2 [|y2 [|extra rest]]]]];
      try (split; reflexivity). contradiction Hcount. reflexivity.
Qed.

Lemma line_object_conversion_witness :
  convert_line_object "1 0 obj<</Subj(Line)/L[10 20 30 40]/Page(1)>>" =
    Returns (Some "LINESTRING(10 20, 30 40)") ∧
  convert_line_to_wkt "1 0 obj<</Subj(Line)/L[10 20 30]/Page(1)>>" = Raises ValueError.
Proof.
  split.
  - apply (proj1 (line_object_conversion "1 0 obj<</Subj(Line)" "10 20 30 40" "/Page(1)>>"
                    ltac:(vm_compute; reflexivity) ltac:(vm_compute; reflexivity)
                    ltac:(vm_compute; reflexivity)) "10" "20" "30" "40").
    vm_compute. reflexivity.
  - apply (proj2 (line_object_conversion "1 0 obj<</Subj(Line)" "10 20 30" "/Page(1)>>"
                    ltac:(vm_compute; reflexivity) ltac:(vm_compute; reflexivity)
                    ltac:(vm_compute; reflexivity))).
    vm_compute. discriminate.
Defined.

End LineObject.

(** ** The assemblers of the two files *)

Section Assemblers.

Lemma alike_update (a a' b b' : gmap string pyval) :
  alike a a' → alike b b' → alike (FdfToWkt.update a b) (FdfToWkt.update a' b').
Proof.
  intros Ha Hb key Hkey. unfold FdfToWkt.update.
  rewrite !lookup_union, (Ha key Hkey), (Hb key Hkey). reflexivity.
Qed.

Lemma alike_refl (d : gmap string pyval) : alike d d.
Proof. intros key _. reflexivity. Qed.

Lemma alike_keyword (d d' : gmap string pyval) (key : string) :
  alike d d' → key ≠ "line_type" → FdfToWkt.keyword d' key = FdfToWkt.keyword d key.
Proof. intros Hd Hkey. unfold FdfToWkt.keyword. rewrite (Hd key Hkey). reflexivity. Qed.

Lemma shapely_stream_alike (body : string) (dash : pyval) :
  alike (stream_dict body dash) (FdfToShapely.extract_stream_properties body).
Proof.
  intros key Hkey.
  unfold stream_dict, FdfToShapely.extract_stream_properties, FdfToWkt.parse_line_color,
    FdfToWkt.parse_fill_color, FdfToWkt.parse_line_weight, FdfToShapely.tuple_or_none.
  destruct (decide (key = "line_color")) as [-> | H1]; [simplify_map_eq; reflexivity|].
  destruct (decide (key = "fill_color")) as [-> | H2]; [simplify_map_eq; reflexivity|].
  destruct (decide (key = "line_weight")) as [-> | H3]; [simplify_map_eq; reflexivity|].
  simplify_map_eq. reflexivity.
Qed.

Lemma shapely_stream_keys (body : string) :
  dom (FdfToShapely.extract_stream_properties body) ⊆ FdfToWkt.field_names.
Proof. unfold FdfToShapely.extract_stream_properties, FdfToWkt.field_names. set_solver. Qed.

Lemma shapely_stream_truthy (body : string) :
  FdfToWkt.dict_truthy (FdfToShapely.extract_stream_properties body) = true.
Proof.
  unfold FdfToWkt.dict_truthy, FdfToShapely.extract_stream_properties.
  destruct (size _) eqn:Hsize; [|reflexivity].
  apply map_size_empty_iff in Hsize. apply insert_non_empty in Hsize. contradiction.
Qed.

(** [take_up] of fdf_to_wkt.py with its pops done. *)
Lemma take_up_unfolded (st : FdfToWkt.scanner) (line : string) :
  FdfToWkt.take_up st line =
  fields ← FdfToWkt.extract_type_and_vertices line;
  if truthy_str (FdfToWkt.annot_type st) && truthy_str (FdfToWkt.pending_vertices st)
     && FdfToWkt.dict_truthy (FdfToWkt.stream_properties st) then
    properties ← FdfToWkt.new_AnnotationProperties
      (FdfToWkt.update (FdfToWkt.annotation_properties st) (FdfToWkt.stream_properties st));
    Returns
      {| FdfToWkt.annotations :=
           FdfToWkt.annotations st ++
           [{| FdfToWkt.object_type := default EmptyString (FdfToWkt.annot_type st);
               FdfToWkt.vertices := default EmptyString (FdfToWkt.pending_vertices st);
               FdfToWkt.page := FdfToWkt.pending_page st;
               FdfToWkt.label := FdfToWkt.pending_label st;
               FdfToWkt.properties := Some properties;
               FdfToWkt.wkt := None |}];
         FdfToWkt.in_stream_data := FdfToWkt.in_stream_data st;
         FdfToWkt.stream_data := FdfToWkt.stream_data st;
         FdfToWkt.stream_properties := ∅;
         FdfToWkt.annotation_properties :=
           FdfToWkt.update (FdfToWkt.annotation_properties st)
                           (FdfToWkt.stream_properties st);
         FdfToWkt.annot_type := FdfToWkt.annot_type st;
         FdfToWkt.pending_vertices := FdfToWkt.pending_vertices st;
         FdfToWkt.pending_label := FdfToWkt.pending_label st;
         FdfToWkt.pending_page := FdfToWkt.pending_page st |}
  else
    match fields with
    | Some (t, v) => Returns (taken_up st line t v)
    | None => Returns st
    end.
Proof.
  unfold FdfToWkt.take_up.
  destruct (FdfToWkt.extract_type_and_vertices line) as [[[t v]|]|e];
    [|reflexivity|reflexivity].
  cbn [mbind outcome_bind Py.bind].
  destruct (truthy_str _ && truthy_str _ && FdfToWkt.dict_truthy _); [reflexivity|].
  rewrite pop_label. cbn [mbind outcome_bind Py.bind].
  rewrite pop_page. cbn [mbind outcome_bind Py.bind].
  rewrite popped_properties. reflexivity.
Qed.

Lemma take_up_in_step (st : FdfToWkt.scanner) (st' : FdfToShapely.separator)
    (line : string) :
  in_step st st' →
  FdfToShapely.extract_type_and_vertices line =
    FdfToWkt.extract_type_and_vertices line →
  related in_step (FdfToWkt.take_up st line) (FdfToShapely.take_up st' line).
Proof.
  intros (Hout & Hin & Hdata & Htype & Hvert & Hsp & Htruthy & Hap & [Hk1 Hk2]
          & Hk3 & Hk4 & Hbody) Hsame.
  rewrite take_up_unfolded. unfold FdfToShapely.take_up.
  rewrite Hsame, Htype, Hvert, Htruthy.
  destruct (FdfToWkt.extract_type_and_vertices line) as [fields|e]; [|reflexivity].
  cbn [mbind outcome_bind Py.bind].
  destruct (truthy_str _ && truthy_str _ && FdfToWkt.dict_truthy _).
  - unfold FdfToWkt.new_AnnotationProperties, FdfToShapely.new_AnnotationProperties.
    rewrite !bool_decide_eq_true_2 by (apply update_keys; assumption).
    cbn [mbind outcome_bind Py.bind related].
    pose proof (alike_update _ _ _ _ Hap Hsp) as Hnew.
    unfold in_step, keys_are_fields. split_and!; fields_of_both; try assumption; try reflexivity.
    + apply Forall2_app; [exact Hout|]. constructor; [|constructor].
      split; [reflexivity|]. split; [reflexivity|].
      eexists _, _. split; [reflexivity|]. split; [reflexivity|].
      cbn. split_and!; apply alike_keyword; (exact Hnew || discriminate).
    + apply alike_refl.
    + apply update_keys; assumption.
    + set_solver.
    + apply update_keys; assumption.
    + set_solver.
  - destruct fields as [[t v]|]; cbn [related].
    + unfold in_step, keys_are_fields.
      split_and!; fields_of_both; try assumption; try reflexivity.
      * apply alike_update; [exact Hap | apply alike_refl].
      * apply update_keys; [exact Hk1 | apply opacity_keys].
      * apply update_keys; [exact Hk3 | apply opacity_keys].
    + unfold in_step, keys_are_fields. split_and!; assumption.
Qed.

Lemma step_in_step (st : FdfToWkt.scanner) (st' : FdfToShapely.separator)
    (line : string) :
  in_step st st' →
  FdfToShapely.extract_type_and_vertices line =
    FdfToWkt.extract_type_and_vertices line →
  (∃ dash, FdfToWkt.parse_line_type line = Returns dash) →
  related in_step (FdfToWkt.step st line) (FdfToShapely.step st' line).
Proof.
  intros Hstep Hsame Hline.
  pose proof Hstep as (Hout & Hin & Hdata & Htype & Hvert & Hsp & Htruthy & Hap
                       & [Hk1 Hk2] & Hk3 & Hk4 & Hbody).
  unfold FdfToWkt.step, FdfToShapely.step. rewrite Hin, Hdata.
  destruct (str_in "endstream" line && truthy_str (FdfToWkt.stream_data st)) eqn:Hclose.
  - apply andb_true_iff in Hclose as [_ Hheld].
    destruct (FdfToWkt.stream_data st) as [body|] eqn:Hstream; [|discriminate].
    destruct (Hbody body eq_refl) as [dash Hdash].
    change (default EmptyString (Some body)) with body.
    rewrite (extract_stream_properties_dict body dash Hdash).
    cbn [mbind outcome_bind Py.bind].
    apply take_up_in_step; [|exact Hsame].
    unfold in_step, keys_are_fields. split_and!; fields_of_both; try assumption; try reflexivity.
    + apply shapely_stream_alike.
    + apply stream_keys.
    + apply shapely_stream_keys.
    + discriminate.
  - destruct (FdfToWkt.in_stream_data st).
    { cbn [related]. unfold in_step, keys_are_fields.
      split_and!; fields_of_both; try assumption; try reflexivity.
      intros body [= <-]. exact Hline. }
    destruct (negb _ && negb _); [exact Hstep|].
    destruct (str_in "stream" line).
    { cbn [related]. unfold in_step, keys_are_fields.
      split_and!; fields_of_both; try assumption; reflexivity. }
    apply take_up_in_step; assumption.
Qed.

Lemma scan_in_step (lines : list string) :
  ∀ st st', in_step st st' →
    Forall (λ line, FdfToShapely.extract_type_and_vertices line =
                    FdfToWkt.extract_type_and_vertices line) lines →
    Forall (λ line, ∃ dash, FdfToWkt.parse_line_type line = Returns dash) lines →
    related in_step (FdfToWkt.scan st lines) (FdfToShapely.scan st' lines).
Proof.
  induction lines as [|line lines IH]; intros st st' Hstep Hsame Hdash.
  - exact Hstep.
  - apply Forall_cons in Hsame as [Hline Hsame].
    apply Forall_cons in Hdash as [Hdashed Hdash].
    cbn [FdfToWkt.scan FdfToShapely.scan].
    pose proof (step_in_step st st' line Hstep Hline Hdashed) as Hone.
    destruct (FdfToWkt.step st line) as [st1|e], (FdfToShapely.step st' line) as [st1'|e'];
      cbn [related] in Hone; try contradiction.
    + cbn [mbind outcome_bind Py.bind]. exact (IH st1 st1' Hone Hsame Hdash).
    + exact Hone.
Qed.

Lemma start_in_step : in_step FdfToWkt.start FdfToShapely.start.
Proof.
  unfold in_step, keys_are_fields. split_and!; fields_of_both;
    first [reflexivity | constructor | apply alike_refl | discriminate | set_solver].
Qed.

(** X15: the assemblers of the two files on the same document.  When the
    two type-and-vertices extractors give the same outcome on every line
    and no line has a dash pattern that fdf_to_wkt.py cannot convert,
    [separate_fdf_objects] and [get_annotations_from_fdf] raise the same
    error, or return as many annotations, in the same order, with the same
    object types, vertices, colours, line weight and opacities. *)
Theorem assemblers_of_the_two_files (lines : list string) :
  Forall (λ line, FdfToShapely.extract_type_and_vertices line =
                  FdfToWkt.extract_type_and_vertices line) lines →
  Forall (λ line, ∃ dash, FdfToWkt.parse_line_type line = Returns dash) lines →
  related (Forall2 same_object)
    (FdfToWkt.get_annotations_from_fdf lines)
    (FdfToShapely.separate_fdf_objects lines).
Proof.
  intros Hsame Hdash.
  pose proof (scan_in_step lines _ _ start_in_step Hsame Hdash) as Hscan.
  unfold FdfToWkt.get_annotations_from_fdf, FdfToShapely.separate_fdf_objects.
  destruct (FdfToWkt.scan FdfToWkt.start lines) as [st|e],
    (FdfToShapely.scan FdfToShapely.start lines) as [st'|e'];
    cbn [related mbind outcome_bind Py.bind] in *; try contradiction.
  - apply Hscan.
  - exact Hscan.
Qed.

Lemma assemblers_of_the_two_files_witness :
  related (Forall2 same_object)
    (FdfToWkt.get_annotations_from_fdf
       ["1 0 obj<</Subj(Polygon)/Vertices[0 0 1 0 1 1]/FillOpacity 0.5/>>";
        "stream"; "1 0 0 rg [3 2] 0 d"; "endstream"])
    (FdfToShapely.separate_fdf_objects
       ["1 0 obj<</Subj(Polygon)/Vertices[0 0 1 0 1 1]/FillOpacity 0.5/>>";
        "stream"; "1 0 0 rg [3 2] 0 d"; "endstream"]).
Proof.
  apply assemblers_of_the_two_files.
  - repeat constructor.
  - repeat (constructor; [eexists; vm_compute; reflexivity|]). constructor.
Defined.

End Assemblers.

(** ** The annotation assembler: the lines of a stream *)

Section StreamLines.

Import FdfToWkt.

(** Lines that are no headers and do not hold [stream] are skipped,
    whatever the scanner holds. *)
Lemma scan_skipped (lines : list string) (st : scanner) :
  in_stream_data st = false →
  Forall (λ line, is_header line = false ∧ str_in "stream" line = false) lines →
  scan st lines = Returns st.
Proof.
  intros Hin. induction 1 as [|line lines [Hheader Hno] _ IH]; [reflexivity|].
  cbn [scan]. unfold step at 1.
  rewrite (no_stream_no_endstream line Hno), Hin, Hno.
  unfold is_header in Hheader. rewrite Hheader. cbn [andb negb].
  cbn [mbind outcome_bind Py.bind]. exact IH.
Qed.



(** X17: of a stream body only the first line counts.  When a type and
    vertices are held, the line after the opening of the stream gives the
    properties of the annotation that the closing line appends; the lines
    between that first line and the closing line, which are no headers and
    do not hold [stream], change nothing, whatever operators they hold. *)
Theorem first_body_line_counts (st : scanner)
    (annot_type vertices opening body closing : string) (more : list string)
    (dash : pyval) (closing_fields : option (string * string)) :
  holding st annot_type vertices →
  str_in "stream" opening = true →
  body ≠ EmptyString →
  parse_line_type body = Returns dash →
  Forall (λ line, is_header line = false ∧ str_in "stream" line = false) more →
  str_in "endstream" closing = true →
  extract_type_and_vertices closing = Returns closing_fields →
  scan st (opening :: body :: more ++ [closing]) =
    Returns (after_block st annot_type vertices body dash) ∧
  scan st (opening :: body :: more ++ [closing]) = scan st [opening; body; closing].
Proof.
  intros Hheld Hopen Hbody Hdash Hmore Hclose Hfields.
  destruct (scan_block st annot_type vertices opening body closing dash closing_fields
              Hheld Hopen Hbody Hdash Hclose Hfields) as [Hblock _].
  assert (Hlong : scan st (opening :: body :: more ++ [closing]) =
                  scan st [opening; body; closing]).
  { destruct Hheld as (Hin & Hdata & _).
    cbn [scan]. rewrite (step_opening st opening Hin Hdata Hopen).
    cbn [mbind outcome_bind Py.bind].
    rewrite step_body by (cbn; assumption || reflexivity).
    cbn [mbind outcome_bind Py.bind].
    rewrite scan_app, scan_skipped by (reflexivity || exact Hmore).
    reflexivity. }
  split; [rewrite Hlong; exact Hblock | exact Hlong].
Qed.

Lemma first_body_line_counts_witness :
  get_annotations_from_fdf
    ["1 0 obj<</Subj(Line)/L[1 2 3 4]>>"; "stream"; "q"; "0 0 1 RG 2 w"; "endstream"] =
  get_annotations_from_fdf
    ["1 0 obj<</Subj(Line)/L[1 2 3 4]>>"; "stream"; "q"; "endstream"].
Proof.
  unfold get_annotations_from_fdf.
  change ["1 0 obj<</Subj(Line)/L[1 2 3 4]>>"; "stream"; "q"; "0 0 1 RG 2 w"; "endstream"]
    with (["1 0 obj<</Subj(Line)/L[1 2 3 4]>>"]
          ++ "stream" :: "q" :: ["0 0 1 RG 2 w"] ++ ["endstream"]).
  change ["1 0 obj<</Subj(Line)/L[1 2 3 4]>>"; "stream"; "q"; "endstream"]
    with (["1 0 obj<</Subj(Line)/L[1 2 3 4]>>"] ++ ["stream"; "q"; "endstream"]).
  rewrite !scan_app.
  destruct (scan start ["1 0 obj<</Subj(Line)/L[1 2 3 4]>>"]) as [st|e] eqn:Hfirst;
    [|reflexivity].
  cbn [mbind outcome_bind Py.bind]. f_equal.
  assert (Hst : st = taken_up start "1 0 obj<</Subj(Line)/L[1 2 3 4]>>" "Line" "1 2 3 4").
  { assert (Hrun : scan start ["1 0 obj<</Subj(Line)/L[1 2 3 4]>>"] =
                   Returns (taken_up start "1 0 obj<</Subj(Line)/L[1 2 3 4]>>"
                              "Line" "1 2 3 4")).
    { cbn [scan]. rewrite (step_header start _ "Line" "1 2 3 4" start_idle);
        [reflexivity | vm_compute; reflexivity | vm_compute; reflexivity
        | vm_compute; reflexivity]. }
    rewrite Hrun in Hfirst. injection Hfirst as <-. reflexivity. }
  apply (first_body_line_counts st "Line" "1 2 3 4" "stream" "q" "endstream"
           ["0 0 1 RG 2 w"] PyNone None).
  - rewrite Hst. apply taken_up_holding; [apply start_idle | vm_compute; reflexivity].
  - vm_compute. reflexivity.
  - discriminate.
  - vm_compute. reflexivity.
  - constructor; [split; vm_compute; reflexivity | constructor].
  - vm_compute. reflexivity.
  - vm_compute. reflexivity.
Defined.

End StreamLines.
